(** * Verification of the Evolution API tool gateway (src/index.js)

    Shallow embedding of the MCP server in [src/index.js]: the zod input
    schemas ([schemas.toolInputs]), the environment reader [getEnv], the
    per-tool handlers of [toolHandlers] with the single axios request each
    one issues, the JSON serialisation used in the result texts, and the
    [CallToolRequestSchema] dispatcher.

    Modelling conventions.
    - JavaScript values that cross the code are JSON values plus [undefined]
      ([jval]).  An object is an association list in insertion order.
    - A JavaScript number is the exact decimal it denotes, [m * 10^e]; the
      rounding to binary64 is not modelled (JSON inputs are decimals).
    - The remote HTTP server is an oracle [remote : request -> raw_response]:
      a handler issues at most one request, and the dispatcher returns the
      list of requests made together with its outcome. *)

From Stdlib Require Import ZArith List String Ascii Bool Lia.
From Stdlib Require Import Numbers.DecimalString.
Import ListNotations.
Open Scope string_scope.

#[local] Set Warnings "-register-all".

(* ------------------------------------------------------------------ *)
(** ** JavaScript values *)

Inductive jval : Type :=
| JUndef : jval
| JNull : jval
| JBool : bool -> jval
| JNum : Z -> Z -> jval            (* JNum m e denotes m * 10^e *)
| JStr : string -> jval
| JArr : list jval -> jval
| JObj : list (string * jval) -> jval.

(** The integer [n] as a JavaScript number. *)
Definition num (n : Z) : jval := JNum n 0.

(** Own-property lookup [o[k]] on an object literal (first binding). *)
Fixpoint assoc (k : string) (l : list (string * jval)) : option jval :=
  match l with
  | [] => None
  | (k', v) :: l' => if String.eqb k k' then Some v else assoc k l'
  end.

(** Property read [v.k]; [undefined] when absent. *)
Definition jget (v : jval) (k : string) : jval :=
  match v with
  | JObj l => match assoc k l with Some x => x | None => JUndef end
  | _ => JUndef
  end.

(** [k in v] for an object. *)
Definition jhas (v : jval) (k : string) : bool :=
  match v with
  | JObj l => match assoc k l with Some _ => true | None => false end
  | _ => false
  end.

(** Numeric value of [JNum m e] as a fraction, used for comparisons. *)
Definition num_cmp_ge (m e : Z) (c : Z) : bool :=
  (* m * 10^e >= c *)
  if (0 <=? e)%Z then (c <=? m * 10 ^ e)%Z else (c * 10 ^ (- e) <=? m)%Z.

Definition num_cmp_gt (m e : Z) (c : Z) : bool :=
  if (0 <=? e)%Z then (c <? m * 10 ^ e)%Z else (c * 10 ^ (- e) <? m)%Z.

(** [Number.isInteger]. *)
Definition num_is_integer (m e : Z) : bool :=
  if (0 <=? e)%Z then true else (Z.modulo m (10 ^ (- e)) =? 0)%Z.

(** JavaScript truthiness. *)
Definition truthy (v : jval) : bool :=
  match v with
  | JUndef | JNull => false
  | JBool b => b
  | JNum m _ => negb (m =? 0)%Z
  | JStr s => negb (String.eqb s "")
  | JArr _ | JObj _ => true
  end.

(* ------------------------------------------------------------------ *)
(** ** Strings *)

Definition chr (n : nat) : string := String (ascii_of_nat n) EmptyString.
Definition dq : string := chr 34.          (* the double quote *)
Definition nl : string := chr 10.          (* newline *)

Fixpoint concat_with (sep : string) (l : list string) : string :=
  match l with
  | [] => ""
  | [s] => s
  | s :: l' => s ++ sep ++ concat_with sep l'
  end.

Fixpoint repeat_str (s : string) (n : nat) : string :=
  match n with O => "" | S n' => s ++ repeat_str s n' end.

Definition Z_to_string (z : Z) : string :=
  NilEmpty.string_of_int (Z.to_int z).

Definition nat_to_string (n : nat) : string := Z_to_string (Z.of_nat n).

(** Strip the trailing decimal zeros of a positive mantissa. *)
Fixpoint normalize_fuel (fuel : nat) (m e : Z) : Z * Z :=
  match fuel with
  | O => (m, e)
  | S f => if (Z.modulo m 10 =? 0)%Z then normalize_fuel f (m / 10) (e + 1) else (m, e)
  end.

Definition normalize (m e : Z) : Z * Z :=
  normalize_fuel (Z.to_nat (Z.log2 (Z.abs m) + 1)) m e.

Definition str_take (n : nat) (s : string) : string := substring 0 n s.
Definition str_drop (n : nat) (s : string) : string := substring n (String.length s - n) s.

(** [Number.prototype.toString] for a positive value [m * 10^e]
    (ECMA-262 Number::toString, radix 10). *)
Definition pos_num_to_string (m e : Z) : string :=
  let '(m', e') := normalize m e in
  let s := Z_to_string m' in
  let k := Z.of_nat (String.length s) in
  let n := (k + e')%Z in
  if ((k <=? n) && (n <=? 21))%Z%bool then s ++ repeat_str "0" (Z.to_nat (n - k))
  else if ((0 <? n) && (n <=? 21))%Z%bool then
    str_take (Z.to_nat n) s ++ "." ++ str_drop (Z.to_nat n) s
  else if ((-6 <? n) && (n <=? 0))%Z%bool then
    "0." ++ repeat_str "0" (Z.to_nat (- n)) ++ s
  else
    let x := (n - 1)%Z in
    let ex := (if (x <? 0)%Z then "-" else "+") ++ Z_to_string (Z.abs x) in
    if (k =? 1)%Z then s ++ "e" ++ ex
    else str_take 1 s ++ "." ++ str_drop 1 s ++ "e" ++ ex.

Definition num_to_string (m e : Z) : string :=
  if (m =? 0)%Z then "0"
  else if (m <? 0)%Z then "-" ++ pos_num_to_string (- m) e
  else pos_num_to_string m e.


(* ------------------------------------------------------------------ *)
(** ** [JSON.stringify] and [String(v)] *)

Definition hex_digit (n : nat) : string :=
  chr (if Nat.ltb n 10 then 48 + n else 87 + n).

(** One character of QuoteJSONString. *)
Definition quote_char (c : ascii) : string :=
  let n := nat_of_ascii c in
  if Nat.eqb n 34 then "\" ++ dq
  else if Nat.eqb n 92 then "\\"
  else if Nat.eqb n 8 then "\b"
  else if Nat.eqb n 12 then "\f"
  else if Nat.eqb n 10 then "\n"
  else if Nat.eqb n 13 then "\r"
  else if Nat.eqb n 9 then "\t"
  else if Nat.ltb n 32 then "\u00" ++ hex_digit (n / 16) ++ hex_digit (n mod 16)
  else String c EmptyString.

Fixpoint quote_body (s : string) : string :=
  match s with
  | EmptyString => ""
  | String c s' => quote_char c ++ quote_body s'
  end.

Definition json_quote (s : string) : string := dq ++ quote_body s ++ dq.

(** SerializeJSONProperty with indentation unit [gap] at indentation [ind];
    [None] is the JavaScript [undefined] result. *)
Fixpoint serialize (gap ind : string) (v : jval) {struct v} : option string :=
  let ind' := ind ++ gap in
  match v with
  | JUndef => None
  | JNull => Some "null"
  | JBool b => Some (if b then "true" else "false")
  | JNum m e => Some (num_to_string m e)
  | JStr s => Some (json_quote s)
  | JArr l =>
      let parts :=
        (fix go (l : list jval) : list string :=
           match l with
           | [] => []
           | x :: l' =>
               match serialize gap ind' x with Some s => s | None => "null" end :: go l'
           end) l in
      Some (match parts with
            | [] => "[]"
            | _ => if String.eqb gap "" then "[" ++ concat_with "," parts ++ "]"
                   else "[" ++ nl ++ ind' ++ concat_with ("," ++ nl ++ ind') parts
                        ++ nl ++ ind ++ "]"
            end)
  | JObj l =>
      let parts :=
        (fix go (l : list (string * jval)) : list string :=
           match l with
           | [] => []
           | (k, x) :: l' =>
               match serialize gap ind' x with
               | Some s => (json_quote k ++ ":" ++ (if String.eqb gap "" then "" else " ") ++ s)
                           :: go l'
               | None => go l'
               end
           end) l in
      Some (match parts with
            | [] => "{}"
            | _ => if String.eqb gap "" then "{" ++ concat_with "," parts ++ "}"
                   else "{" ++ nl ++ ind' ++ concat_with ("," ++ nl ++ ind') parts
                        ++ nl ++ ind ++ "}"
            end)
  end.

(** [JSON.stringify(v)] *)
Definition stringify (v : jval) : option string := serialize "" "" v.

(** [JSON.stringify(v, null, 2)] *)
Definition stringify2 (v : jval) : option string := serialize "  " "" v.

(** [String(v)], as in a template literal [`${v}`]. *)
Fixpoint js_to_string (v : jval) : string :=
  match v with
  | JUndef => "undefined"
  | JNull => "null"
  | JBool b => if b then "true" else "false"
  | JNum m e => num_to_string m e
  | JStr s => s
  | JArr l =>
      concat_with ","
        ((fix go (l : list jval) : list string :=
            match l with
            | [] => []
            | x :: l' =>
                match x with
                | JUndef | JNull => ""
                | _ => js_to_string x
                end :: go l'
            end) l)
  | JObj _ => "[object Object]"
  end.

(** [`${JSON.stringify(v, ...)}`]: an [undefined] result prints as such. *)
Definition opt_text (o : option string) : string :=
  match o with Some s => s | None => "undefined" end.


(* ------------------------------------------------------------------ *)
(** ** The zod schemas (zod v3, default [strip] objects) *)

(** Checks of [z.number()]: [.int()], [.min(c)] (inclusive) and
    [.positive()] (= exclusive minimum 0). *)
Inductive numcheck : Type :=
| NInt : numcheck
| NMin : Z -> bool -> numcheck.      (* bound, inclusive *)

Inductive zschema : Type :=
| ZString : zschema
| ZBoolean : zschema
| ZNumber : list numcheck -> zschema
| ZEnum : list jval -> zschema                     (* z.enum(values) *)
| ZArray : zschema -> option nat -> option nat -> zschema   (* .min, .max *)
| ZObject : list (string * zschema) -> zschema
| ZOptional : zschema -> zschema
| ZDefault : zschema -> jval -> zschema
| ZRefine : zschema -> (jval -> bool) -> string -> zschema. (* .refine(f, {message}) *)

Inductive path_elem : Type :=
| PKey : string -> path_elem
| PIdx : nat -> path_elem.

(** A zod issue, with its path and the message of the default error map. *)
Record issue : Type := mk_issue { ipath : list path_elem; imessage : string }.

(** [ParseStatus]: valid, dirty (issues reported, value kept) or aborted. *)
Inductive zstatus : Type :=
| ZValid : jval -> zstatus
| ZDirty : jval -> zstatus
| ZAborted : zstatus.

(** [getParsedType] *)
Definition parsed_type (v : jval) : string :=
  match v with
  | JUndef => "undefined"
  | JNull => "null"
  | JBool _ => "boolean"
  | JNum _ _ => "number"
  | JStr _ => "string"
  | JArr _ => "array"
  | JObj _ => "object"
  end.

(** Default error map, [invalid_type]. *)
Definition invalid_type_msg (expected : string) (v : jval) : string :=
  match v with
  | JUndef => "Required"
  | _ => "Expected " ++ expected ++ ", received " ++ parsed_type v
  end.

Definition squote : string := chr 39.

(** [util.joinValues] *)
Definition join_values (vs : list jval) : string :=
  concat_with " | "
    (map (fun v => match v with
                   | JStr s => squote ++ s ++ squote
                   | _ => js_to_string v
                   end) vs).

Fixpoint jval_eqb (a b : jval) {struct a} : bool :=
  match a, b with
  | JUndef, JUndef | JNull, JNull => true
  | JBool x, JBool y => Bool.eqb x y
  | JNum m e, JNum m' e' => (m =? m')%Z && (e =? e')%Z
  | JStr x, JStr y => String.eqb x y
  | JArr l, JArr l' =>
      (fix go (l l' : list jval) : bool :=
         match l, l' with
         | [], [] => true
         | x :: r, y :: r' => jval_eqb x y && go r r'
         | _, _ => false
         end) l l'
  | JObj l, JObj l' =>
      (fix go (l l' : list (string * jval)) : bool :=
         match l, l' with
         | [], [] => true
         | (k, x) :: r, (k', y) :: r' => String.eqb k k' && jval_eqb x y && go r r'
         | _, _ => false
         end) l l'
  | _, _ => false
  end.

Definition is_dirty (st : zstatus) : bool :=
  match st with ZDirty _ => true | _ => false end.

Definition mark (dirty : bool) (v : jval) : zstatus :=
  if dirty then ZDirty v else ZValid v.

(** The checks of [ZodNumber._parse], in declaration order. *)
Definition number_checks (path : list path_elem) (m e : Z) (cs : list numcheck)
  : list issue :=
  flat_map (fun c =>
    match c with
    | NInt => if num_is_integer m e then []
              else [mk_issue path "Expected integer, received float"]
    | NMin b incl =>
        let too_small := if incl then negb (num_cmp_ge m e b) else negb (num_cmp_gt m e b) in
        if too_small then
          [mk_issue path ("Number must be " ++
             (if incl then "greater than or equal to " else "greater than ") ++ Z_to_string b)]
        else []
    end) cs.

(** [schema._parse] at [path]: the issues added, in order, and the status. *)
Fixpoint zparse (s : zschema) (path : list path_elem) (v : jval) {struct s}
  : list issue * zstatus :=
  match s with
  | ZString =>
      match v with
      | JStr _ => ([], ZValid v)
      | _ => ([mk_issue path (invalid_type_msg "string" v)], ZAborted)
      end
  | ZBoolean =>
      match v with
      | JBool _ => ([], ZValid v)
      | _ => ([mk_issue path (invalid_type_msg "boolean" v)], ZAborted)
      end
  | ZNumber cs =>
      match v with
      | JNum m e => let is := number_checks path m e cs in
                    (is, mark (negb (Nat.eqb (List.length is) 0)) v)
      | _ => ([mk_issue path (invalid_type_msg "number" v)], ZAborted)
      end
  | ZEnum vals =>
      match v with
      | JStr str =>
          if existsb (jval_eqb v) vals then ([], ZValid v)
          else ([mk_issue path ("Invalid enum value. Expected " ++ join_values vals
                                 ++ ", received " ++ squote ++ str ++ squote)], ZAborted)
      | _ => ([mk_issue path (invalid_type_msg (join_values vals) v)], ZAborted)
      end
  | ZArray t mn mx =>
      match v with
      | JArr l =>
          let is_min := match mn with
                        | Some n => if Nat.ltb (List.length l) n then
                                      [mk_issue path ("Array must contain at least "
                                         ++ nat_to_string n ++ " element(s)")] else []
                        | None => [] end in
          let is_max := match mx with
                        | Some n => if Nat.ltb n (List.length l) then
                                      [mk_issue path ("Array must contain at most "
                                         ++ nat_to_string n ++ " element(s)")] else []
                        | None => [] end in
          let fix go (i : nat) (l : list jval) : list issue * option (bool * list jval) :=
            match l with
            | [] => ([], Some (false, []))
            | x :: r =>
                let '(is1, st) := zparse t (path ++ [PIdx i])%list x in
                let '(is2, rest) := go (S i) r in
                ((is1 ++ is2)%list,
                 match st, rest with
                 | ZAborted, _ | _, None => None
                 | ZValid y, Some (d, ys) => Some (d, y :: ys)
                 | ZDirty y, Some (_, ys) => Some (true, y :: ys)
                 end)
            end in
          let '(is_el, res) := go 0 l in
          ((is_min ++ is_max ++ is_el)%list,
           match res with
           | None => ZAborted
           | Some (d, ys) => mark (d || negb (Nat.eqb (List.length (is_min ++ is_max)%list) 0)) (JArr ys)
           end)
      | _ => ([mk_issue path (invalid_type_msg "array" v)], ZAborted)
      end
  | ZObject shape =>
      match v with
      | JObj _ =>
          let fix go (sh : list (string * zschema))
              : list issue * option (bool * list (string * jval)) :=
            match sh with
            | [] => ([], Some (false, []))
            | (k, t) :: r =>
                let '(is1, st) := zparse t (path ++ [PKey k])%list (jget v k) in
                let '(is2, rest) := go r in
                let keep (y : jval) (ys : list (string * jval)) :=
                  match y with
                  | JUndef => if jhas v k then (k, y) :: ys else ys
                  | _ => (k, y) :: ys
                  end in
                ((is1 ++ is2)%list,
                 match st, rest with
                 | ZAborted, _ | _, None => None
                 | ZValid y, Some (d, ys) => Some (d, keep y ys)
                 | ZDirty y, Some (_, ys) => Some (true, keep y ys)
                 end)
            end in
          let '(is, res) := go shape in
          (is, match res with
               | None => ZAborted
               | Some (d, fs) => mark d (JObj fs)
               end)
      | _ => ([mk_issue path (invalid_type_msg "object" v)], ZAborted)
      end
  | ZOptional t =>
      match v with
      | JUndef => ([], ZValid JUndef)
      | _ => zparse t path v
      end
  | ZDefault t d =>
      match v with
      | JUndef => zparse t path d
      | _ => zparse t path v
      end
  | ZRefine t check msg =>
      let '(is, st) := zparse t path v in
      match st with
      | ZAborted => (is, ZAborted)
      | ZValid y | ZDirty y =>
          if check y then (is, st) else ((is ++ [mk_issue path msg])%list, ZDirty y)
      end
  end.

(** [schema.parse(v)]: the parsed value, or the issues of the thrown [ZodError]. *)
Definition zod_parse (s : zschema) (v : jval) : list issue + jval :=
  match zparse s [] v with
  | (_, ZValid y) => inr y
  | (is, _) => inl is
  end.


(** [val => val === true] *)
Definition is_true_literal (v : jval) : bool :=
  match v with JBool true => true | _ => false end.

Definition zstr_opt : zschema := ZOptional ZString.
Definition zbool_opt : zschema := ZOptional ZBoolean.
Definition zenum (l : list string) : zschema := ZEnum (map JStr l).
(** [delay: z.number().optional()] *)
Definition zdelay : zschema := ZOptional (ZNumber []).
(** [quoted: z.object({ key: z.object({ id: z.string() }) }).optional()] *)
Definition zquoted : zschema := ZOptional (ZObject [("key", ZObject [("id", ZString)])]).
(** [z.array(z.string()).optional()] *)
Definition zmentioned : zschema := ZOptional (ZArray ZString None None).

(** [schemas.toolInputs] *)
Module Schemas.
Definition create_instance : zschema := ZObject [
  ("instanceName", ZString); ("token", zstr_opt);
  ("qrcode", ZDefault zbool_opt (JBool true))].
Definition fetch_instances : zschema := ZObject [
  ("instanceName", zstr_opt); ("instanceId", zstr_opt)].
Definition connect_instance : zschema := ZObject [].
Definition restart_instance : zschema := ZObject [].
Definition set_presence : zschema := ZObject [
  ("presence", zenum ["available"; "unavailable"])].
Definition get_connection_state : zschema := ZObject [].
Definition logout_instance : zschema := ZObject [].
Definition delete_instance : zschema := ZObject [].
Definition set_settings : zschema := ZObject [
  ("rejectCall", zbool_opt); ("msgCall", zstr_opt); ("groupsIgnore", zbool_opt);
  ("alwaysOnline", zbool_opt); ("readMessages", zbool_opt);
  ("syncFullHistory", zbool_opt); ("readStatus", zbool_opt)].
Definition find_settings : zschema := ZObject [].
Definition send_text : zschema := ZObject [
  ("number", ZString); ("text", ZString);
  ("options", ZOptional (ZObject [
     ("delay", zdelay);
     ("quoted", zquoted);
     ("mentionsEveryOne", ZDefault zbool_opt (JBool false));
     ("mentioned", zmentioned)]))].
Definition send_media : zschema := ZObject [
  ("number", ZString); ("mediatype", zenum ["image"; "video"; "document"]);
  ("mimetype", zstr_opt); ("media", ZString); ("caption", zstr_opt);
  ("fileName", zstr_opt);
  ("options", ZOptional (ZObject [
     ("delay", zdelay); ("quoted", zquoted); ("mentioned", zmentioned)]))].
Definition send_ptv : zschema := ZObject [
  ("number", ZString); ("video", ZString);
  ("options", ZOptional (ZObject [("delay", zdelay); ("quoted", zquoted)]))].
Definition send_whatsapp_audio : zschema := ZObject [
  ("number", ZString); ("audio", ZString);
  ("options", ZOptional (ZObject [
     ("delay", zdelay); ("quoted", zquoted); ("encoding", zbool_opt)]))].
Definition send_sticker : zschema := ZObject [
  ("number", ZString); ("sticker", ZString);
  ("options", ZOptional (ZObject [
     ("delay", zdelay); ("quoted", zquoted); ("mentioned", zmentioned)]))].
Definition send_location : zschema := ZObject [
  ("number", ZString); ("latitude", ZNumber []); ("longitude", ZNumber []);
  ("name", zstr_opt); ("address", zstr_opt);
  ("options", ZOptional (ZObject [("delay", zdelay); ("quoted", zquoted)]))].
Definition send_contact : zschema := ZObject [
  ("number", ZString);
  ("contacts", ZArray (ZObject [
     ("fullName", ZString); ("wuid", ZString); ("phoneNumber", ZString);
     ("organization", zstr_opt); ("email", zstr_opt); ("url", zstr_opt)]) None None);
  ("options", ZOptional (ZObject [("delay", zdelay); ("quoted", zquoted)]))].
Definition send_reaction : zschema := ZObject [
  ("key", ZObject [("remoteJid", ZString); ("fromMe", ZBoolean); ("id", ZString)]);
  ("reaction", ZString)].
Definition send_poll : zschema := ZObject [
  ("number", ZString); ("name", ZString);
  ("selectableCount", ZDefault (ZNumber [NInt; NMin 1 true]) (num 1));
  ("values", ZArray ZString (Some 1) None);
  ("options", ZOptional (ZObject [("delay", zdelay); ("quoted", zquoted)]))].
Definition send_list : zschema := ZObject [
  ("number", ZString); ("title", ZString); ("description", ZString);
  ("buttonText", ZString); ("footerText", zstr_opt);
  ("sections", ZArray (ZObject [
     ("title", ZString);
     ("rows", ZArray (ZObject [
        ("title", ZString); ("description", zstr_opt); ("rowId", ZString)]) (Some 1) None)])
     (Some 1) None);
  ("options", ZOptional (ZObject [("delay", zdelay); ("quoted", zquoted)]))].
Definition send_buttons : zschema := ZObject [
  ("number", ZString); ("title", zstr_opt); ("description", ZString);
  ("footer", zstr_opt);
  ("buttons", ZArray (ZObject [
     ("type", zenum ["reply"; "url"; "call"; "copy"; "pix"]);
     ("displayText", ZString); ("id", zstr_opt); ("url", zstr_opt);
     ("phoneNumber", zstr_opt); ("copyCode", zstr_opt); ("currency", zstr_opt);
     ("name", zstr_opt);
     ("keyType", ZOptional (zenum ["phone"; "email"; "cpf"; "cnpj"; "random"]));
     ("key", zstr_opt)]) (Some 1) (Some 3));
  ("options", ZOptional (ZObject [("delay", zdelay); ("quoted", zquoted)]))].
Definition check_whatsapp_numbers : zschema := ZObject [
  ("numbers", ZArray ZString (Some 1) None)].
Definition mark_message_as_read : zschema := ZObject [
  ("readMessages", ZArray (ZObject [
     ("remoteJid", ZString); ("fromMe", ZBoolean); ("id", ZString)]) (Some 1) None)].
Definition archive_chat : zschema := ZObject [
  ("chat", ZString); ("archive", ZBoolean)].
Definition mark_chat_unread : zschema := ZObject [("chat", ZString)].
Definition delete_message : zschema := ZObject [
  ("key", ZObject [("id", ZString); ("remoteJid", ZString); ("fromMe", ZBoolean);
                   ("participant", zstr_opt)])].
Definition fetch_profile_picture_url : zschema := ZObject [("number", ZString)].
Definition get_base64_from_media_message : zschema := ZObject [
  ("messageKey", ZObject [("id", ZString); ("remoteJid", ZString); ("fromMe", ZBoolean)]);
  ("convertToMp4", ZDefault zbool_opt (JBool false))].
Definition update_message : zschema := ZObject [
  ("key", ZObject [
     ("id", ZString); ("remoteJid", ZString);
     ("fromMe", ZRefine ZBoolean is_true_literal
                  "Can only edit messages sent by the bot (fromMe must be true).")]);
  ("text", ZString)].
Definition send_presence : zschema := ZObject [
  ("number", ZString);
  ("presence", zenum ["unavailable"; "available"; "composing"; "recording"; "paused"]);
  ("delay", ZDefault zdelay (num 1200))].
Definition update_block_status : zschema := ZObject [
  ("number", ZString); ("status", zenum ["block"; "unblock"])].
Definition find_contacts : zschema := ZObject [].
Definition find_messages : zschema := ZObject [
  ("where", ZOptional (ZObject [
     ("key", ZOptional (ZObject [
        ("remoteJid", zstr_opt); ("fromMe", zbool_opt); ("id", zstr_opt)]))]));
  ("page", ZDefault (ZOptional (ZNumber [NInt; NMin 0 false])) (num 1));
  ("limit", ZDefault (ZOptional (ZNumber [NInt; NMin 0 false])) (num 10))].
Definition fetch_profile : zschema := ZObject [("number", ZString)].
Definition update_profile_name : zschema := ZObject [("name", ZString)].
Definition update_profile_status : zschema := ZObject [("status", ZString)].
Definition update_profile_picture : zschema := ZObject [("picture", ZString)].
Definition remove_profile_picture : zschema := ZObject [].
Definition create_group : zschema := ZObject [
  ("subject", ZString); ("description", zstr_opt);
  ("participants", ZArray ZString (Some 1) None)].
Definition fetch_all_groups : zschema := ZObject [
  ("getParticipants", ZDefault zbool_opt (JBool false))].
Definition find_participants : zschema := ZObject [("groupJid", ZString)].
Definition update_participant : zschema := ZObject [
  ("groupJid", ZString); ("action", zenum ["add"; "remove"; "promote"; "demote"]);
  ("participants", ZArray ZString (Some 1) None)].
Definition update_group_subject : zschema := ZObject [
  ("groupJid", ZString); ("subject", ZString)].
Definition update_group_description : zschema := ZObject [
  ("groupJid", ZString); ("description", ZString)].
Definition update_group_picture : zschema := ZObject [
  ("groupJid", ZString); ("image", ZString)].
Definition fetch_invite_code : zschema := ZObject [("groupJid", ZString)].
Definition revoke_invite_code : zschema := ZObject [("groupJid", ZString)].
Definition send_invite : zschema := ZObject [
  ("groupJid", ZString); ("numbers", ZArray ZString (Some 1) None);
  ("description", zstr_opt)].
Definition find_group_by_invite_code : zschema := ZObject [("inviteCode", ZString)].
Definition find_group_by_jid : zschema := ZObject [("groupJid", ZString)].
Definition update_group_setting : zschema := ZObject [
  ("groupJid", ZString);
  ("action", zenum ["announcement"; "not_announcement"; "locked"; "unlocked"])].
(** [z.enum([0, 86400, 604800, 7776000])]: zod's enum accepts strings only. *)
Definition toggle_ephemeral : zschema := ZObject [
  ("groupJid", ZString);
  ("expiration", ZEnum [num 0; num 86400; num 604800; num 7776000])].
Definition leave_group : zschema := ZObject [("groupJid", ZString)].
Definition find_webhook_settings : zschema := ZObject [].
End Schemas.

(* ------------------------------------------------------------------ *)
(** ** Errors, the environment and the HTTP client *)

(** What a handler can throw: a [ZodError], an [Error] or a [TypeError]. *)
Inductive jserror : Type :=
| ZodError : list issue -> jserror
| Error : string -> jserror
| TypeError : string -> jserror.

(** A computation that returns a value or throws (the code before [try]). *)
Inductive res (A : Type) : Type :=
| Ok : A -> res A
| Throw : jserror -> res A.
Arguments Ok {A} _.
Arguments Throw {A} _.

Definition bind {A B : Type} (m : res A) (k : A -> res B) : res B :=
  match m with Ok a => k a | Throw e => Throw e end.

Notation "'let*' x ':=' m 'in' k" := (bind m (fun x => k))
  (at level 200, x name, m at level 100, k at level 200).

(** [process.env] *)
Definition environment := list (string * string).

Fixpoint env_lookup (env : environment) (name : string) : option string :=
  match env with
  | [] => None
  | (k, v) :: r => if String.eqb k name then Some v else env_lookup r name
  end.

(** [getEnv(varName, defaultValue)]: a missing or empty variable without a
    default throws. *)
Definition getEnv (env : environment) (name : string) (default : option string)
  : res string :=
  let value := match env_lookup env name with
               | Some v => if String.eqb v "" then None else Some v
               | None => None
               end in
  match value, default with
  | Some v, _ => Ok v
  | None, Some d => Ok d
  | None, None => Throw (Error ("Missing required environment variable: " ++ name))
  end.

(** [schema.parse(args)] *)
Definition parse (s : zschema) (args : jval) : res jval :=
  match zod_parse s args with
  | inl is => Throw (ZodError is)
  | inr v => Ok v
  end.

Inductive http_method : Type := GET | POST | DELETE.

(** The request axios sends: method, URL, headers, [params] and body. *)
Record request : Type := mk_request {
  method : http_method;
  url : string;
  headers : list (string * string);
  params : option jval;
  body : option jval }.

(** [axios.get(url, {headers, params})] and friends. *)
Definition axios_get (u : string) (h : list (string * string)) (p : option jval) : request :=
  mk_request GET u h p None.
Definition axios_post (u : string) (d : jval) (h : list (string * string)) (p : option jval)
  : request := mk_request POST u h p (Some d).
Definition axios_delete (u : string) (h : list (string * string)) (p : option jval) : request :=
  mk_request DELETE u h p None.

Definition ct_json : string * string := ("Content-Type", "application/json").

(** What the server (or the network) answers. *)
Inductive raw_response : Type :=
| HttpResponse : Z -> jval -> raw_response     (* status code, decoded body *)
| NetworkError : string -> raw_response.       (* error.message, no error.response *)

(** [{ content: [{ type: "text", text }] }] *)
Definition envelope (text : string) : jval :=
  JObj [("content", JArr [JObj [("type", JStr "text"); ("text", JStr text)]])].

(** [error.response?.data ? JSON.stringify(error.response.data) : error.message]
    for a rejected axios promise (status outside 2xx or network failure). *)
Definition error_text (r : raw_response) : string :=
  match r with
  | HttpResponse st d =>
      if truthy d then opt_text (stringify d)
      else "Request failed with status code " ++ Z_to_string st
  | NetworkError m => m
  end.

(** The [try { await axios...; return ok } catch { return error envelope }]
    block shared by all handlers: [ok] builds the success text from
    [response.data], [prefix] starts the error text. *)
Definition settle (ok : jval -> string) (prefix : string) (r : raw_response) : jval :=
  match r with
  | HttpResponse st d =>
      if ((200 <=? st) && (st <? 300))%Z then envelope (ok d)
      else envelope (prefix ++ error_text r)
  | NetworkError _ => envelope (prefix ++ error_text r)
  end.

(** What a handler does once its synchronous prelude has not thrown: return
    at once, or send one request and continue with its response. *)
Inductive hstep : Type :=
| HReturn : jval -> hstep
| HCall : request -> (raw_response -> jval) -> hstep.

Definition call (req : request) (ok : jval -> string) (prefix : string) : res hstep :=
  Ok (HCall req (settle ok prefix)).

(** [JSON.stringify(response.data, null, 2)] inside a template literal. *)
Definition pretty (d : jval) : string := opt_text (stringify2 d).

(** [`...${parsed.x}...`] *)
Definition fld (v : jval) (k : string) : string := js_to_string (jget v k).

(* ------------------------------------------------------------------ *)
(** ** The handlers of [toolHandlers] *)

Definition EVOLUTION_INSTANCE : string := "EVOLUTION_INSTANCE".
Definition EVOLUTION_APIKEY : string := "EVOLUTION_APIKEY".
Definition EVOLUTION_API_BASE : string := "EVOLUTION_API_BASE".
Definition default_base : option string := Some "localhost:8080".

Definition qr_note : string :=
  nl ++ nl ++ "(QR Code base64 data received, cannot display image here)".

Module Handlers.

Definition create_instance (env : environment) (args : jval) : res hstep :=
  let* parsed := parse Schemas.create_instance args in
  let* apiKey := getEnv env EVOLUTION_APIKEY None in
  let* apiBase := getEnv env EVOLUTION_API_BASE default_base in
  let url := "https://" ++ apiBase ++ "/instance/create" in
  call (axios_post url parsed [ct_json; ("apikey", apiKey)] None)
    (fun d => "Instance creation initiated. Response: " ++ pretty d)
    "Error creating instance: ".

Definition fetch_instances (env : environment) (args : jval) : res hstep :=
  let* parsed := parse Schemas.fetch_instances args in
  let* apiKey := getEnv env EVOLUTION_APIKEY None in
  let* apiBase := getEnv env EVOLUTION_API_BASE default_base in
  let url := "https://" ++ apiBase ++ "/instance/fetchInstances" in
  call (axios_get url [("apikey", apiKey)] (Some parsed))
    (fun d => "Instances fetched: " ++ pretty d)
    "Error fetching instances: ".

Definition connect_instance (env : environment) (args : jval) : res hstep :=
  let* instanceName := getEnv env EVOLUTION_INSTANCE None in
  let* apiBase := getEnv env EVOLUTION_API_BASE default_base in
  let url := "https://" ++ apiBase ++ "/instance/connect/" ++ instanceName in
  call (axios_get url [] None)
    (fun d => "Connection status/QR code fetched: " ++ pretty d
              ++ (if truthy (jget d "base64") then qr_note else ""))
    "Error connecting instance: ".

Definition restart_instance (env : environment) (args : jval) : res hstep :=
  let* instanceName := getEnv env EVOLUTION_INSTANCE None in
  let* apiBase := getEnv env EVOLUTION_API_BASE default_base in
  let* apiKey := getEnv env EVOLUTION_APIKEY None in
  let url := "https://" ++ apiBase ++ "/instance/restart/" ++ instanceName in
  call (axios_post url (JObj []) [("apikey", apiKey)] None)
    (fun d => "Instance restart initiated. Response: " ++ pretty d
              ++ (if truthy (jget d "base64") then qr_note else ""))
    "Error restarting instance: ".

Definition set_presence (env : environment) (args : jval) : res hstep :=
  let* parsed := parse Schemas.set_presence args in
  let* instanceName := getEnv env EVOLUTION_INSTANCE None in
  let* apiKey := getEnv env EVOLUTION_APIKEY None in
  let* apiBase := getEnv env EVOLUTION_API_BASE default_base in
  let url := "https://" ++ apiBase ++ "/instance/setPresence/" ++ instanceName in
  call (axios_post url parsed [ct_json; ("apikey", apiKey)] None)
    (fun d => "Presence set. Response: " ++ pretty d)
    "Error setting presence: ".

Definition get_connection_state (env : environment) (args : jval) : res hstep :=
  let* instanceName := getEnv env EVOLUTION_INSTANCE None in
  let* apiBase := getEnv env EVOLUTION_API_BASE default_base in
  let* apiKey := getEnv env EVOLUTION_APIKEY None in
  let url := "https://" ++ apiBase ++ "/instance/connectionState/" ++ instanceName in
  call (axios_get url [("apikey", apiKey)] None)
    (fun d => "Connection state: " ++ pretty d)
    "Error getting connection state: ".

Definition logout_instance (env : environment) (args : jval) : res hstep :=
  let* instanceName := getEnv env EVOLUTION_INSTANCE None in
  let* apiKey := getEnv env EVOLUTION_APIKEY None in
  let* apiBase := getEnv env EVOLUTION_API_BASE default_base in
  let url := "https://" ++ apiBase ++ "/instance/logout/" ++ instanceName in
  call (axios_delete url [("apikey", apiKey)] None)
    (fun d => "Instance logout initiated. Response: " ++ pretty d)
    "Error logging out instance: ".

Definition delete_instance (env : environment) (args : jval) : res hstep :=
  let* instanceName := getEnv env EVOLUTION_INSTANCE None in
  let* apiKey := getEnv env EVOLUTION_APIKEY None in
  let* apiBase := getEnv env EVOLUTION_API_BASE default_base in
  let url := "https://" ++ apiBase ++ "/instance/delete/" ++ instanceName in
  call (axios_delete url [("apikey", apiKey)] None)
    (fun d => "Instance deletion initiated. Response: " ++ pretty d)
    "Error deleting instance: ".

Definition set_settings (env : environment) (args : jval) : res hstep :=
  let* parsed := parse Schemas.set_settings args in
  let* instanceName := getEnv env EVOLUTION_INSTANCE None in
  let* apiKey := getEnv env EVOLUTION_APIKEY None in
  let* apiBase := getEnv env EVOLUTION_API_BASE default_base in
  let url := "https://" ++ apiBase ++ "/settings/set/" ++ instanceName in
  call (axios_post url parsed [ct_json; ("apikey", apiKey)] None)
    (fun d => "Settings updated. Response: " ++ pretty d)
    "Error updating settings: ".

Definition find_settings (env : environment) (args : jval) : res hstep :=
  let* instanceName := getEnv env EVOLUTION_INSTANCE None in
  let* apiKey := getEnv env EVOLUTION_APIKEY None in
  let* apiBase := getEnv env EVOLUTION_API_BASE default_base in
  let url := "https://" ++ apiBase ++ "/settings/find/" ++ instanceName in
  call (axios_get url [("apikey", apiKey)] None)
    (fun d => "Current settings: " ++ pretty d)
    "Error finding settings: ".

(** The prelude shared by the handlers that parse, then read
    EVOLUTION_INSTANCE, EVOLUTION_APIKEY and EVOLUTION_API_BASE in this
    order, and build [https://${apiBase}/<route>/${instanceName}]. *)
Definition with_instance (s : zschema) (route : string) (env : environment) (args : jval)
  (k : jval -> string -> string -> res hstep) : res hstep :=
  let* parsed := parse s args in
  let* instanceName := getEnv env EVOLUTION_INSTANCE None in
  let* apiKey := getEnv env EVOLUTION_APIKEY None in
  let* apiBase := getEnv env EVOLUTION_API_BASE default_base in
  k parsed apiKey ("https://" ++ apiBase ++ "/" ++ route ++ "/" ++ instanceName).

Definition post_json (u : string) (apiKey : string) (payload : jval) : request :=
  axios_post u payload [ct_json; ("apikey", apiKey)] None.

Definition send_text (env : environment) (args : jval) : res hstep :=
  with_instance Schemas.send_text "message/sendText" env args (fun parsed apiKey url =>
  let payload := JObj [("number", jget parsed "number"); ("text", jget parsed "text");
                       ("options", jget parsed "options")] in
  call (post_json url apiKey payload)
    (fun d => "Text message sent to " ++ fld parsed "number" ++ ". Response: " ++ pretty d)
    "Error sending text message: ").

Definition send_media (env : environment) (args : jval) : res hstep :=
  with_instance Schemas.send_media "message/sendMedia" env args (fun parsed apiKey url =>
  let payload := JObj [("number", jget parsed "number"); ("options", jget parsed "options");
                       ("media", JObj [("mediatype", jget parsed "mediatype");
                                       ("mimetype", jget parsed "mimetype");
                                       ("media", jget parsed "media");
                                       ("caption", jget parsed "caption");
                                       ("fileName", jget parsed "fileName")])] in
  call (post_json url apiKey payload)
    (fun d => "Media message (" ++ fld parsed "mediatype" ++ ") sent to " ++ fld parsed "number"
              ++ ". Response: " ++ pretty d)
    "Error sending media message: ").

Definition send_ptv (env : environment) (args : jval) : res hstep :=
  with_instance Schemas.send_ptv "message/sendPtv" env args (fun parsed apiKey url =>
  let payload := JObj [("number", jget parsed "number"); ("options", jget parsed "options");
                       ("media", JObj [("media", jget parsed "video");
                                       ("mediatype", JStr "video")])] in
  call (post_json url apiKey payload)
    (fun d => "PTV sent to " ++ fld parsed "number" ++ ". Response: " ++ pretty d)
    "Error sending PTV: ").

Definition send_whatsapp_audio (env : environment) (args : jval) : res hstep :=
  with_instance Schemas.send_whatsapp_audio "message/sendWhatsAppAudio" env args
  (fun parsed apiKey url =>
  let payload := JObj [("number", jget parsed "number"); ("options", jget parsed "options");
                       ("media", JObj [("media", jget parsed "audio");
                                       ("mediatype", JStr "audio")])] in
  call (post_json url apiKey payload)
    (fun d => "WhatsApp Audio sent to " ++ fld parsed "number" ++ ". Response: " ++ pretty d)
    "Error sending WhatsApp audio: ").

Definition send_sticker (env : environment) (args : jval) : res hstep :=
  with_instance Schemas.send_sticker "message/sendSticker" env args (fun parsed apiKey url =>
  let payload := JObj [("number", jget parsed "number"); ("options", jget parsed "options");
                       ("media", JObj [("media", jget parsed "sticker");
                                       ("mediatype", JStr "sticker")])] in
  call (post_json url apiKey payload)
    (fun d => "Sticker sent to " ++ fld parsed "number" ++ ". Response: " ++ pretty d)
    "Error sending sticker: ").

Definition send_location (env : environment) (args : jval) : res hstep :=
  with_instance Schemas.send_location "message/sendLocation" env args (fun parsed apiKey url =>
  let payload := JObj [("number", jget parsed "number"); ("options", jget parsed "options");
                       ("location", JObj [("degreesLatitude", jget parsed "latitude");
                                          ("degreesLongitude", jget parsed "longitude");
                                          ("name", jget parsed "name");
                                          ("address", jget parsed "address")])] in
  call (post_json url apiKey payload)
    (fun d => "Location sent to " ++ fld parsed "number" ++ ". Response: " ++ pretty d)
    "Error sending location: ").

Definition send_contact (env : environment) (args : jval) : res hstep :=
  with_instance Schemas.send_contact "message/sendContact" env args (fun parsed apiKey url =>
  let payload := JObj [("number", jget parsed "number"); ("options", jget parsed "options");
                       ("contactMessage", JObj [("contacts", jget parsed "contacts")])] in
  call (post_json url apiKey payload)
    (fun d => "Contact(s) sent to " ++ fld parsed "number" ++ ". Response: " ++ pretty d)
    "Error sending contact: ").

Definition send_reaction (env : environment) (args : jval) : res hstep :=
  with_instance Schemas.send_reaction "message/sendReaction" env args (fun parsed apiKey url =>
  call (post_json url apiKey (JObj [("reactionMessage", parsed)]))
    (fun d => "Reaction " ++ squote ++ fld parsed "reaction" ++ squote ++ " sent to message "
              ++ fld (jget parsed "key") "id" ++ ". Response: " ++ pretty d)
    "Error sending reaction: ").

Definition send_poll (env : environment) (args : jval) : res hstep :=
  with_instance Schemas.send_poll "message/sendPoll" env args (fun parsed apiKey url =>
  let payload := JObj [("number", jget parsed "number"); ("options", jget parsed "options");
                       ("poll", JObj [("name", jget parsed "name");
                                      ("values", jget parsed "values");
                                      ("selectableCount", jget parsed "selectableCount")])] in
  call (post_json url apiKey payload)
    (fun d => "Poll sent to " ++ fld parsed "number" ++ ". Response: " ++ pretty d)
    "Error sending poll: ").

Definition send_list (env : environment) (args : jval) : res hstep :=
  with_instance Schemas.send_list "message/sendList" env args (fun parsed apiKey url =>
  let payload := JObj [("number", jget parsed "number"); ("options", jget parsed "options");
                       ("listMessage", JObj [("title", jget parsed "title");
                                             ("description", jget parsed "description");
                                             ("buttonText", jget parsed "buttonText");
                                             ("footerText", jget parsed "footerText");
                                             ("sections", jget parsed "sections")])] in
  call (post_json url apiKey payload)
    (fun d => "List message sent to " ++ fld parsed "number" ++ ". Response: " ++ pretty d)
    "Error sending list message: ").

Definition send_buttons (env : environment) (args : jval) : res hstep :=
  with_instance Schemas.send_buttons "message/sendButtons" env args (fun parsed apiKey url =>
  let payload := JObj [("number", jget parsed "number"); ("options", jget parsed "options");
                       ("buttonMessage", JObj [("text", jget parsed "description");
                                               ("title", jget parsed "title");
                                               ("footer", jget parsed "footer");
                                               ("buttons", jget parsed "buttons")])] in
  call (post_json url apiKey payload)
    (fun d => "Button message sent to " ++ fld parsed "number" ++ ". Response: " ++ pretty d)
    "Error sending button message: ").

Definition check_whatsapp_numbers (env : environment) (args : jval) : res hstep :=
  with_instance Schemas.check_whatsapp_numbers "chat/whatsappNumbers" env args
  (fun parsed apiKey url =>
  call (post_json url apiKey parsed)
    (fun d => "WhatsApp number check results: " ++ pretty d)
    "Error checking WhatsApp numbers: ").

Definition mark_message_as_read (env : environment) (args : jval) : res hstep :=
  with_instance Schemas.mark_message_as_read "chat/markMessageAsRead" env args
  (fun parsed apiKey url =>
  call (post_json url apiKey parsed)
    (fun d => "Marked messages as read. Response: " ++ pretty d)
    "Error marking messages as read: ").

Definition archive_chat (env : environment) (args : jval) : res hstep :=
  with_instance Schemas.archive_chat "chat/archiveChat" env args (fun parsed apiKey url =>
  let payload := JObj [("chatId", jget parsed "chat"); ("archive", jget parsed "archive")] in
  call (post_json url apiKey payload)
    (fun d => "Chat " ++ fld parsed "chat" ++ " "
              ++ (if truthy (jget parsed "archive") then "archived" else "unarchived")
              ++ ". Response: " ++ pretty d)
    "Error archiving/unarchiving chat: ").

Definition mark_chat_unread (env : environment) (args : jval) : res hstep :=
  with_instance Schemas.mark_chat_unread "chat/markChatUnread" env args
  (fun parsed apiKey url =>
  call (post_json url apiKey (JObj [("chatId", jget parsed "chat")]))
    (fun d => "Chat " ++ fld parsed "chat" ++ " marked as unread. Response: " ++ pretty d)
    "Error marking chat unread: ").

Definition delete_message (env : environment) (args : jval) : res hstep :=
  with_instance Schemas.delete_message "chat/deleteMessageForEveryone" env args
  (fun parsed apiKey url =>
  call (post_json url apiKey (JObj [("message", JObj [("key", jget parsed "key")])]))
    (fun d => "Message deletion requested for " ++ fld (jget parsed "key") "id"
              ++ ". Response: " ++ pretty d)
    "Error deleting message: ").

Definition fetch_profile_picture_url (env : environment) (args : jval) : res hstep :=
  with_instance Schemas.fetch_profile_picture_url "chat/fetchProfilePictureUrl" env args
  (fun parsed apiKey url =>
  call (post_json url apiKey (JObj [("number", jget parsed "number")]))
    (fun d => "Profile picture URL for " ++ fld parsed "number" ++ ": " ++ pretty d)
    "Error fetching profile picture URL: ").

Definition get_base64_from_media_message (env : environment) (args : jval) : res hstep :=
  with_instance Schemas.get_base64_from_media_message "chat/getBase64FromMediaMessage" env args
  (fun parsed apiKey url =>
  let payload := JObj [("message", JObj [("key", jget parsed "messageKey")]);
                       ("convertToMp4", jget parsed "convertToMp4")] in
  call (post_json url apiKey payload)
    (fun d => if truthy (jget d "base64")
              then "Successfully retrieved Base64 data for message "
                   ++ fld (jget parsed "messageKey") "id"
                   ++ ". (Data too long to display). Mimetype: " ++ fld d "mimetype"
              else "Media retrieval response for message "
                   ++ fld (jget parsed "messageKey") "id" ++ ": " ++ pretty d)
    "Error getting media Base64: ").

Definition update_message (env : environment) (args : jval) : res hstep :=
  let* parsed := parse Schemas.update_message args in
  if negb (truthy (jget (jget parsed "key") "fromMe")) then
    Ok (HReturn (envelope
      "Error: Can only edit messages sent by the bot instance (fromMe must be true)."))
  else
  let* instanceName := getEnv env EVOLUTION_INSTANCE None in
  let* apiKey := getEnv env EVOLUTION_APIKEY None in
  let* apiBase := getEnv env EVOLUTION_API_BASE default_base in
  let url := "https://" ++ apiBase ++ "/chat/updateMessage/" ++ instanceName in
  let payload := JObj [("key", jget parsed "key");
                       ("update", JObj [("text", jget parsed "text")])] in
  call (post_json url apiKey payload)
    (fun d => "Message " ++ fld (jget parsed "key") "id" ++ " updated. Response: " ++ pretty d)
    "Error updating message: ".

Definition send_presence (env : environment) (args : jval) : res hstep :=
  with_instance Schemas.send_presence "chat/sendPresence" env args (fun parsed apiKey url =>
  let payload := JObj [("chatId", jget parsed "number"); ("presence", jget parsed "presence");
                       ("duration", jget parsed "delay")] in
  call (post_json url apiKey payload)
    (fun d => "Presence " ++ squote ++ fld parsed "presence" ++ squote ++ " sent to "
              ++ fld parsed "number" ++ ". Response: " ++ pretty d)
    "Error sending presence: ").

Definition update_block_status (env : environment) (args : jval) : res hstep :=
  with_instance Schemas.update_block_status "chat/updateBlockStatus" env args
  (fun parsed apiKey url =>
  let payload := JObj [("jid", jget parsed "number"); ("action", jget parsed "status")] in
  call (post_json url apiKey payload)
    (fun d => "Contact " ++ fld parsed "number" ++ " "
              ++ (if jval_eqb (jget parsed "status") (JStr "block") then "blocked" else "unblocked")
              ++ ". Response: " ++ pretty d)
    "Error updating block status: ").

Definition find_contacts (env : environment) (args : jval) : res hstep :=
  let* instanceName := getEnv env EVOLUTION_INSTANCE None in
  let* apiKey := getEnv env EVOLUTION_APIKEY None in
  let* apiBase := getEnv env EVOLUTION_API_BASE default_base in
  let url := "https://" ++ apiBase ++ "/chat/findContacts/" ++ instanceName in
  call (post_json url apiKey (JObj []))
    (fun d => "Contacts found: " ++ pretty d)
    "Error finding contacts: ".

Definition find_messages (env : environment) (args : jval) : res hstep :=
  with_instance Schemas.find_messages "chat/findMessages" env args (fun parsed apiKey url =>
  let payload := JObj [("where", jget parsed "where"); ("page", jget parsed "page");
                       ("limit", jget parsed "limit")] in
  call (post_json url apiKey payload)
    (fun d => "Messages found: " ++ pretty d)
    "Error finding messages: ").

Definition fetch_profile (env : environment) (args : jval) : res hstep :=
  with_instance Schemas.fetch_profile "chat/fetchProfile" env args (fun parsed apiKey url =>
  call (post_json url apiKey (JObj [("number", jget parsed "number")]))
    (fun d => "Profile for " ++ fld parsed "number" ++ ": " ++ pretty d)
    "Error fetching profile: ").

Definition update_profile_name (env : environment) (args : jval) : res hstep :=
  with_instance Schemas.update_profile_name "chat/updateProfileName" env args
  (fun parsed apiKey url =>
  call (post_json url apiKey (JObj [("name", jget parsed "name")]))
    (fun d => "Profile name updated. Response: " ++ pretty d)
    "Error updating profile name: ").

Definition update_profile_status (env : environment) (args : jval) : res hstep :=
  with_instance Schemas.update_profile_status "chat/updateProfileStatus" env args
  (fun parsed apiKey url =>
  call (post_json url apiKey (JObj [("status", jget parsed "status")]))
    (fun d => "Profile status updated. Response: " ++ pretty d)
    "Error updating profile status: ").

Definition update_profile_picture (env : environment) (args : jval) : res hstep :=
  with_instance Schemas.update_profile_picture "chat/updateProfilePicture" env args
  (fun parsed apiKey url =>
  call (post_json url apiKey (JObj [("url", jget parsed "picture")]))
    (fun d => "Profile picture update requested. Response: " ++ pretty d)
    "Error updating profile picture: ").

Definition remove_profile_picture (env : environment) (args : jval) : res hstep :=
  let* instanceName := getEnv env EVOLUTION_INSTANCE None in
  let* apiKey := getEnv env EVOLUTION_APIKEY None in
  let* apiBase := getEnv env EVOLUTION_API_BASE default_base in
  let url := "https://" ++ apiBase ++ "/chat/removeProfilePicture/" ++ instanceName in
  call (axios_delete url [("apikey", apiKey)] None)
    (fun d => "Profile picture removal requested. Response: " ++ pretty d)
    "Error removing profile picture: ".

Definition create_group (env : environment) (args : jval) : res hstep :=
  with_instance Schemas.create_group "group/create" env args (fun parsed apiKey url =>
  let payload := JObj [("subject", jget parsed "subject");
                       ("description", jget parsed "description");
                       ("participants", jget parsed "participants")] in
  call (post_json url apiKey payload)
    (fun d => "Group " ++ squote ++ fld parsed "subject" ++ squote
              ++ " creation initiated. Response: " ++ pretty d)
    "Error creating group: ").

Definition fetch_all_groups (env : environment) (args : jval) : res hstep :=
  with_instance Schemas.fetch_all_groups "group/fetchAllGroups" env args
  (fun parsed apiKey url =>
  call (axios_get url [("apikey", apiKey)] (Some parsed))
    (fun d => "Groups fetched: " ++ pretty d)
    "Error fetching groups: ").

(** [{ groupJid: parsed.groupJid }] *)
Definition jid_param (parsed : jval) : option jval :=
  Some (JObj [("groupJid", jget parsed "groupJid")]).

Definition find_participants (env : environment) (args : jval) : res hstep :=
  with_instance Schemas.find_participants "group/participants" env args
  (fun parsed apiKey url =>
  call (axios_get url [("apikey", apiKey)] (jid_param parsed))
    (fun d => "Participants for group " ++ fld parsed "groupJid" ++ ": " ++ pretty d)
    "Error finding participants: ").

Definition update_participant (env : environment) (args : jval) : res hstep :=
  with_instance Schemas.update_participant "group/updateParticipant" env args
  (fun parsed apiKey url =>
  let payload := JObj [("action", jget parsed "action");
                       ("participants", jget parsed "participants")] in
  call (axios_post url payload [ct_json; ("apikey", apiKey)] (jid_param parsed))
    (fun d => "Participant update (" ++ fld parsed "action" ++ ") executed for group "
              ++ fld parsed "groupJid" ++ ". Response: " ++ pretty d)
    "Error updating participants: ").

Definition update_group_subject (env : environment) (args : jval) : res hstep :=
  with_instance Schemas.update_group_subject "group/updateGroupSubject" env args
  (fun parsed apiKey url =>
  call (axios_post url (JObj [("subject", jget parsed "subject")])
          [ct_json; ("apikey", apiKey)] (jid_param parsed))
    (fun d => "Group subject updated for " ++ fld parsed "groupJid" ++ ". Response: " ++ pretty d)
    "Error updating group subject: ").

Definition update_group_description (env : environment) (args : jval) : res hstep :=
  with_instance Schemas.update_group_description "group/updateGroupDescription" env args
  (fun parsed apiKey url =>
  call (axios_post url (JObj [("description", jget parsed "description")])
          [ct_json; ("apikey", apiKey)] (jid_param parsed))
    (fun d => "Group description updated for " ++ fld parsed "groupJid" ++ ". Response: "
              ++ pretty d)
    "Error updating group description: ").

Definition update_group_picture (env : environment) (args : jval) : res hstep :=
  with_instance Schemas.update_group_picture "group/updateGroupPicture" env args
  (fun parsed apiKey url =>
  call (axios_post url (JObj [("url", jget parsed "image")])
          [ct_json; ("apikey", apiKey)] (jid_param parsed))
    (fun d => "Group picture update requested for " ++ fld parsed "groupJid" ++ ". Response: "
              ++ pretty d)
    "Error updating group picture: ").

Definition fetch_invite_code (env : environment) (args : jval) : res hstep :=
  with_instance Schemas.fetch_invite_code "group/inviteCode" env args
  (fun parsed apiKey url =>
  call (axios_get url [("apikey", apiKey)] (jid_param parsed))
    (fun d => "Invite code for " ++ fld parsed "groupJid" ++ ": " ++ pretty d)
    "Error fetching invite code: ").

Definition revoke_invite_code (env : environment) (args : jval) : res hstep :=
  with_instance Schemas.revoke_invite_code "group/revokeInviteCode" env args
  (fun parsed apiKey url =>
  call (axios_post url (JObj []) [("apikey", apiKey)] (jid_param parsed))
    (fun d => "Invite code revoked for " ++ fld parsed "groupJid" ++ ". New code: " ++ pretty d)
    "Error revoking invite code: ").

Definition send_invite (env : environment) (args : jval) : res hstep :=
  with_instance Schemas.send_invite "group/sendInvite" env args (fun parsed apiKey url =>
  call (post_json url apiKey parsed)
    (fun d => "Invites sent for group " ++ fld parsed "groupJid" ++ ". Response: " ++ pretty d)
    "Error sending invites: ").

Definition find_group_by_invite_code (env : environment) (args : jval) : res hstep :=
  with_instance Schemas.find_group_by_invite_code "group/inviteInfo" env args
  (fun parsed apiKey url =>
  call (axios_get url [("apikey", apiKey)]
          (Some (JObj [("inviteCode", jget parsed "inviteCode")])))
    (fun d => "Group info for invite code " ++ fld parsed "inviteCode" ++ ": " ++ pretty d)
    "Error finding group by invite code: ").

Definition find_group_by_jid (env : environment) (args : jval) : res hstep :=
  with_instance Schemas.find_group_by_jid "group/findGroupInfos" env args
  (fun parsed apiKey url =>
  call (axios_get url [("apikey", apiKey)] (jid_param parsed))
    (fun d => "Group info for " ++ fld parsed "groupJid" ++ ": " ++ pretty d)
    "Error finding group by JID: ").

Definition update_group_setting (env : environment) (args : jval) : res hstep :=
  with_instance Schemas.update_group_setting "group/updateSetting" env args
  (fun parsed apiKey url =>
  call (axios_post url (JObj [("action", jget parsed "action")])
          [ct_json; ("apikey", apiKey)] (jid_param parsed))
    (fun d => "Group setting " ++ squote ++ fld parsed "action" ++ squote ++ " updated for "
              ++ fld parsed "groupJid" ++ ". Response: " ++ pretty d)
    "Error updating group setting: ").

(** [`${x / 86400}`] for a number [x]; the quotient is expanded to 20
    decimal places.  No value passes [Schemas.toggle_ephemeral] (zod's enum
    admits strings only), so this text is never produced. *)
Definition div_86400_text (v : jval) : string :=
  match v with
  | JNum m e =>
      let n := (m * 10 ^ (Z.max e 0) * 10 ^ 20)%Z in
      num_to_string (Z.quot n 86400) (Z.min e 0 - 20)
  | _ => "NaN"
  end.

Definition toggle_ephemeral (env : environment) (args : jval) : res hstep :=
  with_instance Schemas.toggle_ephemeral "group/toggleEphemeral" env args
  (fun parsed apiKey url =>
  call (axios_post url (JObj [("expiration", jget parsed "expiration")])
          [ct_json; ("apikey", apiKey)] (jid_param parsed))
    (fun d =>
       let durationText :=
         match jget parsed "expiration" with
         | JNum 0 _ => "Off"
         | x => div_86400_text x ++ " days"
         end in
       "Ephemeral messages set to " ++ durationText ++ " for " ++ fld parsed "groupJid"
       ++ ". Response: " ++ pretty d)
    "Error toggling ephemeral messages: ").

Definition leave_group (env : environment) (args : jval) : res hstep :=
  with_instance Schemas.leave_group "group/leaveGroup" env args (fun parsed apiKey url =>
  call (axios_delete url [("apikey", apiKey)] (jid_param parsed))
    (fun d => "Left group " ++ fld parsed "groupJid" ++ ". Response: " ++ pretty d)
    "Error leaving group: ").

Definition find_webhook_settings (env : environment) (args : jval) : res hstep :=
  let* instanceName := getEnv env EVOLUTION_INSTANCE None in
  let* apiKey := getEnv env EVOLUTION_APIKEY None in
  let* apiBase := getEnv env EVOLUTION_API_BASE default_base in
  let url := "https://" ++ apiBase ++ "/webhook/find/" ++ instanceName in
  call (axios_get url [("apikey", apiKey)] None)
    (fun d => "Webhook settings: " ++ pretty d)
    "Error finding webhook settings: ".

End Handlers.

(* ------------------------------------------------------------------ *)
(** ** The registry [toolHandlers] and the [CallToolRequestSchema] handler *)

Inductive tool : Type :=
| create_instance | fetch_instances | connect_instance | restart_instance
| set_presence | get_connection_state | logout_instance | delete_instance
| set_settings | find_settings
| send_text | send_media | send_ptv | send_whatsapp_audio | send_sticker
| send_location | send_contact | send_reaction | send_poll | send_list | send_buttons
| check_whatsapp_numbers | mark_message_as_read | archive_chat | mark_chat_unread
| delete_message | fetch_profile_picture_url | get_base64_from_media_message
| update_message | send_presence | update_block_status | find_contacts | find_messages
| fetch_profile | update_profile_name | update_profile_status | update_profile_picture
| remove_profile_picture
| create_group | fetch_all_groups | find_participants | update_participant
| update_group_subject | update_group_description | update_group_picture
| fetch_invite_code | revoke_invite_code | send_invite | find_group_by_invite_code
| find_group_by_jid | update_group_setting | toggle_ephemeral | leave_group
| find_webhook_settings.

(** The keys of [toolHandlers], in source order. *)
Definition all_tools : list tool :=
  [create_instance; fetch_instances; connect_instance; restart_instance;
   set_presence; get_connection_state; logout_instance; delete_instance;
   set_settings; find_settings;
   send_text; send_media; send_ptv; send_whatsapp_audio; send_sticker;
   send_location; send_contact; send_reaction; send_poll; send_list; send_buttons;
   check_whatsapp_numbers; mark_message_as_read; archive_chat; mark_chat_unread;
   delete_message; fetch_profile_picture_url; get_base64_from_media_message;
   update_message; send_presence; update_block_status; find_contacts; find_messages;
   fetch_profile; update_profile_name; update_profile_status; update_profile_picture;
   remove_profile_picture;
   create_group; fetch_all_groups; find_participants; update_participant;
   update_group_subject; update_group_description; update_group_picture;
   fetch_invite_code; revoke_invite_code; send_invite; find_group_by_invite_code;
   find_group_by_jid; update_group_setting; toggle_ephemeral; leave_group;
   find_webhook_settings].

Definition tool_name (t : tool) : string :=
  match t with
  | create_instance => "create_instance" | fetch_instances => "fetch_instances"
  | connect_instance => "connect_instance" | restart_instance => "restart_instance"
  | set_presence => "set_presence" | get_connection_state => "get_connection_state"
  | logout_instance => "logout_instance" | delete_instance => "delete_instance"
  | set_settings => "set_settings" | find_settings => "find_settings"
  | send_text => "send_text" | send_media => "send_media" | send_ptv => "send_ptv"
  | send_whatsapp_audio => "send_whatsapp_audio" | send_sticker => "send_sticker"
  | send_location => "send_location" | send_contact => "send_contact"
  | send_reaction => "send_reaction" | send_poll => "send_poll" | send_list => "send_list"
  | send_buttons => "send_buttons"
  | check_whatsapp_numbers => "check_whatsapp_numbers"
  | mark_message_as_read => "mark_message_as_read" | archive_chat => "archive_chat"
  | mark_chat_unread => "mark_chat_unread" | delete_message => "delete_message"
  | fetch_profile_picture_url => "fetch_profile_picture_url"
  | get_base64_from_media_message => "get_base64_from_media_message"
  | update_message => "update_message" | send_presence => "send_presence"
  | update_block_status => "update_block_status" | find_contacts => "find_contacts"
  | find_messages => "find_messages" | fetch_profile => "fetch_profile"
  | update_profile_name => "update_profile_name"
  | update_profile_status => "update_profile_status"
  | update_profile_picture => "update_profile_picture"
  | remove_profile_picture => "remove_profile_picture"
  | create_group => "create_group" | fetch_all_groups => "fetch_all_groups"
  | find_participants => "find_participants" | update_participant => "update_participant"
  | update_group_subject => "update_group_subject"
  | update_group_description => "update_group_description"
  | update_group_picture => "update_group_picture"
  | fetch_invite_code => "fetch_invite_code" | revoke_invite_code => "revoke_invite_code"
  | send_invite => "send_invite" | find_group_by_invite_code => "find_group_by_invite_code"
  | find_group_by_jid => "find_group_by_jid" | update_group_setting => "update_group_setting"
  | toggle_ephemeral => "toggle_ephemeral" | leave_group => "leave_group"
  | find_webhook_settings => "find_webhook_settings"
  end.

Definition handler (t : tool) : environment -> jval -> res hstep :=
  match t with
  | create_instance => Handlers.create_instance
  | fetch_instances => Handlers.fetch_instances
  | connect_instance => Handlers.connect_instance
  | restart_instance => Handlers.restart_instance
  | set_presence => Handlers.set_presence
  | get_connection_state => Handlers.get_connection_state
  | logout_instance => Handlers.logout_instance
  | delete_instance => Handlers.delete_instance
  | set_settings => Handlers.set_settings
  | find_settings => Handlers.find_settings
  | send_text => Handlers.send_text
  | send_media => Handlers.send_media
  | send_ptv => Handlers.send_ptv
  | send_whatsapp_audio => Handlers.send_whatsapp_audio
  | send_sticker => Handlers.send_sticker
  | send_location => Handlers.send_location
  | send_contact => Handlers.send_contact
  | send_reaction => Handlers.send_reaction
  | send_poll => Handlers.send_poll
  | send_list => Handlers.send_list
  | send_buttons => Handlers.send_buttons
  | check_whatsapp_numbers => Handlers.check_whatsapp_numbers
  | mark_message_as_read => Handlers.mark_message_as_read
  | archive_chat => Handlers.archive_chat
  | mark_chat_unread => Handlers.mark_chat_unread
  | delete_message => Handlers.delete_message
  | fetch_profile_picture_url => Handlers.fetch_profile_picture_url
  | get_base64_from_media_message => Handlers.get_base64_from_media_message
  | update_message => Handlers.update_message
  | send_presence => Handlers.send_presence
  | update_block_status => Handlers.update_block_status
  | find_contacts => Handlers.find_contacts
  | find_messages => Handlers.find_messages
  | fetch_profile => Handlers.fetch_profile
  | update_profile_name => Handlers.update_profile_name
  | update_profile_status => Handlers.update_profile_status
  | update_profile_picture => Handlers.update_profile_picture
  | remove_profile_picture => Handlers.remove_profile_picture
  | create_group => Handlers.create_group
  | fetch_all_groups => Handlers.fetch_all_groups
  | find_participants => Handlers.find_participants
  | update_participant => Handlers.update_participant
  | update_group_subject => Handlers.update_group_subject
  | update_group_description => Handlers.update_group_description
  | update_group_picture => Handlers.update_group_picture
  | fetch_invite_code => Handlers.fetch_invite_code
  | revoke_invite_code => Handlers.revoke_invite_code
  | send_invite => Handlers.send_invite
  | find_group_by_invite_code => Handlers.find_group_by_invite_code
  | find_group_by_jid => Handlers.find_group_by_jid
  | update_group_setting => Handlers.update_group_setting
  | toggle_ephemeral => Handlers.toggle_ephemeral
  | leave_group => Handlers.leave_group
  | find_webhook_settings => Handlers.find_webhook_settings
  end.

(** [schemas.toolInputs[name]] *)
Definition schema (t : tool) : zschema :=
  match t with
  | create_instance => Schemas.create_instance
  | fetch_instances => Schemas.fetch_instances
  | connect_instance => Schemas.connect_instance
  | restart_instance => Schemas.restart_instance
  | set_presence => Schemas.set_presence
  | get_connection_state => Schemas.get_connection_state
  | logout_instance => Schemas.logout_instance
  | delete_instance => Schemas.delete_instance
  | set_settings => Schemas.set_settings
  | find_settings => Schemas.find_settings
  | send_text => Schemas.send_text
  | send_media => Schemas.send_media
  | send_ptv => Schemas.send_ptv
  | send_whatsapp_audio => Schemas.send_whatsapp_audio
  | send_sticker => Schemas.send_sticker
  | send_location => Schemas.send_location
  | send_contact => Schemas.send_contact
  | send_reaction => Schemas.send_reaction
  | send_poll => Schemas.send_poll
  | send_list => Schemas.send_list
  | send_buttons => Schemas.send_buttons
  | check_whatsapp_numbers => Schemas.check_whatsapp_numbers
  | mark_message_as_read => Schemas.mark_message_as_read
  | archive_chat => Schemas.archive_chat
  | mark_chat_unread => Schemas.mark_chat_unread
  | delete_message => Schemas.delete_message
  | fetch_profile_picture_url => Schemas.fetch_profile_picture_url
  | get_base64_from_media_message => Schemas.get_base64_from_media_message
  | update_message => Schemas.update_message
  | send_presence => Schemas.send_presence
  | update_block_status => Schemas.update_block_status
  | find_contacts => Schemas.find_contacts
  | find_messages => Schemas.find_messages
  | fetch_profile => Schemas.fetch_profile
  | update_profile_name => Schemas.update_profile_name
  | update_profile_status => Schemas.update_profile_status
  | update_profile_picture => Schemas.update_profile_picture
  | remove_profile_picture => Schemas.remove_profile_picture
  | create_group => Schemas.create_group
  | fetch_all_groups => Schemas.fetch_all_groups
  | find_participants => Schemas.find_participants
  | update_participant => Schemas.update_participant
  | update_group_subject => Schemas.update_group_subject
  | update_group_description => Schemas.update_group_description
  | update_group_picture => Schemas.update_group_picture
  | fetch_invite_code => Schemas.fetch_invite_code
  | revoke_invite_code => Schemas.revoke_invite_code
  | send_invite => Schemas.send_invite
  | find_group_by_invite_code => Schemas.find_group_by_invite_code
  | find_group_by_jid => Schemas.find_group_by_jid
  | update_group_setting => Schemas.update_group_setting
  | toggle_ephemeral => Schemas.toggle_ephemeral
  | leave_group => Schemas.leave_group
  | find_webhook_settings => Schemas.find_webhook_settings
  end.

(** The handlers that never call [schemas.toolInputs[name].parse(args)]. *)
Definition ignores_args (t : tool) : bool :=
  match t with
  | connect_instance | restart_instance | get_connection_state | logout_instance
  | delete_instance | find_settings | find_contacts | remove_profile_picture
  | find_webhook_settings => true
  | _ => false
  end.

(** The properties of [Object.prototype], which [toolHandlers[name]] also
    reaches since [toolHandlers] is a plain object literal. *)
Inductive proto_member : Type :=
| P_constructor | P_defineGetter | P_defineSetter | P_hasOwnProperty
| P_lookupGetter | P_lookupSetter | P_isPrototypeOf | P_propertyIsEnumerable
| P_toString | P_valueOf | P_proto | P_toLocaleString.

Definition proto_members : list (string * proto_member) :=
  [("constructor", P_constructor); ("__defineGetter__", P_defineGetter);
   ("__defineSetter__", P_defineSetter); ("hasOwnProperty", P_hasOwnProperty);
   ("__lookupGetter__", P_lookupGetter); ("__lookupSetter__", P_lookupSetter);
   ("isPrototypeOf", P_isPrototypeOf); ("propertyIsEnumerable", P_propertyIsEnumerable);
   ("toString", P_toString); ("valueOf", P_valueOf); ("__proto__", P_proto);
   ("toLocaleString", P_toLocaleString)].

Inductive lookup_result : Type :=
| Own : tool -> lookup_result
| Inherited : proto_member -> lookup_result
| Missing : lookup_result.

(** [toolHandlers[name]]: own property first, then the prototype chain. *)
Definition lookup_handler (name : string) : lookup_result :=
  match find (fun t => String.eqb (tool_name t) name) all_tools with
  | Some t => Own t
  | None =>
      match find (fun p => String.eqb (fst p) name) proto_members with
      | Some (_, m) => Inherited m
      | None => Missing
      end
  end.

(** [handler(args)] for an inherited member, called with [this] undefined
    (MCP arguments are an object or absent).  [Object(args)] returns its
    object argument and a fresh [{}] for [undefined]; the members that
    coerce [this] to an object throw a [TypeError]; [__proto__] is
    [Object.prototype], which is not callable. *)
Definition call_builtin (m : proto_member) (args : jval) : res jval :=
  match m with
  | P_constructor => Ok (match args with JUndef | JNull => JObj [] | _ => args end)
  | P_toString => Ok (JStr "[object Undefined]")
  | P_isPrototypeOf =>
      match args with
      | JObj _ | JArr _ => Throw (TypeError "Cannot convert undefined or null to object")
      | _ => Ok (JBool false)
      end
  | P_proto => Throw (TypeError "handler is not a function")
  | P_toLocaleString =>
      Throw (TypeError "Object.prototype.toLocaleString called on null or undefined")
  | _ => Throw (TypeError "Cannot convert undefined or null to object")
  end.

Definition path_join (p : list path_elem) : string :=
  concat_with "." (map (fun x => match x with PKey k => k | PIdx i => nat_to_string i end) p).

(** The message of the [Error] that replaces a [ZodError]. *)
Definition validation_message (name : string) (is : list issue) : string :=
  "Input validation failed for tool " ++ name ++ ": "
  ++ concat_with ", " (map (fun i => path_join (ipath i) ++ ": " ++ imessage i) is).

(** The [catch] of the dispatcher. *)
Definition rethrow (name : string) (e : jserror) : jserror :=
  match e with
  | ZodError is => Error (validation_message name is)
  | _ => e
  end.

(** How a tool call ends: a value returned to the transport, or an error
    thrown to it. *)
Inductive outcome : Type :=
| Returned : jval -> outcome
| Raised : jserror -> outcome.

(** The [CallToolRequestSchema] handler with the remote server [remote]: the
    requests sent, and the outcome. *)
Definition dispatch (env : environment) (remote : request -> raw_response)
  (name : string) (args : jval) : list request * outcome :=
  match lookup_handler name with
  | Missing => ([], Raised (rethrow name (Error ("Unknown tool: " ++ name))))
  | Inherited m =>
      match call_builtin m args with
      | Ok v => ([], Returned v)
      | Throw e => ([], Raised (rethrow name e))
      end
  | Own t =>
      match handler t env args with
      | Throw e => ([], Raised (rethrow name e))
      | Ok (HReturn v) => ([], Returned v)
      | Ok (HCall req k) => ([req], Returned (k (remote req)))
      end
  end.
(* ------------------------------------------------------------------ *)
(** ** [TOOL_DEFINITIONS] and the [ListToolsRequestSchema] handler *)

Module ToolDefs.
(** line 366 *)
Definition create_instance : jval :=
  JObj [
    ("name", JStr "create_instance");
    ("description", JStr "Creates a new Evolution API instance.");
    ("inputSchema", JObj [
      ("type", JStr "object");
      ("properties", JObj [
        ("instanceName", JObj [
          ("type", JStr "string");
          ("description", JStr "Unique name for the new instance.")]);
        ("token", JObj [
          ("type", JStr "string");
          ("description", JStr "Optional predefined token (API key).")]);
        ("qrcode", JObj [
          ("type", JStr "boolean");
          ("description", JStr "Return QR code?");
          ("default", JBool true)])]);
      ("required", JArr [JStr "instanceName"])])].
(** line 379 *)
Definition fetch_instances : jval :=
  JObj [
    ("name", JStr "fetch_instances");
    ("description", JStr "Retrieves a list of all instances or filters by name/ID.");
    ("inputSchema", JObj [
      ("type", JStr "object");
      ("properties", JObj [
        ("instanceName", JObj [("type", JStr "string"); ("description", JStr "Filter by instance name.")]);
        ("instanceId", JObj [("type", JStr "string"); ("description", JStr "Filter by instance ID.")])]);
      ("required", JArr [])])].
(** line 391 *)
Definition connect_instance : jval :=
  JObj [
    ("name", JStr "connect_instance");
    ("description", JStr "Gets the connection QR code or status for the specified instance.");
    ("inputSchema", JObj [("type", JStr "object"); ("properties", JObj []); ("required", JArr [])])].
(** line 396 *)
Definition restart_instance : jval :=
  JObj [
    ("name", JStr "restart_instance");
    ("description", JStr "Restarts the specified instance.");
    ("inputSchema", JObj [("type", JStr "object"); ("properties", JObj []); ("required", JArr [])])].
(** line 401 *)
Definition set_presence : jval :=
  JObj [
    ("name", JStr "set_presence");
    ("description", JStr "Sets the presence status (available/unavailable) for the instance.");
    ("inputSchema", JObj [
      ("type", JStr "object");
      ("properties", JObj [
        ("presence", JObj [
          ("type", JStr "string");
          ("enum", JArr [JStr "available"; JStr "unavailable"]);
          ("description", JStr "Presence status.")])]);
      ("required", JArr [JStr "presence"])])].
(** line 412 *)
Definition get_connection_state : jval :=
  JObj [
    ("name", JStr "get_connection_state");
    ("description", JStr "Gets the current connection state of the instance.");
    ("inputSchema", JObj [("type", JStr "object"); ("properties", JObj []); ("required", JArr [])])].
(** line 417 *)
Definition logout_instance : jval :=
  JObj [
    ("name", JStr "logout_instance");
    ("description", JStr "Logs out the specified instance from WhatsApp Web.");
    ("inputSchema", JObj [("type", JStr "object"); ("properties", JObj []); ("required", JArr [])])].
(** line 422 *)
Definition delete_instance : jval :=
  JObj [
    ("name", JStr "delete_instance");
    ("description", JStr "Deletes the specified instance.");
    ("inputSchema", JObj [("type", JStr "object"); ("properties", JObj []); ("required", JArr [])])].
(** line 429 *)
Definition set_settings : jval :=
  JObj [
    ("name", JStr "set_settings");
    ("description", JStr "Updates the settings for the instance.");
    ("inputSchema", JObj [
      ("type", JStr "object");
      ("properties", JObj [
        ("rejectCall", JObj [("type", JStr "boolean"); ("description", JStr "Reject incoming calls?")]);
        ("msgCall", JObj [
          ("type", JStr "string");
          ("description", JStr "Message for rejected calls.")]);
        ("groupsIgnore", JObj [("type", JStr "boolean"); ("description", JStr "Ignore group messages?")]);
        ("alwaysOnline", JObj [("type", JStr "boolean"); ("description", JStr "Set always online?")]);
        ("readMessages", JObj [("type", JStr "boolean"); ("description", JStr "Mark messages as read?")]);
        ("syncFullHistory", JObj [("type", JStr "boolean"); ("description", JStr "Sync full history?")]);
        ("readStatus", JObj [("type", JStr "boolean"); ("description", JStr "Mark status as seen?")])]);
      ("required", JArr [])])].
(** line 446 *)
Definition find_settings : jval :=
  JObj [
    ("name", JStr "find_settings");
    ("description", JStr "Retrieves the current settings for the instance.");
    ("inputSchema", JObj [("type", JStr "object"); ("properties", JObj []); ("required", JArr [])])].
(** line 453 *)
Definition send_text : jval :=
  JObj [
    ("name", JStr "send_text");
    ("description", JStr "Sends a text message via Evolution API.");
    ("inputSchema", JObj [
      ("type", JStr "object");
      ("properties", JObj [
        ("number", JObj [
          ("type", JStr "string");
          ("description", JStr "Recipient phone number (e.g., 551199...) or group JID.")]);
        ("text", JObj [("type", JStr "string"); ("description", JStr "Message text.")]);
        ("options", JObj [
          ("type", JStr "object");
          ("properties", JObj [
            ("delay", JObj [("type", JStr "integer"); ("description", JStr "Delay in ms.")]);
            ("quoted", JObj [
              ("type", JStr "object");
              ("properties", JObj [
                ("key", JObj [
                  ("type", JStr "object");
                  ("properties", JObj [("id", JObj [("type", JStr "string")])]);
                  ("required", JArr [JStr "id"])])]);
              ("description", JStr "Message key ID to quote.")]);
            ("mentioned", JObj [
              ("type", JStr "array");
              ("items", JObj [("type", JStr "string")]);
              ("description", JStr "List of JIDs to mention.")])]);
          ("required", JArr [])])]);
      ("required", JArr [JStr "number"; JStr "text"])])].
(** line 474 *)
Definition send_media : jval :=
  JObj [
    ("name", JStr "send_media");
    ("description", JStr "Sends a media message (image, video, document) via URL or Base64.");
    ("inputSchema", JObj [
      ("type", JStr "object");
      ("properties", JObj [
        ("number", JObj [
          ("type", JStr "string");
          ("description", JStr "Recipient phone number or group JID.")]);
        ("mediatype", JObj [
          ("type", JStr "string");
          ("enum", JArr [JStr "image"; JStr "video"; JStr "document"]);
          ("description", JStr "Type of media.")]);
        ("mimetype", JObj [
          ("type", JStr "string");
          ("description", JStr "MIME type (e.g., image/png).")]);
        ("media", JObj [
          ("type", JStr "string");
          ("description", JStr "URL or Base64 data of the media.")]);
        ("caption", JObj [("type", JStr "string"); ("description", JStr "Caption for the media.")]);
        ("fileName", JObj [("type", JStr "string"); ("description", JStr "Filename for the media.")]);
        ("options", JObj [
          ("type", JStr "object");
          ("properties", JObj [
            ("delay", JObj [("type", JStr "integer"); ("description", JStr "Delay in ms.")]);
            ("quoted", JObj [
              ("type", JStr "object");
              ("properties", JObj [
                ("key", JObj [
                  ("type", JStr "object");
                  ("properties", JObj [("id", JObj [("type", JStr "string")])]);
                  ("required", JArr [JStr "id"])])]);
              ("description", JStr "Message key ID to quote.")]);
            ("mentioned", JObj [
              ("type", JStr "array");
              ("items", JObj [("type", JStr "string")]);
              ("description", JStr "List of JIDs to mention.")])]);
          ("required", JArr [])])]);
      ("required", JArr [JStr "number"; JStr "mediatype"; JStr "media"])])].
(** line 499 *)
Definition send_ptv : jval :=
  JObj [
    ("name", JStr "send_ptv");
    ("description", JStr "Sends a PTV (Push-To-Video) / Video Note message.");
    ("inputSchema", JObj [
      ("type", JStr "object");
      ("properties", JObj [
        ("number", JObj [
          ("type", JStr "string");
          ("description", JStr "Recipient phone number or group JID.")]);
        ("video", JObj [
          ("type", JStr "string");
          ("description", JStr "URL or Base64 data of the video.")]);
        ("options", JObj [
          ("type", JStr "object");
          ("properties", JObj [
            ("delay", JObj [("type", JStr "integer"); ("description", JStr "Delay in ms.")]);
            ("quoted", JObj [
              ("type", JStr "object");
              ("properties", JObj [
                ("key", JObj [
                  ("type", JStr "object");
                  ("properties", JObj [("id", JObj [("type", JStr "string")])]);
                  ("required", JArr [JStr "id"])])]);
              ("description", JStr "Message key ID to quote.")])]);
          ("required", JArr [])])]);
      ("required", JArr [JStr "number"; JStr "video"])])].
(** line 519 *)
Definition send_whatsapp_audio : jval :=
  JObj [
    ("name", JStr "send_whatsapp_audio");
    ("description", JStr "Sends an audio message as a voice note.");
    ("inputSchema", JObj [
      ("type", JStr "object");
      ("properties", JObj [
        ("number", JObj [
          ("type", JStr "string");
          ("description", JStr "Recipient phone number or group JID.")]);
        ("audio", JObj [
          ("type", JStr "string");
          ("description", JStr "URL or Base64 data of the audio.")]);
        ("options", JObj [
          ("type", JStr "object");
          ("properties", JObj [
            ("delay", JObj [("type", JStr "integer"); ("description", JStr "Delay in ms.")]);
            ("quoted", JObj [
              ("type", JStr "object");
              ("properties", JObj [
                ("key", JObj [
                  ("type", JStr "object");
                  ("properties", JObj [("id", JObj [("type", JStr "string")])]);
                  ("required", JArr [JStr "id"])])]);
              ("description", JStr "Message key ID to quote.")]);
            ("encoding", JObj [("type", JStr "boolean"); ("description", JStr "Force encoding?")])]);
          ("required", JArr [])])]);
      ("required", JArr [JStr "number"; JStr "audio"])])].
(** line 540 *)
Definition send_sticker : jval :=
  JObj [
    ("name", JStr "send_sticker");
    ("description", JStr "Sends a sticker message via URL or Base64.");
    ("inputSchema", JObj [
      ("type", JStr "object");
      ("properties", JObj [
        ("number", JObj [
          ("type", JStr "string");
          ("description", JStr "Recipient phone number or group JID.")]);
        ("sticker", JObj [
          ("type", JStr "string");
          ("description", JStr "URL or Base64 data of the sticker.")]);
        ("options", JObj [
          ("type", JStr "object");
          ("properties", JObj [
            ("delay", JObj [("type", JStr "integer"); ("description", JStr "Delay in ms.")]);
            ("quoted", JObj [
              ("type", JStr "object");
              ("properties", JObj [
                ("key", JObj [
                  ("type", JStr "object");
                  ("properties", JObj [("id", JObj [("type", JStr "string")])]);
                  ("required", JArr [JStr "id"])])]);
              ("description", JStr "Message key ID to quote.")])]);
          ("required", JArr [])])]);
      ("required", JArr [JStr "number"; JStr "sticker"])])].
(** line 560 *)
Definition send_location : jval :=
  JObj [
    ("name", JStr "send_location");
    ("description", JStr "Sends a location message.");
    ("inputSchema", JObj [
      ("type", JStr "object");
      ("properties", JObj [
        ("number", JObj [
          ("type", JStr "string");
          ("description", JStr "Recipient phone number or group JID.")]);
        ("latitude", JObj [("type", JStr "number"); ("description", JStr "Latitude.")]);
        ("longitude", JObj [("type", JStr "number"); ("description", JStr "Longitude.")]);
        ("name", JObj [("type", JStr "string"); ("description", JStr "Location name.")]);
        ("address", JObj [("type", JStr "string"); ("description", JStr "Location address.")]);
        ("options", JObj [
          ("type", JStr "object");
          ("properties", JObj [
            ("delay", JObj [("type", JStr "integer"); ("description", JStr "Delay in ms.")]);
            ("quoted", JObj [
              ("type", JStr "object");
              ("properties", JObj [
                ("key", JObj [
                  ("type", JStr "object");
                  ("properties", JObj [("id", JObj [("type", JStr "string")])]);
                  ("required", JArr [JStr "id"])])]);
              ("description", JStr "Message key ID to quote.")])]);
          ("required", JArr [])])]);
      ("required", JArr [JStr "number"; JStr "latitude"; JStr "longitude"])])].
(** line 583 *)
Definition send_contact : jval :=
  JObj [
    ("name", JStr "send_contact");
    ("description", JStr "Sends one or more contact cards.");
    ("inputSchema", JObj [
      ("type", JStr "object");
      ("properties", JObj [
        ("number", JObj [
          ("type", JStr "string");
          ("description", JStr "Recipient phone number or group JID.")]);
        ("contacts", JObj [
          ("type", JStr "array");
          ("items", JObj [
            ("type", JStr "object");
            ("properties", JObj [
              ("fullName", JObj [
                ("type", JStr "string");
                ("description", JStr "Contact's full name.")]);
              ("wuid", JObj [
                ("type", JStr "string");
                ("description", JStr "Contact's WhatsApp number (e.g., 5511...).")]);
              ("phoneNumber", JObj [
                ("type", JStr "string");
                ("description", JStr "Formatted phone number.")]);
              ("organization", JObj [("type", JStr "string"); ("description", JStr "Organization.")]);
              ("email", JObj [("type", JStr "string"); ("description", JStr "Email.")]);
              ("url", JObj [("type", JStr "string"); ("description", JStr "Website URL.")])]);
            ("required", JArr [JStr "fullName"; JStr "wuid"; JStr "phoneNumber"])]);
          ("minItems", (num 1));
          ("description", JStr "Array of contact objects.")]);
        ("options", JObj [
          ("type", JStr "object");
          ("properties", JObj [
            ("delay", JObj [("type", JStr "integer"); ("description", JStr "Delay in ms.")]);
            ("quoted", JObj [
              ("type", JStr "object");
              ("properties", JObj [
                ("key", JObj [
                  ("type", JStr "object");
                  ("properties", JObj [("id", JObj [("type", JStr "string")])]);
                  ("required", JArr [JStr "id"])])]);
              ("description", JStr "Message key ID to quote.")])]);
          ("required", JArr [])])]);
      ("required", JArr [JStr "number"; JStr "contacts"])])].
(** line 619 *)
Definition send_reaction : jval :=
  JObj [
    ("name", JStr "send_reaction");
    ("description", JStr "Sends an emoji reaction to a specific message.");
    ("inputSchema", JObj [
      ("type", JStr "object");
      ("properties", JObj [
        ("key", JObj [
          ("type", JStr "object");
          ("properties", JObj [
            ("remoteJid", JObj [("type", JStr "string"); ("description", JStr "Chat JID.")]);
            ("fromMe", JObj [
              ("type", JStr "boolean");
              ("description", JStr "Was the message sent by the bot?")]);
            ("id", JObj [("type", JStr "string"); ("description", JStr "Message ID.")])]);
          ("required", JArr [JStr "remoteJid"; JStr "fromMe"; JStr "id"])]);
        ("reaction", JObj [
          ("type", JStr "string");
          ("description", JStr "Emoji to react with (or empty string to remove).")])]);
      ("required", JArr [JStr "key"; JStr "reaction"])])].
(** line 639 *)
Definition send_poll : jval :=
  JObj [
    ("name", JStr "send_poll");
    ("description", JStr "Sends a poll message.");
    ("inputSchema", JObj [
      ("type", JStr "object");
      ("properties", JObj [
        ("number", JObj [
          ("type", JStr "string");
          ("description", JStr "Recipient phone number or group JID.")]);
        ("name", JObj [("type", JStr "string"); ("description", JStr "Poll question/text.")]);
        ("selectableCount", JObj [
          ("type", JStr "integer");
          ("minimum", (num 1));
          ("default", (num 1));
          ("description", JStr "Number of selectable options.")]);
        ("values", JObj [
          ("type", JStr "array");
          ("items", JObj [("type", JStr "string")]);
          ("minItems", (num 1));
          ("description", JStr "List of poll options.")]);
        ("options", JObj [
          ("type", JStr "object");
          ("properties", JObj [
            ("delay", JObj [("type", JStr "integer"); ("description", JStr "Delay in ms.")]);
            ("quoted", JObj [
              ("type", JStr "object");
              ("properties", JObj [
                ("key", JObj [
                  ("type", JStr "object");
                  ("properties", JObj [("id", JObj [("type", JStr "string")])]);
                  ("required", JArr [JStr "id"])])]);
              ("description", JStr "Message key ID to quote.")])]);
          ("required", JArr [])])]);
      ("required", JArr [JStr "number"; JStr "name"; JStr "values"])])].
(** line 661 *)
Definition send_list : jval :=
  JObj [
    ("name", JStr "send_list");
    ("description", JStr "Sends a list message.");
    ("inputSchema", JObj [
      ("type", JStr "object");
      ("properties", JObj [
        ("number", JObj [
          ("type", JStr "string");
          ("description", JStr "Recipient phone number or group JID.")]);
        ("title", JObj [("type", JStr "string"); ("description", JStr "List title.")]);
        ("description", JObj [("type", JStr "string"); ("description", JStr "List description.")]);
        ("buttonText", JObj [
          ("type", JStr "string");
          ("description", JStr "Text on the button to open the list.")]);
        ("footerText", JObj [("type", JStr "string"); ("description", JStr "Footer text.")]);
        ("sections", JObj [
          ("type", JStr "array");
          ("items", JObj [
            ("type", JStr "object");
            ("properties", JObj [
              ("title", JObj [("type", JStr "string"); ("description", JStr "Section title.")]);
              ("rows", JObj [
                ("type", JStr "array");
                ("items", JObj [
                  ("type", JStr "object");
                  ("properties", JObj [
                    ("title", JObj [("type", JStr "string"); ("description", JStr "Row title.")]);
                    ("description", JObj [
                      ("type", JStr "string");
                      ("description", JStr "Row description.")]);
                    ("rowId", JObj [
                      ("type", JStr "string");
                      ("description", JStr "Unique ID for the row.")])]);
                  ("required", JArr [JStr "title"; JStr "rowId"])]);
                ("minItems", (num 1));
                ("description", JStr "Rows in this section.")])]);
            ("required", JArr [JStr "title"; JStr "rows"])]);
          ("minItems", (num 1));
          ("description", JStr "Sections of the list.")]);
        ("options", JObj [
          ("type", JStr "object");
          ("properties", JObj [
            ("delay", JObj [("type", JStr "integer"); ("description", JStr "Delay in ms.")]);
            ("quoted", JObj [
              ("type", JStr "object");
              ("properties", JObj [
                ("key", JObj [
                  ("type", JStr "object");
                  ("properties", JObj [("id", JObj [("type", JStr "string")])]);
                  ("required", JArr [JStr "id"])])]);
              ("description", JStr "Message key ID to quote.")])]);
          ("required", JArr [])])]);
      ("required", JArr [
        JStr "number";
        JStr "title";
        JStr "description";
        JStr "buttonText";
        JStr "sections"])])].
(** line 710 *)
Definition send_buttons : jval :=
  JObj [
    ("name", JStr "send_buttons");
    ("description", JStr "Sends a message with interactive buttons.");
    ("inputSchema", JObj [
      ("type", JStr "object");
      ("properties", JObj [
        ("number", JObj [
          ("type", JStr "string");
          ("description", JStr "Recipient phone number or group JID.")]);
        ("title", JObj [
          ("type", JStr "string");
          ("description", JStr "Optional title (often for media).")]);
        ("description", JObj [("type", JStr "string"); ("description", JStr "Main message text.")]);
        ("footer", JObj [("type", JStr "string"); ("description", JStr "Footer text.")]);
        ("buttons", JObj [
          ("type", JStr "array");
          ("items", JObj [
            ("type", JStr "object");
            ("properties", JObj [
              ("type", JObj [
                ("type", JStr "string");
                ("enum", JArr [JStr "reply"; JStr "url"; JStr "call"; JStr "copy"; JStr "pix"]);
                ("description", JStr "Button type.")]);
              ("displayText", JObj [("type", JStr "string"); ("description", JStr "Button label.")]);
              ("id", JObj [
                ("type", JStr "string");
                ("description", JStr "ID for 'reply' button.")]);
              ("url", JObj [
                ("type", JStr "string");
                ("description", JStr "URL for 'url' button.")]);
              ("phoneNumber", JObj [
                ("type", JStr "string");
                ("description", JStr "Phone for 'call' button.")]);
              ("copyCode", JObj [
                ("type", JStr "string");
                ("description", JStr "Text for 'copy' button.")]);
              ("currency", JObj [("type", JStr "string"); ("description", JStr "Currency for 'pix'.")]);
              ("name", JObj [
                ("type", JStr "string");
                ("description", JStr "Recipient name for 'pix'.")]);
              ("keyType", JObj [
                ("type", JStr "string");
                ("enum", JArr [JStr "phone"; JStr "email"; JStr "cpf"; JStr "cnpj"; JStr "random"]);
                ("description", JStr "PIX key type.")]);
              ("key", JObj [("type", JStr "string"); ("description", JStr "PIX key value.")])]);
            ("required", JArr [JStr "type"; JStr "displayText"])]);
          ("minItems", (num 1));
          ("maxItems", (num 3));
          ("description", JStr "Array of button objects.")]);
        ("options", JObj [
          ("type", JStr "object");
          ("properties", JObj [
            ("delay", JObj [("type", JStr "integer"); ("description", JStr "Delay in ms.")]);
            ("quoted", JObj [
              ("type", JStr "object");
              ("properties", JObj [
                ("key", JObj [
                  ("type", JStr "object");
                  ("properties", JObj [("id", JObj [("type", JStr "string")])]);
                  ("required", JArr [JStr "id"])])]);
              ("description", JStr "Message key ID to quote.")])]);
          ("required", JArr [])])]);
      ("required", JArr [JStr "number"; JStr "description"; JStr "buttons"])])].
(** line 756 *)
Definition check_whatsapp_numbers : jval :=
  JObj [
    ("name", JStr "check_whatsapp_numbers");
    ("description", JStr "Checks if a list of phone numbers have active WhatsApp accounts.");
    ("inputSchema", JObj [
      ("type", JStr "object");
      ("properties", JObj [
        ("numbers", JObj [
          ("type", JStr "array");
          ("items", JObj [("type", JStr "string")]);
          ("minItems", (num 1));
          ("description", JStr "Array of numbers to check.")])]);
      ("required", JArr [JStr "numbers"])])].
(** line 767 *)
Definition mark_message_as_read : jval :=
  JObj [
    ("name", JStr "mark_message_as_read");
    ("description", JStr "Marks specific messages as read.");
    ("inputSchema", JObj [
      ("type", JStr "object");
      ("properties", JObj [
        ("readMessages", JObj [
          ("type", JStr "array");
          ("items", JObj [
            ("type", JStr "object");
            ("properties", JObj [
              ("remoteJid", JObj [("type", JStr "string"); ("description", JStr "Chat JID.")]);
              ("fromMe", JObj [("type", JStr "boolean"); ("description", JStr "Sent by bot?")]);
              ("id", JObj [("type", JStr "string"); ("description", JStr "Message ID.")])]);
            ("required", JArr [JStr "remoteJid"; JStr "fromMe"; JStr "id"])]);
          ("minItems", (num 1));
          ("description", JStr "List of message keys.")])]);
      ("required", JArr [JStr "readMessages"])])].
(** line 791 *)
Definition archive_chat : jval :=
  JObj [
    ("name", JStr "archive_chat");
    ("description", JStr "Archives or unarchives a specific chat.");
    ("inputSchema", JObj [
      ("type", JStr "object");
      ("properties", JObj [
        ("chat", JObj [("type", JStr "string"); ("description", JStr "Chat JID to (un)archive.")]);
        ("archive", JObj [
          ("type", JStr "boolean");
          ("description", JStr "True to archive, false to unarchive.")])]);
      ("required", JArr [JStr "chat"; JStr "archive"])])].
(** line 803 *)
Definition mark_chat_unread : jval :=
  JObj [
    ("name", JStr "mark_chat_unread");
    ("description", JStr "Marks a chat as unread.");
    ("inputSchema", JObj [
      ("type", JStr "object");
      ("properties", JObj [
        ("chat", JObj [("type", JStr "string"); ("description", JStr "Chat JID to mark unread.")])]);
      ("required", JArr [JStr "chat"])])].
(** line 814 *)
Definition delete_message : jval :=
  JObj [
    ("name", JStr "delete_message");
    ("description", JStr "Deletes a message for everyone.");
    ("inputSchema", JObj [
      ("type", JStr "object");
      ("properties", JObj [
        ("key", JObj [
          ("type", JStr "object");
          ("properties", JObj [
            ("id", JObj [("type", JStr "string"); ("description", JStr "Message ID.")]);
            ("remoteJid", JObj [("type", JStr "string"); ("description", JStr "Chat JID.")]);
            ("fromMe", JObj [
              ("type", JStr "boolean");
              ("description", JStr "Was message sent by the bot?")]);
            ("participant", JObj [
              ("type", JStr "string");
              ("description", JStr "Participant JID (for groups).")])]);
          ("required", JArr [JStr "id"; JStr "remoteJid"; JStr "fromMe"])])]);
      ("required", JArr [JStr "key"])])].
(** line 834 *)
Definition fetch_profile_picture_url : jval :=
  JObj [
    ("name", JStr "fetch_profile_picture_url");
    ("description", JStr "Gets the URL of a user's or group's profile picture.");
    ("inputSchema", JObj [
      ("type", JStr "object");
      ("properties", JObj [
        ("number", JObj [
          ("type", JStr "string");
          ("description", JStr "User/Group phone number or JID.")])]);
      ("required", JArr [JStr "number"])])].
(** line 845 *)
Definition get_base64_from_media_message : jval :=
  JObj [
    ("name", JStr "get_base64_from_media_message");
    ("description", JStr "Downloads and returns the Base64 content of a media message.");
    ("inputSchema", JObj [
      ("type", JStr "object");
      ("properties", JObj [
        ("messageKey", JObj [
          ("type", JStr "object");
          ("properties", JObj [
            ("id", JObj [("type", JStr "string"); ("description", JStr "Message ID.")]);
            ("remoteJid", JObj [("type", JStr "string"); ("description", JStr "Chat JID.")]);
            ("fromMe", JObj [("type", JStr "boolean"); ("description", JStr "Sent by bot?")])]);
          ("required", JArr [JStr "id"; JStr "remoteJid"; JStr "fromMe"])]);
        ("convertToMp4", JObj [
          ("type", JStr "boolean");
          ("default", JBool false);
          ("description", JStr "Convert audio to MP4?")])]);
      ("required", JArr [JStr "messageKey"])])].
(** line 865 *)
Definition update_message : jval :=
  JObj [
    ("name", JStr "update_message");
    ("description", JStr "Edits the text content of a previously sent message.");
    ("inputSchema", JObj [
      ("type", JStr "object");
      ("properties", JObj [
        ("key", JObj [
          ("type", JStr "object");
          ("properties", JObj [
            ("id", JObj [("type", JStr "string"); ("description", JStr "Message ID to edit.")]);
            ("remoteJid", JObj [("type", JStr "string"); ("description", JStr "Chat JID.")]);
            ("fromMe", JObj [
              ("type", JStr "boolean");
              ("description", JStr "Must be true (bot sent it).")])]);
          ("required", JArr [JStr "id"; JStr "remoteJid"; JStr "fromMe"])]);
        ("text", JObj [("type", JStr "string"); ("description", JStr "New message text.")])]);
      ("required", JArr [JStr "key"; JStr "text"])])].
(** line 885 *)
Definition send_presence : jval :=
  JObj [
    ("name", JStr "send_presence");
    ("description", JStr "Sends a presence update (e.g., typing, recording) to a chat.");
    ("inputSchema", JObj [
      ("type", JStr "object");
      ("properties", JObj [
        ("number", JObj [("type", JStr "string"); ("description", JStr "Chat JID.")]);
        ("presence", JObj [
          ("type", JStr "string");
          ("enum", JArr [
            JStr "unavailable";
            JStr "available";
            JStr "composing";
            JStr "recording";
            JStr "paused"]);
          ("description", JStr "Presence type.")]);
        ("delay", JObj [
          ("type", JStr "integer");
          ("default", (num 1200));
          ("description", JStr "Duration in ms.")])]);
      ("required", JArr [JStr "number"; JStr "presence"])])].
(** line 898 *)
Definition update_block_status : jval :=
  JObj [
    ("name", JStr "update_block_status");
    ("description", JStr "Blocks or unblocks a specific contact.");
    ("inputSchema", JObj [
      ("type", JStr "object");
      ("properties", JObj [
        ("number", JObj [
          ("type", JStr "string");
          ("description", JStr "User JID or number to (un)block.")]);
        ("status", JObj [
          ("type", JStr "string");
          ("enum", JArr [JStr "block"; JStr "unblock"]);
          ("description", JStr "Action.")])]);
      ("required", JArr [JStr "number"; JStr "status"])])].
(** line 910 *)
Definition find_contacts : jval :=
  JObj [
    ("name", JStr "find_contacts");
    ("description", JStr "Retrieves the list of contacts synced with the instance.");
    ("inputSchema", JObj [("type", JStr "object"); ("properties", JObj []); ("required", JArr [])])].
(** line 915 *)
Definition find_messages : jval :=
  JObj [
    ("name", JStr "find_messages");
    ("description", JStr "Searches for messages in the instance's database (if enabled).");
    ("inputSchema", JObj [
      ("type", JStr "object");
      ("properties", JObj [
        ("where", JObj [
          ("type", JStr "object");
          ("properties", JObj [
            ("key", JObj [
              ("type", JStr "object");
              ("properties", JObj [
                ("remoteJid", JObj [
                  ("type", JStr "string");
                  ("description", JStr "Filter by chat JID.")]);
                ("fromMe", JObj [
                  ("type", JStr "boolean");
                  ("description", JStr "Filter by sender.")]);
                ("id", JObj [
                  ("type", JStr "string");
                  ("description", JStr "Find by message ID.")])]);
              ("required", JArr [])])]);
          ("required", JArr [])]);
        ("page", JObj [
          ("type", JStr "integer");
          ("default", (num 1));
          ("description", JStr "Page number.")]);
        ("limit", JObj [
          ("type", JStr "integer");
          ("default", (num 10));
          ("description", JStr "Messages per page.")])]);
      ("required", JArr [])])].
(** line 943 *)
Definition fetch_profile : jval :=
  JObj [
    ("name", JStr "fetch_profile");
    ("description", JStr "Gets profile information (name, status, picture) for a given number/JID.");
    ("inputSchema", JObj [
      ("type", JStr "object");
      ("properties", JObj [
        ("number", JObj [
          ("type", JStr "string");
          ("description", JStr "User/Group phone number or JID.")])]);
      ("required", JArr [JStr "number"])])].
(** line 954 *)
Definition update_profile_name : jval :=
  JObj [
    ("name", JStr "update_profile_name");
    ("description", JStr "Updates the instance's profile name.");
    ("inputSchema", JObj [
      ("type", JStr "object");
      ("properties", JObj [
        ("name", JObj [("type", JStr "string"); ("description", JStr "New profile name.")])]);
      ("required", JArr [JStr "name"])])].
(** line 965 *)
Definition update_profile_status : jval :=
  JObj [
    ("name", JStr "update_profile_status");
    ("description", JStr "Updates the instance's profile status (about/bio).");
    ("inputSchema", JObj [
      ("type", JStr "object");
      ("properties", JObj [
        ("status", JObj [("type", JStr "string"); ("description", JStr "New profile status.")])]);
      ("required", JArr [JStr "status"])])].
(** line 976 *)
Definition update_profile_picture : jval :=
  JObj [
    ("name", JStr "update_profile_picture");
    ("description", JStr "Updates the instance's profile picture from a URL or Base64.");
    ("inputSchema", JObj [
      ("type", JStr "object");
      ("properties", JObj [
        ("picture", JObj [
          ("type", JStr "string");
          ("description", JStr "URL or Base64 of the new picture.")])]);
      ("required", JArr [JStr "picture"])])].
(** line 987 *)
Definition remove_profile_picture : jval :=
  JObj [
    ("name", JStr "remove_profile_picture");
    ("description", JStr "Removes the instance's current profile picture.");
    ("inputSchema", JObj [("type", JStr "object"); ("properties", JObj []); ("required", JArr [])])].
(** line 995 *)
Definition create_group : jval :=
  JObj [
    ("name", JStr "create_group");
    ("description", JStr "Creates a new WhatsApp group.");
    ("inputSchema", JObj [
      ("type", JStr "object");
      ("properties", JObj [
        ("subject", JObj [("type", JStr "string"); ("description", JStr "Group name.")]);
        ("description", JObj [("type", JStr "string"); ("description", JStr "Group description.")]);
        ("participants", JObj [
          ("type", JStr "array");
          ("items", JObj [("type", JStr "string")]);
          ("minItems", (num 1));
          ("description", JStr "Array of initial participant numbers (e.g., 5511...).")])]);
      ("required", JArr [JStr "subject"; JStr "participants"])])].
(** line 1013 *)
Definition fetch_all_groups : jval :=
  JObj [
    ("name", JStr "fetch_all_groups");
    ("description", JStr "Retrieves a list of all groups the instance is part of.");
    ("inputSchema", JObj [
      ("type", JStr "object");
      ("properties", JObj [
        ("getParticipants", JObj [
          ("type", JStr "boolean");
          ("description", JStr "Include participants?");
          ("default", JBool false)])]);
      ("required", JArr [])])].
(** line 1024 *)
Definition find_participants : jval :=
  JObj [
    ("name", JStr "find_participants");
    ("description", JStr "Retrieves the participant list for a specific group.");
    ("inputSchema", JObj [
      ("type", JStr "object");
      ("properties", JObj [
        ("groupJid", JObj [
          ("type", JStr "string");
          ("description", JStr "Group JID (e.g., 123@g.us).")])]);
      ("required", JArr [JStr "groupJid"])])].
(** line 1035 *)
Definition update_participant : jval :=
  JObj [
    ("name", JStr "update_participant");
    ("description", JStr "Adds, removes, promotes, or demotes participants in a group.");
    ("inputSchema", JObj [
      ("type", JStr "object");
      ("properties", JObj [
        ("groupJid", JObj [("type", JStr "string"); ("description", JStr "Group JID.")]);
        ("action", JObj [
          ("type", JStr "string");
          ("enum", JArr [JStr "add"; JStr "remove"; JStr "promote"; JStr "demote"]);
          ("description", JStr "Action.")]);
        ("participants", JObj [
          ("type", JStr "array");
          ("items", JObj [("type", JStr "string")]);
          ("minItems", (num 1));
          ("description", JStr "Participant numbers or JIDs.")])]);
      ("required", JArr [JStr "groupJid"; JStr "action"; JStr "participants"])])].
(** line 1048 *)
Definition update_group_subject : jval :=
  JObj [
    ("name", JStr "update_group_subject");
    ("description", JStr "Changes the subject (name) of a group.");
    ("inputSchema", JObj [
      ("type", JStr "object");
      ("properties", JObj [
        ("groupJid", JObj [("type", JStr "string"); ("description", JStr "Group JID.")]);
        ("subject", JObj [("type", JStr "string"); ("description", JStr "New group subject.")])]);
      ("required", JArr [JStr "groupJid"; JStr "subject"])])].
(** line 1060 *)
Definition update_group_description : jval :=
  JObj [
    ("name", JStr "update_group_description");
    ("description", JStr "Changes the description of a group.");
    ("inputSchema", JObj [
      ("type", JStr "object");
      ("properties", JObj [
        ("groupJid", JObj [("type", JStr "string"); ("description", JStr "Group JID.")]);
        ("description", JObj [("type", JStr "string"); ("description", JStr "New group description.")])]);
      ("required", JArr [JStr "groupJid"; JStr "description"])])].
(** line 1072 *)
Definition update_group_picture : jval :=
  JObj [
    ("name", JStr "update_group_picture");
    ("description", JStr "Changes the profile picture of a group.");
    ("inputSchema", JObj [
      ("type", JStr "object");
      ("properties", JObj [
        ("groupJid", JObj [("type", JStr "string"); ("description", JStr "Group JID.")]);
        ("image", JObj [
          ("type", JStr "string");
          ("description", JStr "URL or Base64 of the new picture.")])]);
      ("required", JArr [JStr "groupJid"; JStr "image"])])].
(** line 1084 *)
Definition fetch_invite_code : jval :=
  JObj [
    ("name", JStr "fetch_invite_code");
    ("description", JStr "Gets the current invite code (link) for a group.");
    ("inputSchema", JObj [
      ("type", JStr "object");
      ("properties", JObj [
        ("groupJid", JObj [("type", JStr "string"); ("description", JStr "Group JID.")])]);
      ("required", JArr [JStr "groupJid"])])].
(** line 1095 *)
Definition revoke_invite_code : jval :=
  JObj [
    ("name", JStr "revoke_invite_code");
    ("description", JStr "Generates a new invite code (link), invalidating the old one.");
    ("inputSchema", JObj [
      ("type", JStr "object");
      ("properties", JObj [
        ("groupJid", JObj [("type", JStr "string"); ("description", JStr "Group JID.")])]);
      ("required", JArr [JStr "groupJid"])])].
(** line 1106 *)
Definition send_invite : jval :=
  JObj [
    ("name", JStr "send_invite");
    ("description", JStr "Sends the group invite link to specified numbers.");
    ("inputSchema", JObj [
      ("type", JStr "object");
      ("properties", JObj [
        ("groupJid", JObj [("type", JStr "string"); ("description", JStr "Group JID to invite to.")]);
        ("numbers", JObj [
          ("type", JStr "array");
          ("items", JObj [("type", JStr "string")]);
          ("minItems", (num 1));
          ("description", JStr "Numbers/JIDs to send the link to.")]);
        ("description", JObj [
          ("type", JStr "string");
          ("description", JStr "Optional text accompanying the link.")])]);
      ("required", JArr [JStr "groupJid"; JStr "numbers"])])].
(** line 1119 *)
Definition find_group_by_invite_code : jval :=
  JObj [
    ("name", JStr "find_group_by_invite_code");
    ("description", JStr "Retrieves group information using an invite code.");
    ("inputSchema", JObj [
      ("type", JStr "object");
      ("properties", JObj [
        ("inviteCode", JObj [
          ("type", JStr "string");
          ("description", JStr "The invite code from the link.")])]);
      ("required", JArr [JStr "inviteCode"])])].
(** line 1130 *)
Definition find_group_by_jid : jval :=
  JObj [
    ("name", JStr "find_group_by_jid");
    ("description", JStr "Retrieves detailed information about a specific group by its JID.");
    ("inputSchema", JObj [
      ("type", JStr "object");
      ("properties", JObj [
        ("groupJid", JObj [("type", JStr "string"); ("description", JStr "Group JID.")])]);
      ("required", JArr [JStr "groupJid"])])].
(** line 1141 *)
Definition update_group_setting : jval :=
  JObj [
    ("name", JStr "update_group_setting");
    ("description", JStr "Changes group settings (e.g., who can send messages or edit info).");
    ("inputSchema", JObj [
      ("type", JStr "object");
      ("properties", JObj [
        ("groupJid", JObj [("type", JStr "string"); ("description", JStr "Group JID.")]);
        ("action", JObj [
          ("type", JStr "string");
          ("enum", JArr [
            JStr "announcement";
            JStr "not_announcement";
            JStr "locked";
            JStr "unlocked"]);
          ("description", JStr "Setting to change.")])]);
      ("required", JArr [JStr "groupJid"; JStr "action"])])].
(** line 1153 *)
Definition toggle_ephemeral : jval :=
  JObj [
    ("name", JStr "toggle_ephemeral");
    ("description", JStr "Enables or disables ephemeral (disappearing) messages for a group.");
    ("inputSchema", JObj [
      ("type", JStr "object");
      ("properties", JObj [
        ("groupJid", JObj [("type", JStr "string"); ("description", JStr "Group JID.")]);
        ("expiration", JObj [
          ("type", JStr "integer");
          ("enum", JArr [(num 0); (num 86400); (num 604800); (num 7776000)]);
          ("description", JStr "Duration in seconds (0=off).")])]);
      ("required", JArr [JStr "groupJid"; JStr "expiration"])])].
(** line 1165 *)
Definition leave_group : jval :=
  JObj [
    ("name", JStr "leave_group");
    ("description", JStr "Makes the instance leave a specified group.");
    ("inputSchema", JObj [
      ("type", JStr "object");
      ("properties", JObj [
        ("groupJid", JObj [("type", JStr "string"); ("description", JStr "Group JID to leave.")])]);
      ("required", JArr [JStr "groupJid"])])].
(** line 1177 *)
Definition find_webhook_settings : jval :=
  JObj [
    ("name", JStr "find_webhook_settings");
    ("description", JStr "Retrieves the current webhook configuration for the instance.");
    ("inputSchema", JObj [("type", JStr "object"); ("properties", JObj []); ("required", JArr [])])].
End ToolDefs.

(** [TOOL_DEFINITIONS] *)
Definition TOOL_DEFINITIONS : list jval :=
  [ToolDefs.create_instance;
   ToolDefs.fetch_instances;
   ToolDefs.connect_instance;
   ToolDefs.restart_instance;
   ToolDefs.set_presence;
   ToolDefs.get_connection_state;
   ToolDefs.logout_instance;
   ToolDefs.delete_instance;
   ToolDefs.set_settings;
   ToolDefs.find_settings;
   ToolDefs.send_text;
   ToolDefs.send_media;
   ToolDefs.send_ptv;
   ToolDefs.send_whatsapp_audio;
   ToolDefs.send_sticker;
   ToolDefs.send_location;
   ToolDefs.send_contact;
   ToolDefs.send_reaction;
   ToolDefs.send_poll;
   ToolDefs.send_list;
   ToolDefs.send_buttons;
   ToolDefs.check_whatsapp_numbers;
   ToolDefs.mark_message_as_read;
   ToolDefs.archive_chat;
   ToolDefs.mark_chat_unread;
   ToolDefs.delete_message;
   ToolDefs.fetch_profile_picture_url;
   ToolDefs.get_base64_from_media_message;
   ToolDefs.update_message;
   ToolDefs.send_presence;
   ToolDefs.update_block_status;
   ToolDefs.find_contacts;
   ToolDefs.find_messages;
   ToolDefs.fetch_profile;
   ToolDefs.update_profile_name;
   ToolDefs.update_profile_status;
   ToolDefs.update_profile_picture;
   ToolDefs.remove_profile_picture;
   ToolDefs.create_group;
   ToolDefs.fetch_all_groups;
   ToolDefs.find_participants;
   ToolDefs.update_participant;
   ToolDefs.update_group_subject;
   ToolDefs.update_group_description;
   ToolDefs.update_group_picture;
   ToolDefs.fetch_invite_code;
   ToolDefs.revoke_invite_code;
   ToolDefs.send_invite;
   ToolDefs.find_group_by_invite_code;
   ToolDefs.find_group_by_jid;
   ToolDefs.update_group_setting;
   ToolDefs.toggle_ephemeral;
   ToolDefs.leave_group;
   ToolDefs.find_webhook_settings].

(** The [ListToolsRequestSchema] handler: [{ tools: TOOL_DEFINITIONS }]. *)
Definition list_tools : jval := JObj [("tools", JArr TOOL_DEFINITIONS)].

(* ------------------------------------------------------------------ *)
(** ** Auxiliary definitions for the proofs *)

(** The field loop of [ZodObject._parse], as a function of its own. *)
Fixpoint zfields (sh : list (string * zschema)) (path : list path_elem) (v : jval)
  : list issue * option (bool * list (string * jval)) :=
  match sh with
  | [] => ([], Some (false, []))
  | (k, t) :: r =>
      let '(is1, st) := zparse t (path ++ [PKey k])%list (jget v k) in
      let '(is2, rest) := zfields r path v in
      let keep (y : jval) (ys : list (string * jval)) :=
        match y with
        | JUndef => if jhas v k then (k, y) :: ys else ys
        | _ => (k, y) :: ys
        end in
      ((is1 ++ is2)%list,
       match st, rest with
       | ZAborted, _ | _, None => None
       | ZValid y, Some (d, ys) => Some (d, keep y ys)
       | ZDirty y, Some (_, ys) => Some (true, keep y ys)
       end)
  end.

(** The element loop of [ZodArray._parse]. *)
Fixpoint zelems (t : zschema) (path : list path_elem) (i : nat) (l : list jval)
  : list issue * option (bool * list jval) :=
  match l with
  | [] => ([], Some (false, []))
  | x :: r =>
      let '(is1, st) := zparse t (path ++ [PIdx i])%list x in
      let '(is2, rest) := zelems t path (S i) r in
      ((is1 ++ is2)%list,
       match st, rest with
       | ZAborted, _ | _, None => None
       | ZValid y, Some (d, ys) => Some (d, y :: ys)
       | ZDirty y, Some (_, ys) => Some (true, y :: ys)
       end)
  end.

(** Field-wise agreement of two objects on the declared fields [sh]. *)
Fixpoint fields_agree (R : zschema -> jval -> jval -> Prop) (a b : jval)
  (sh : list (string * zschema)) : Prop :=
  match sh with
  | [] => True
  | (k, t) :: r => jhas a k = jhas b k /\ R t (jget a k) (jget b k) /\ fields_agree R a b r
  end.

(** Two raw values agree on everything the schema declares: equal, or both
    objects whose declared fields (presence and value) agree, or both arrays
    whose elements agree pointwise.  Undeclared object fields are free. *)
Fixpoint zagree (s : zschema) (a b : jval) {struct s} : Prop :=
  a = b \/
  match s with
  | ZObject sh =>
      (exists fa, a = JObj fa) /\ (exists fb, b = JObj fb) /\ fields_agree zagree a b sh
  | ZArray t _ _ =>
      exists la lb, a = JArr la /\ b = JArr lb /\ Forall2 (zagree t) la lb
  | ZOptional t | ZDefault t _ | ZRefine t _ _ => zagree t a b
  | _ => False
  end.

(** A property of the request a handler sends and of its continuation. *)
Definition holds (P : request -> (raw_response -> jval) -> Prop) (m : res hstep) : Prop :=
  match m with
  | Ok (HCall req k) => P req k
  | _ => True
  end.

(** The value [getEnv("EVOLUTION_API_BASE", "localhost:8080")] returns. *)
Definition api_base (env : environment) : string :=
  match env_lookup env EVOLUTION_API_BASE with
  | Some v => if String.eqb v "" then "localhost:8080" else v
  | None => "localhost:8080"
  end.

Definition refine_message : string :=
  "Can only edit messages sent by the bot (fromMe must be true).".

Definition path_elem_eqb (a b : path_elem) : bool :=
  match a, b with
  | PKey x, PKey y => String.eqb x y
  | PIdx i, PIdx j => Nat.eqb i j
  | _, _ => false
  end.

Fixpoint path_eqb (p q : list path_elem) : bool :=
  match p, q with
  | [], [] => true
  | a :: p', b :: q' => path_elem_eqb a b && path_eqb p' q'
  | _, _ => false
  end.

(** The messages of the issues [schema.parse(v)] reports at path [p]. *)
Definition messages_at (s : zschema) (v : jval) (p : list path_elem) : list string :=
  map imessage (filter (fun i => path_eqb (ipath i) p) (fst (zparse s [] v))).

(** [key.fromMe] *)
Definition key_fromMe : list path_elem := [PKey "key"; PKey "fromMe"].

(** The shape-level lookup [shape[k]]. *)
Fixpoint sassoc (k : string) (sh : list (string * zschema)) : option zschema :=
  match sh with
  | [] => None
  | (k', t) :: r => if String.eqb k k' then Some t else sassoc k r
  end.

(** The AmbientConfig of the end-to-end scenarios. *)
Definition env_scenario : environment :=
  [("EVOLUTION_APIKEY", "k"); ("EVOLUTION_INSTANCE", "inst1");
   ("EVOLUTION_API_BASE", "host:8080")].

Definition args_scenario : jval :=
  JObj [("number", JStr "5511999998888"); ("text", JStr "hello")].

(** The request of scenario A. *)
Definition req_scenario_A : request :=
  mk_request POST "https://host:8080/message/sendText/inst1"
    [("Content-Type", "application/json"); ("apikey", "k")] None
    (Some (JObj [("number", JStr "5511999998888"); ("text", JStr "hello");
                 ("options", JUndef)])).

(** The remote server of scenario C: HTTP 500 with body [{"error":"down"}]. *)
Definition body_down : jval := JObj [("error", JStr "down")].
Definition remote_down : request -> raw_response := fun _ => HttpResponse 500 body_down.

(** The entries of [{ tools: TOOL_DEFINITIONS }]. *)
Definition advertised_tools : list jval :=
  match jget list_tools "tools" with JArr l => l | _ => [] end.

(** [Object.keys(entry.inputSchema.properties)] *)
Definition advertised_keys (d : jval) : list string :=
  match jget (jget d "inputSchema") "properties" with JObj ps => map fst ps | _ => [] end.

(** [entry.inputSchema.required] *)
Definition advertised_required (d : jval) : list jval :=
  match jget (jget d "inputSchema") "required" with JArr l => l | _ => [] end.

(** The keys of a [z.object] shape, in declaration order. *)
Definition shape_keys (s : zschema) : list string :=
  match s with ZObject sh => map fst sh | _ => [] end.

Definition string_list_eqb (a b : list string) : bool :=
  if list_eq_dec string_dec a b then true else false.

Fixpoint nodup_strings (l : list string) : bool :=
  match l with
  | [] => true
  | x :: r => negb (existsb (String.eqb x) r) && nodup_strings r
  end.

(** Whether zod reports [Required] at [k] for a missing field [k] of type [t]. *)
Definition missing_required (t : zschema) (k : string) : bool :=
  existsb (String.eqb "Required")
    (map imessage (filter (fun i => path_eqb (ipath i) [PKey k]) (fst (zparse t [PKey k] JUndef)))).

(** The advertised [inputSchema] of [d] lists the keys of [s] in order, and
    its [required] list names exactly the fields zod reports as missing. *)
Definition interface_agrees (d : jval) (s : zschema) : bool :=
  match s with
  | ZObject sh =>
      string_list_eqb (advertised_keys d) (map fst sh) && nodup_strings (map fst sh) &&
      forallb (fun kt => Bool.eqb (existsb (jval_eqb (JStr (fst kt))) (advertised_required d))
                                  (missing_required (snd kt) (fst kt))) sh &&
      forallb (fun r => existsb (fun kt => jval_eqb r (JStr (fst kt))) sh) (advertised_required d)
  | _ => false
  end.

(** Every object shape inside the schema has distinct keys. *)
Fixpoint wf_schema (s : zschema) : bool :=
  match s with
  | ZArray t _ _ | ZOptional t | ZDefault t _ | ZRefine t _ _ => wf_schema t
  | ZObject sh =>
      nodup_strings (map fst sh) &&
      (fix go (sh : list (string * zschema)) : bool :=
         match sh with
         | [] => true
         | (_, t) :: r => wf_schema t && go r
         end) sh
  | _ => true
  end.

(** The status test of axios' default [validateStatus]: a 2xx answer. *)
Definition succeeded (r : raw_response) : bool :=
  match r with
  | HttpResponse st _ => ((200 <=? st) && (st <? 300))%Z
  | NetworkError _ => false
  end.

(** The error [getEnv] throws for a missing variable. *)
Definition missing_env (name : string) : jserror :=
  Error ("Missing required environment variable: " ++ name).

(** An unset or empty variable, which [getEnv] treats alike. *)
Definition env_unset (env : environment) (name : string) : Prop :=
  env_lookup env name = None \/ env_lookup env name = Some "".

(** The declared [.default(...)] values of a schema, each with the key path
    of its field: fields of objects, also below [.optional()]. *)
Fixpoint defaults_of (s : zschema) : list (list string * jval) :=
  match s with
  | ZObject sh =>
      (fix go (sh : list (string * zschema)) : list (list string * jval) :=
         match sh with
         | [] => []
         | (k, t) :: r =>
             ((match t with ZDefault _ d => [([k], d)] | _ => [] end)
              ++ map (fun pd => (k :: fst pd, snd pd)) (defaults_of t) ++ go r)%list
         end) sh
  | ZOptional t | ZDefault t _ | ZRefine t _ _ => defaults_of t
  | _ => []
  end.

(** The number of [ZDefault] nodes anywhere in a schema, arrays included. *)
Fixpoint count_defaults (s : zschema) : nat :=
  match s with
  | ZObject sh =>
      (fix go (sh : list (string * zschema)) : nat :=
         match sh with
         | [] => 0
         | (_, t) :: r => count_defaults t + go r
         end) sh
  | ZArray t _ _ | ZOptional t | ZRefine t _ _ => count_defaults t
  | ZDefault t _ => S (count_defaults t)
  | _ => 0
  end.

(** Equality of scalar JSON values. *)
Definition scalar_eqb (a b : jval) : bool :=
  match a, b with
  | JUndef, JUndef | JNull, JNull => true
  | JBool x, JBool y => Bool.eqb x y
  | JNum m e, JNum m' e' => (m =? m')%Z && (e =? e')%Z
  | JStr x, JStr y => String.eqb x y
  | _, _ => false
  end.

(** Every default is a defined scalar that its own schema accepts unchanged. *)
Fixpoint defaults_ok (s : zschema) : bool :=
  match s with
  | ZObject sh =>
      (fix go (sh : list (string * zschema)) : bool :=
         match sh with
         | [] => true
         | (_, t) :: r => defaults_ok t && go r
         end) sh
  | ZArray t _ _ | ZOptional t | ZRefine t _ _ => defaults_ok t
  | ZDefault t d =>
      defaults_ok t && negb (scalar_eqb d JUndef) &&
      match snd (zparse t [] d) with ZValid y => scalar_eqb y d | _ => false end
  | _ => true
  end.

(** [v.k1.k2...] *)
Definition jget_path (v : jval) (p : list string) : jval := fold_left jget p v.

(* ------------------------------------------------------------------ *)
(** ** General lemmas *)

Section ZschemaInd.
Variable P : zschema -> Prop.
Hypothesis HString : P ZString.
Hypothesis HBoolean : P ZBoolean.
Hypothesis HNumber : forall cs, P (ZNumber cs).
Hypothesis HEnum : forall vs, P (ZEnum vs).
Hypothesis HArray : forall t mn mx, P t -> P (ZArray t mn mx).
Hypothesis HObject : forall sh, Forall (fun kt => P (snd kt)) sh -> P (ZObject sh).
Hypothesis HOptional : forall t, P t -> P (ZOptional t).
Hypothesis HDefault : forall t d, P t -> P (ZDefault t d).
Hypothesis HRefine : forall t f m, P t -> P (ZRefine t f m).

Fixpoint zschema_ind' (s : zschema) : P s :=
  match s with
  | ZString => HString
  | ZBoolean => HBoolean
  | ZNumber cs => HNumber cs
  | ZEnum vs => HEnum vs
  | ZArray t mn mx => HArray t mn mx (zschema_ind' t)
  | ZObject sh =>
      HObject sh
        ((fix go (sh : list (string * zschema)) : Forall (fun kt => P (snd kt)) sh :=
            match sh with
            | [] => Forall_nil _
            | kt :: r => Forall_cons kt (zschema_ind' (snd kt)) (go r)
            end) sh)
  | ZOptional t => HOptional t (zschema_ind' t)
  | ZDefault t d => HDefault t d (zschema_ind' t)
  | ZRefine t f m => HRefine t f m (zschema_ind' t)
  end.
End ZschemaInd.

Lemma zparse_object (sh : list (string * zschema)) (path : list path_elem) (fs : list (string * jval)) :
  zparse (ZObject sh) path (JObj fs) =
  let '(is, res) := zfields sh path (JObj fs) in
  (is, match res with None => ZAborted | Some (d, out) => mark d (JObj out) end).
Proof.
  simpl.
  match goal with
  | |- match ?X with _ => _ end = _ => replace X with (zfields sh path (JObj fs))
  end.
  - reflexivity.
  - induction sh as [|[k t] r IH]; simpl; [reflexivity|].
    rewrite IH. reflexivity.
Qed.

Lemma zparse_array (t : zschema) (mn mx : option nat) (path : list path_elem) (l : list jval) :
  zparse (ZArray t mn mx) path (JArr l) =
  let is_min := match mn with
                | Some n => if Nat.ltb (List.length l) n then
                              [mk_issue path ("Array must contain at least "
                                 ++ nat_to_string n ++ " element(s)")] else []
                | None => [] end in
  let is_max := match mx with
                | Some n => if Nat.ltb n (List.length l) then
                              [mk_issue path ("Array must contain at most "
                                 ++ nat_to_string n ++ " element(s)")] else []
                | None => [] end in
  let '(is_el, res) := zelems t path 0 l in
  ((is_min ++ is_max ++ is_el)%list,
   match res with
   | None => ZAborted
   | Some (d, ys) => mark (d || negb (Nat.eqb (List.length (is_min ++ is_max)%list) 0)) (JArr ys)
   end).
Proof.
  simpl.
  match goal with
  | |- context [match ?F 0 l with pair _ _ => _ end] =>
      replace (F 0 l) with (zelems t path 0 l); [reflexivity|];
      generalize 0; induction l as [|x r IH]; intros i; simpl; [reflexivity|];
      rewrite IH; reflexivity
  end.
Qed.

Lemma zagree_undef_l (s : zschema) : forall b, zagree s JUndef b -> b = JUndef.
Proof.
  induction s as [| | cs | vs | t mn mx IHs | sh Hsh | t IHs | t d IHs | t f m IHs]
    using zschema_ind'; intros b Hag; simpl in Hag;
    try (destruct Hag as [Hag|Hag]; [congruence|]);
    try contradiction; try (apply IHs; exact Hag).
  - destruct Hag as (la & lb & Ha & _); discriminate.
  - destruct Hag as ((fa & Ha) & _); discriminate.
Qed.

Lemma zagree_undef_r (s : zschema) : forall a, zagree s a JUndef -> a = JUndef.
Proof.
  induction s as [| | cs | vs | t mn mx IHs | sh Hsh | t IHs | t d IHs | t f m IHs]
    using zschema_ind'; intros a Hag; simpl in Hag;
    try (destruct Hag as [Hag|Hag]; [congruence|]);
    try contradiction; try (apply IHs; exact Hag).
  - destruct Hag as (la & lb & _ & Hb & _); discriminate.
  - destruct Hag as (_ & (fb & Hb) & _); discriminate.
Qed.

Lemma zelems_agree (t : zschema) (path : list path_elem) :
  (forall p x y, zagree t x y -> zparse t p x = zparse t p y) ->
  forall la lb, Forall2 (zagree t) la lb -> forall i, zelems t path i la = zelems t path i lb.
Proof.
  intros IH la lb H; induction H as [|x y la lb Hxy _ IHl]; intros i; simpl; [reflexivity|].
  rewrite (IH _ x y Hxy), IHl. reflexivity.
Qed.

Lemma zfields_agree (path : list path_elem) (a b : jval) :
  forall sh,
  Forall (fun kt => forall p x y, zagree (snd kt) x y -> zparse (snd kt) p x = zparse (snd kt) p y) sh ->
  fields_agree zagree a b sh -> zfields sh path a = zfields sh path b.
Proof.
  intros sh H; induction H as [|[k t] r Ht _ IHr]; intros Hag; simpl; [reflexivity|].
  simpl in Hag, Ht. destruct Hag as (Hhas & Hkt & Hr).
  rewrite (Ht _ _ _ Hkt), (IHr Hr), Hhas. reflexivity.
Qed.

(** Parsing only looks at what the schema declares. *)
Lemma zparse_agree (s : zschema) :
  forall path a b, zagree s a b -> zparse s path a = zparse s path b.
Proof.
  induction s as [| | cs | vs | t mn mx IHs | sh Hsh | t IHs | t d IHs | t f m IHs]
    using zschema_ind'; intros path a b Hag; simpl in Hag;
    (destruct Hag as [Hag|Hag]; [subst; reflexivity|]); try contradiction.
  - destruct Hag as (la & lb & -> & -> & Hl).
    rewrite !zparse_array, (zelems_agree t path (IHs) la lb Hl 0).
    rewrite (Forall2_length Hl). reflexivity.
  - destruct Hag as ((fa & ->) & (fb & ->) & Hf).
    rewrite !zparse_object, (zfields_agree path _ _ sh Hsh Hf). reflexivity.
  - simpl. destruct a; [rewrite (zagree_undef_l _ _ Hag); reflexivity|..];
      (destruct b; [apply zagree_undef_r in Hag; discriminate|..]; apply IHs; exact Hag).
  - simpl. destruct a; [rewrite (zagree_undef_l _ _ Hag); reflexivity|..];
      (destruct b; [apply zagree_undef_r in Hag; discriminate|..]; apply IHs; exact Hag).
  - simpl. rewrite (IHs path a b Hag). reflexivity.
Qed.

(** *** Issues and paths *)

Lemma mark_valid (d : bool) (v y : jval) : mark d v = ZValid y -> d = false /\ v = y.
Proof. destruct d; simpl; intros H; inversion H; auto. Qed.

(** A successful parse reports no issue. *)
Lemma zparse_valid_nil (s : zschema) :
  forall path v is y, zparse s path v = (is, ZValid y) -> is = [].
Proof.
  induction s as [| | cs | vs | t mn mx IHs | sh Hsh | t IHs | t d IHs | t f m IHs]
    using zschema_ind'; intros path v is y H.
  - simpl in H; destruct v; inversion H; reflexivity.
  - simpl in H; destruct v; inversion H; reflexivity.
  - simpl in H; destruct v; inversion H; subst.
    apply mark_valid in H2; destruct H2 as [H2 _].
    apply negb_false_iff, Nat.eqb_eq, length_zero_iff_nil in H2; exact H2.
  - simpl in H; destruct v; inversion H; auto.
    destruct (existsb _ _); inversion H; reflexivity.
  - destruct v; try (simpl in H; inversion H; fail).
    rewrite zparse_array in H.
    assert (Hel : forall i l is' ys, zelems t path i l = (is', Some (false, ys)) -> is' = []).
    { intros i l0; revert i; induction l0 as [|x r IHl]; intros i is' ys He; simpl in He.
      - inversion He; reflexivity.
      - destruct (zparse t (path ++ [PIdx i])%list x) as [is1 st] eqn:Hx.
        destruct (zelems t path (S i) r) as [is2 rest] eqn:Hr.
        injection He as E1 E2; subst.
        destruct st as [y'|y'|]; destruct rest as [[d' ys']|]; simpl in E2; try discriminate.
        injection E2 as Ed _; subst d'.
        rewrite (IHs _ _ _ _ Hx), (IHl _ _ _ Hr); reflexivity. }
    destruct (zelems t path 0 l) as [is_el res] eqn:He.
    destruct res as [[dd ys]|]; injection H as E1 E2; subst; [|discriminate].
    apply mark_valid in E2; destruct E2 as [E2 _].
    apply orb_false_iff in E2; destruct E2 as [-> E3].
    apply negb_false_iff, Nat.eqb_eq, length_zero_iff_nil in E3.
    rewrite (Hel _ _ _ _ He), app_nil_r. exact E3.
  - destruct v; try (simpl in H; inversion H; fail).
    rewrite zparse_object in H.
    assert (Hf : forall sh', Forall (fun kt => forall p w is' y', zparse (snd kt) p w = (is', ZValid y') -> is' = []) sh' ->
                 forall is' ys, zfields sh' path (JObj l) = (is', Some (false, ys)) -> is' = []).
    { intros sh' Hall; induction Hall as [|[k t'] r Ht _ IHr]; intros is' ys He; cbn [zfields] in He.
      - inversion He; reflexivity.
      - destruct (zparse t' (path ++ [PKey k])%list (jget (JObj l) k)) as [is1 st] eqn:Hx.
        destruct (zfields r path (JObj l)) as [is2 rest] eqn:Hr.
        injection He as E1 E2; subst.
        destruct st as [y'|y'|]; destruct rest as [[d' ys']|]; simpl in E2; try discriminate.
        injection E2 as Ed _; subst d'.
        rewrite (Ht _ _ _ _ Hx), (IHr _ _ eq_refl); reflexivity. }
    destruct (zfields sh path (JObj l)) as [is' res] eqn:He.
    destruct res as [[dd ys]|]; injection H as E1 E2; subst; [|discriminate].
    apply mark_valid in E2; destruct E2 as [-> _].
    exact (Hf sh Hsh _ _ He).
  - simpl in H; destruct v; try (inversion H; reflexivity); eapply IHs; exact H.
  - simpl in H; destruct v; eapply IHs; exact H.
  - simpl in H. destruct (zparse t path v) as [is1 st] eqn:Hx.
    destruct st as [y'|y'|]; try (inversion H; fail).
    + destruct (f y'); inversion H; subst. exact (IHs _ _ _ _ Hx).
    + destruct (f y'); inversion H.
Qed.

(** A parse that reports an issue fails. *)
Lemma zod_parse_issue (s : zschema) (v : jval) :
  fst (zparse s [] v) <> [] -> zod_parse s v = inl (fst (zparse s [] v)).
Proof.
  unfold zod_parse. destruct (zparse s [] v) as [is st] eqn:E; simpl; intros Hne.
  destruct st; try reflexivity.
  apply zparse_valid_nil in E. contradiction.
Qed.

(** Every issue is reported below the path it was parsed at. *)
Lemma zparse_paths (s : zschema) :
  forall path v i, In i (fst (zparse s path v)) -> exists q, ipath i = (path ++ q)%list.
Proof.
  induction s as [| | cs | vs | t mn mx IHs | sh Hsh | t IHs | t d IHs | t f m IHs]
    using zschema_ind'; intros path v i H.
  - simpl in H; destruct v; simpl in H; try contradiction;
      destruct H as [<-|[]]; exists []; rewrite app_nil_r; reflexivity.
  - simpl in H; destruct v; simpl in H; try contradiction;
      destruct H as [<-|[]]; exists []; rewrite app_nil_r; reflexivity.
  - simpl in H; destruct v; simpl in H;
      try (destruct H as [<-|[]]; exists []; rewrite app_nil_r; reflexivity).
    unfold number_checks in H. apply in_flat_map in H. destruct H as (c & _ & Hc).
    destruct c as [|c b]; simpl in Hc;
      repeat match goal with
             | Hc : context [if ?x then _ else _] |- _ => destruct x
             end; simpl in Hc; try contradiction;
      destruct Hc as [<-|[]]; exists []; rewrite app_nil_r; reflexivity.
  - simpl in H; destruct v; simpl in H;
      try (destruct H as [<-|[]]; exists []; rewrite app_nil_r; reflexivity).
    destruct (existsb _ _); simpl in H; try contradiction.
    destruct H as [<-|[]]; exists []; rewrite app_nil_r; reflexivity.
  - destruct v; try (simpl in H; destruct H as [<-|[]]; exists []; rewrite app_nil_r; reflexivity).
    rewrite zparse_array in H.
    assert (Hel : forall i0 l0 i', In i' (fst (zelems t path i0 l0)) -> exists q, ipath i' = (path ++ q)%list).
    { intros i0 l0; revert i0; induction l0 as [|x r IHl]; intros i0 i' Hi; simpl in Hi; [contradiction|].
      destruct (zparse t (path ++ [PIdx i0])%list x) as [is1 st] eqn:Hx.
      destruct (zelems t path (S i0) r) as [is2 rest] eqn:Hr.
      simpl in Hi. apply in_app_or in Hi. destruct Hi as [Hi|Hi].
      - pose proof (IHs (path ++ [PIdx i0])%list x i') as Hp. rewrite Hx in Hp.
        destruct (Hp Hi) as [q Hq]. exists ([PIdx i0] ++ q)%list. rewrite Hq, app_assoc. reflexivity.
      - apply (IHl (S i0)). rewrite Hr. exact Hi. }
    destruct (zelems t path 0 l) as [is_el res] eqn:He. simpl in H.
    apply in_app_or in H; destruct H as [H|H]; [|apply in_app_or in H; destruct H as [H|H]].
    + destruct mn as [n|]; [destruct (Nat.ltb _ n)|]; simpl in H; try contradiction.
      destruct H as [<-|[]]; exists []; rewrite app_nil_r; reflexivity.
    + destruct mx as [n|]; [destruct (Nat.ltb n _)|]; simpl in H; try contradiction.
      destruct H as [<-|[]]; exists []; rewrite app_nil_r; reflexivity.
    + apply (Hel 0 l). rewrite He. exact H.
  - destruct v; try (simpl in H; destruct H as [<-|[]]; exists []; rewrite app_nil_r; reflexivity).
    rewrite zparse_object in H.
    assert (Hf : forall sh', Forall (fun kt => forall p w i', In i' (fst (zparse (snd kt) p w)) -> exists q, ipath i' = (p ++ q)%list) sh' ->
                 forall i', In i' (fst (zfields sh' path (JObj l))) -> exists q, ipath i' = (path ++ q)%list).
    { intros sh' Hall; induction Hall as [|[k t'] r Ht _ IHr]; intros i' Hi; cbn [zfields fst] in Hi; [contradiction|].
      destruct (zparse t' (path ++ [PKey k])%list (jget (JObj l) k)) as [is1 st] eqn:Hx.
      destruct (zfields r path (JObj l)) as [is2 rest] eqn:Hr.
      simpl in Hi. apply in_app_or in Hi. destruct Hi as [Hi|Hi].
      - pose proof (Ht (path ++ [PKey k])%list (jget (JObj l) k) i') as Hp. cbn [snd] in Hp. rewrite Hx in Hp.
        destruct (Hp Hi) as [q Hq]. exists ([PKey k] ++ q)%list. rewrite Hq, app_assoc. reflexivity.
      - apply IHr. exact Hi. }
    destruct (zfields sh path (JObj l)) as [is' res] eqn:He. simpl in H.
    apply (Hf sh Hsh). rewrite He. exact H.
  - simpl in H; destruct v; try (simpl in H; contradiction); eapply IHs; exact H.
  - simpl in H; destruct v; eapply IHs; exact H.
  - simpl in H. destruct (zparse t path v) as [is1 st] eqn:Hx.
    pose proof (IHs path v) as Hp. rewrite Hx in Hp.
    destruct st as [y'|y'|]; try (apply Hp; exact H).
    + destruct (f y'); [apply Hp; exact H|]. simpl in H. apply in_app_or in H.
      destruct H as [H|[<-|[]]]; [apply Hp; exact H|exists []; rewrite app_nil_r; reflexivity].
    + destruct (f y'); [apply Hp; exact H|]. simpl in H. apply in_app_or in H.
      destruct H as [H|[<-|[]]]; [apply Hp; exact H|exists []; rewrite app_nil_r; reflexivity].
Qed.

(** *** Registry lookup and handler steps *)

Lemma lookup_own (t : tool) : lookup_handler (tool_name t) = Own t.
Proof. destruct t; reflexivity. Qed.

Lemma lookup_own_inv (name : string) (t : tool) :
  lookup_handler name = Own t -> name = tool_name t.
Proof.
  unfold lookup_handler. destruct (find _ all_tools) as [t'|] eqn:E.
  - intros H; inversion H; subst. apply find_some in E. destruct E as [_ E].
    apply String.eqb_eq in E. symmetry; exact E.
  - destruct (find _ proto_members) as [[? ?]|]; discriminate.
Qed.

(** A request is sent only by a registered handler whose prelude did not throw. *)
Lemma dispatch_sent (env : environment) (remote : request -> raw_response)
  (name : string) (args : jval) (req : request) :
  In req (fst (dispatch env remote name args)) ->
  exists t k, name = tool_name t /\ handler t env args = Ok (HCall req k).
Proof.
  unfold dispatch. destruct (lookup_handler name) as [t|m|] eqn:L.
  - destruct (handler t env args) as [[v|r k]|e] eqn:H; simpl; try tauto.
    intros [<-|[]]. exists t, k. split; [apply lookup_own_inv; exact L|exact H].
  - destruct (call_builtin m args); simpl; tauto.
  - simpl; tauto.
Qed.

Lemma holds_bind {A : Type} (P : request -> (raw_response -> jval) -> Prop)
  (m : res A) (k : A -> res hstep) :
  (forall a, m = Ok a -> holds P (k a)) -> holds P (bind m k).
Proof. destruct m as [a|e]; simpl; auto. Qed.

Lemma holds_sent (P : request -> (raw_response -> jval) -> Prop) (m : res hstep) req k :
  holds P m -> m = Ok (HCall req k) -> P req k.
Proof. intros H ->; exact H. Qed.

Lemma getEnv_base (env : environment) :
  getEnv env EVOLUTION_API_BASE default_base = Ok (api_base env).
Proof.
  unfold getEnv, api_base. destruct (env_lookup env EVOLUTION_API_BASE) as [v|];
    [destruct (String.eqb v "")|]; reflexivity.
Qed.

Lemma getEnv_some (env : environment) (n v : string) :
  getEnv env n None = Ok v -> env_lookup env n = Some v.
Proof.
  unfold getEnv. destruct (env_lookup env n) as [w|];
    [destruct (String.eqb w "")|]; intros H; inversion H; reflexivity.
Qed.

(** Walk a handler body: binds, the early return, the request. *)
Ltac hsteps :=
  repeat (cbv beta zeta;
    match goal with
    | |- holds _ (bind _ _) =>
        apply holds_bind; let a := fresh "a" in let Ha := fresh "Ha" in intros a Ha
    | |- holds _ (call _ _ _) => unfold call; cbn [holds]
    | |- holds _ (if ?b then _ else _) => destruct b
    | |- holds _ (Ok (HReturn _)) => exact I
    | |- holds _ (Handlers.with_instance _ _ _ _ _) => unfold Handlers.with_instance
    end).

(** Turn what [getEnv] returned into facts about the environment. *)
Ltac env_facts :=
  repeat match goal with
  | H : getEnv _ EVOLUTION_API_BASE default_base = Ok _ |- _ =>
      rewrite getEnv_base in H; injection H as H; subst
  | H : getEnv _ _ None = Ok _ |- _ => apply getEnv_some in H
  end.

Ltac unfold_handler :=
  cbn [handler];
  match goal with |- holds _ (?h _ _) => unfold h end.

(** Every handler builds [https://${apiBase}...]. *)
Lemma handler_url (t : tool) (env : environment) (args : jval) :
  holds (fun req _ => exists rest, url req = "https://" ++ api_base env ++ rest)
        (handler t env args).
Proof. destruct t; unfold_handler; hsteps; env_facts; eexists; reflexivity. Qed.

(** Pick the route of [https://${apiBase}<route>/${instanceName}]. *)
Ltac split_route :=
  match goal with
  | |- exists r i, _ /\ _ = _ ++ _ ++ (r ++ "/" ++ i) =>
      match goal with
      | |- context [("/" ++ (?route ++ ("/" ++ ?inst)))%string] =>
          exists ("/" ++ route), inst
      | |- context [("https://" ++ _ ++ (?lit ++ ?inst))%string] =>
          exists (substring 0 (String.length lit - 1) lit), inst
      end;
      split; [assumption|reflexivity]
  end.

(** The URL of each handler: two fixed instance-management endpoints, and
    every other one ends in [/${EVOLUTION_INSTANCE}]. *)
Lemma handler_route (t : tool) (env : environment) (args : jval) :
  holds (fun req _ =>
    match t with
    | create_instance => url req = "https://" ++ api_base env ++ "/instance/create"
    | fetch_instances => url req = "https://" ++ api_base env ++ "/instance/fetchInstances"
    | _ => exists route inst, env_lookup env EVOLUTION_INSTANCE = Some inst /\
             url req = "https://" ++ api_base env ++ (route ++ "/" ++ inst)
    end) (handler t env args).
Proof. destruct t; unfold_handler; hsteps; env_facts; try reflexivity; split_route. Qed.

(** The headers of each handler. *)
Lemma handler_headers (t : tool) (env : environment) (args : jval) :
  holds (fun req _ =>
    match t with
    | connect_instance => headers req = []
    | _ => exists k, env_lookup env EVOLUTION_APIKEY = Some k /\ In ("apikey", k) (headers req)
    end) (handler t env args).
Proof.
  destruct t; unfold_handler; hsteps; env_facts; try reflexivity;
    (eexists; split; [eassumption|simpl; auto]).
Qed.

(** Once the request is sent, whatever the server answers becomes an envelope. *)
Lemma handler_settles (t : tool) (env : environment) (args : jval) :
  holds (fun _ k => forall r, exists text, k r = envelope text) (handler t env args).
Proof.
  destruct t; unfold_handler; hsteps; intros r; unfold settle;
    destruct r as [st d|m]; try destruct (_ && _)%bool; eexists; reflexivity.
Qed.

(** The handlers that take arguments parse them before anything else. *)
Lemma handler_parses (t : tool) :
  ignores_args t = false ->
  exists K, forall env args, handler t env args = bind (parse (schema t) args) (K env).
Proof. destruct t; intros H; try discriminate H; eexists; intros env args; reflexivity. Qed.

(** A handler sees its arguments only through [parse]. *)
Lemma handler_parse_eq (t : tool) (env : environment) (a b : jval) :
  zod_parse (schema t) a = zod_parse (schema t) b -> handler t env a = handler t env b.
Proof.
  intros H. destruct (ignores_args t) eqn:Ig.
  - destruct t; try discriminate Ig; reflexivity.
  - destruct (handler_parses t Ig) as [K HK]. rewrite !HK. unfold parse. rewrite H. reflexivity.
Qed.

(** A field that parses to a defined value is in the output object. *)
Lemma zfields_get (path : list path_elem) (v : jval) (k : string) (t : zschema) :
  forall sh is d ys, zfields sh path v = (is, Some (d, ys)) -> sassoc k sh = Some t ->
  exists is' st y, zparse t (path ++ [PKey k])%list (jget v k) = (is', st) /\
    (st = ZValid y \/ st = ZDirty y) /\ (y <> JUndef -> assoc k ys = Some y).
Proof.
  induction sh as [|[k' t'] r IH]; intros is d ys H Hk; [discriminate Hk|].
  cbn [zfields] in H. cbn [sassoc] in Hk.
  destruct (zparse t' (path ++ [PKey k'])%list (jget v k')) as [is1 st] eqn:Hx.
  destruct (zfields r path v) as [is2 rest] eqn:Hr.
  injection H as _ E.
  destruct (String.eqb k k') eqn:Ekk.
  - apply String.eqb_eq in Ekk; subst k'. injection Hk as <-.
    destruct st as [y|y|]; destruct rest as [[d' ys']|]; try discriminate E;
      injection E as _ <-; exists is1; eexists; exists y;
      (split; [exact Hx|split; [auto|]]);
      intros Hy; destruct y; try (contradiction Hy; reflexivity); simpl; rewrite String.eqb_refl;
      reflexivity.
  - destruct rest as [[d' ys']|]; [|destruct st; discriminate E].
    destruct (IH _ _ _ eq_refl Hk) as (is' & st' & y & H1 & H2 & H3).
    exists is', st', y. split; [exact H1|split; [exact H2|]].
    intros Hy. specialize (H3 Hy).
    destruct st as [y'|y'|]; try discriminate E; injection E as _ <-;
      destruct y'; try (destruct (jhas v k')); simpl; rewrite ?Ekk; exact H3.
Qed.

(** A successful object parse comes from an object and yields one. *)
Lemma zod_parse_object (sh : list (string * zschema)) (args out : jval) :
  zod_parse (ZObject sh) args = inr out ->
  exists fs is d ys, args = JObj fs /\ out = JObj ys /\
    zfields sh [] (JObj fs) = (is, Some (d, ys)).
Proof.
  unfold zod_parse. destruct args as [| | | | | |fs]; try (simpl; discriminate).
  rewrite zparse_object. destruct (zfields sh [] (JObj fs)) as [is [[d ys]|]] eqn:E;
    [|discriminate].
  destruct d; simpl; intros H; inversion H; subst; exists fs, is, false, ys; auto.
Qed.

(** A defaulted field left out of the arguments carries its parsed default. *)
Lemma default_field (sh : list (string * zschema)) (k : string) (inner : zschema)
  (dflt y : jval) (is : list issue) (args out : jval) :
  sassoc k sh = Some (ZDefault inner dflt) ->
  zparse inner [PKey k] dflt = (is, ZValid y) -> y <> JUndef ->
  zod_parse (ZObject sh) args = inr out -> jget args k = JUndef -> jget out k = y.
Proof.
  intros Hk Hd Hy Hp Ha.
  destruct (zod_parse_object sh args out Hp) as (fs & is0 & d & ys & -> & -> & Hz).
  destruct (zfields_get [] (JObj fs) k _ sh is0 d ys Hz Hk) as (is' & st & y' & H1 & H2 & H3).
  rewrite Ha in H1. simpl in H1. rewrite Hd in H1. injection H1 as _ <-.
  destruct H2 as [H2|H2]; [injection H2 as <-|discriminate H2].
  simpl. rewrite (H3 Hy). reflexivity.
Qed.

(** *** Issues of object schemas *)

Lemma zparse_object_issues (sh : list (string * zschema)) (path : list path_elem)
  (fs : list (string * jval)) :
  fst (zparse (ZObject sh) path (JObj fs)) = fst (zfields sh path (JObj fs)).
Proof. rewrite zparse_object. destruct (zfields sh path (JObj fs)); reflexivity. Qed.

Lemma zfields_issues (k : string) (t : zschema) (r : list (string * zschema))
  (path : list path_elem) (v : jval) :
  fst (zfields ((k, t) :: r) path v) =
  (fst (zparse t (path ++ [PKey k])%list (jget v k)) ++ fst (zfields r path v))%list.
Proof.
  cbn [zfields]. destruct (zparse t (path ++ [PKey k])%list (jget v k)).
  destruct (zfields r path v). reflexivity.
Qed.

(** Issues below a path that never equals [target] are filtered out. *)
Lemma filter_path_nil (l : list issue) (p target : list path_elem) :
  (forall q, path_eqb (p ++ q) target = false) ->
  (forall i, In i l -> exists q, ipath i = (p ++ q)%list) ->
  filter (fun i => path_eqb (ipath i) target) l = [].
Proof.
  intros Hne Hin. induction l as [|i l IH]; [reflexivity|]. simpl.
  destruct (Hin i (or_introl eq_refl)) as [q Hq]. rewrite Hq, Hne.
  apply IH. intros j Hj. apply Hin. right; exact Hj.
Qed.

(** The issues [Schemas.update_message] reports at [key.fromMe] are those of
    the [fromMe] field alone. *)
Lemma update_message_at_fromMe (args : jval) (fs : list (string * jval)) :
  jget args "key" = JObj fs ->
  messages_at Schemas.update_message args key_fromMe =
  map imessage (filter (fun i => path_eqb (ipath i) key_fromMe)
    (fst (zparse (ZRefine ZBoolean is_true_literal refine_message) key_fromMe
                 (jget (JObj fs) "fromMe")))).
Proof.
  intros Hkey. destruct args as [| | | | | |top]; try discriminate Hkey.
  unfold messages_at, Schemas.update_message.
  rewrite zparse_object_issues, !zfields_issues. cbn [zfields fst]. rewrite app_nil_r.
  rewrite filter_app.
  rewrite (filter_path_nil (fst (zparse ZString ([] ++ [PKey "text"])%list (jget (JObj top) "text")))
             ([] ++ [PKey "text"])%list); [|intros q; reflexivity|apply zparse_paths].
  rewrite app_nil_r, Hkey.
  rewrite zparse_object_issues, !zfields_issues. cbn [zfields fst]. rewrite app_nil_r.
  rewrite !filter_app.
  rewrite (filter_path_nil (fst (zparse ZString (([] ++ [PKey "key"]) ++ [PKey "id"])%list
                                  (jget (JObj fs) "id"))) (([] ++ [PKey "key"]) ++ [PKey "id"])%list);
    [|intros q; reflexivity|apply zparse_paths].
  rewrite (filter_path_nil (fst (zparse ZString (([] ++ [PKey "key"]) ++ [PKey "remoteJid"])%list
                                  (jget (JObj fs) "remoteJid"))) (([] ++ [PKey "key"]) ++ [PKey "remoteJid"])%list);
    [|intros q; reflexivity|apply zparse_paths].
  reflexivity.
Qed.

Lemma update_message_rejects (env : environment) (remote : request -> raw_response)
  (args : jval) :
  fst (zparse Schemas.update_message [] args) <> [] ->
  dispatch env remote "update_message" args =
  ([], Raised (Error (validation_message "update_message" (fst (zparse Schemas.update_message [] args))))).
Proof.
  intros Hne. unfold dispatch.
  rewrite (lookup_own update_message : lookup_handler "update_message" = Own update_message).
  cbn [handler]. unfold Handlers.update_message, parse.
  rewrite (zod_parse_issue _ _ Hne). reflexivity.
Qed.

Lemma tool_name_inj (t t' : tool) : tool_name t = tool_name t' -> t = t'.
Proof.
  intros H. pose proof (lookup_own t) as E. rewrite H, lookup_own in E.
  injection E as E. symmetry; exact E.
Qed.



(* ------------------------------------------------------------------ *)
(** ** Properties of the gateway *)

(** C1 (amended): for every tool whose handler parses its arguments (all
    but the nine that ignore them) and every argument value its schema
    rejects, dispatch throws [Error("Input validation failed for tool
    <name>: <path>: <message>, ...")] to the transport, returns no
    envelope, and sends no request. *)
Theorem invalid_args_raise (t : tool) (env : environment)
  (remote : request -> raw_response) (args : jval) (is : list issue) :
  ignores_args t = false -> zod_parse (schema t) args = inl is ->
  dispatch env remote (tool_name t) args =
  ([], Raised (Error (validation_message (tool_name t) is))).
Proof.
  intros Ig Hp. unfold dispatch. rewrite lookup_own.
  destruct (handler_parses t Ig) as [K HK]. rewrite HK. unfold parse. rewrite Hp.
  reflexivity.
Qed.

Lemma invalid_args_raise_witness :
  ignores_args send_text = false /\
  zod_parse (schema send_text) (JObj []) =
    inl [mk_issue [PKey "number"] "Required"; mk_issue [PKey "text"] "Required"] /\
  dispatch env_scenario remote_down "send_text" (JObj []) =
    ([], Raised (Error (validation_message "send_text"
      [mk_issue [PKey "number"] "Required"; mk_issue [PKey "text"] "Required"]))).
Proof.
  split; [reflexivity|]. split; [vm_compute; reflexivity|].
  apply (invalid_args_raise send_text env_scenario remote_down (JObj [])
           [mk_issue [PKey "number"] "Required"; mk_issue [PKey "text"] "Required"]);
    [reflexivity|vm_compute; reflexivity].
Defined.

(** C1 counterexample: [send_text] with [{}] throws instead of returning an envelope. *)
Lemma invalid_args_not_enveloped :
  dispatch env_scenario remote_down "send_text" (JObj []) =
  ([], Raised (Error "Input validation failed for tool send_text: number: Required, text: Required")).
Proof. vm_compute. reflexivity. Qed.

(** C2: scenario A sends exactly one POST to
    [https://host:8080/message/sendText/inst1] with header [apikey: k] and
    body [{number, text, options: undefined}]. *)
Theorem send_text_scenario_A (remote : request -> raw_response) :
  fst (dispatch env_scenario remote "send_text" args_scenario) =
  [mk_request POST "https://host:8080/message/sendText/inst1"
     [("Content-Type", "application/json"); ("apikey", "k")] None
     (Some (JObj [("number", JStr "5511999998888"); ("text", JStr "hello");
                  ("options", JUndef)]))].
Proof. vm_compute. reflexivity. Qed.

(** C3 (code bug): ["constructor"] is no tool of the registry, yet
    [toolHandlers["constructor"]] is [Object], inherited from
    [Object.prototype]; dispatch calls it and returns the arguments, with
    no unknown-tool error. *)
Theorem inherited_name_dispatched :
  ~ In "constructor" (map tool_name all_tools) /\
  (forall env remote,
     dispatch env remote "constructor" (JObj []) = ([], Returned (JObj []))).
Proof.
  split.
  - simpl. intros H. repeat (destruct H as [H|H]; [discriminate H|]). exact H.
  - intros env remote. reflexivity.
Qed.

(** C4 (amended): only [create_instance] and [fetch_instances] use an
    instance-less URL; every other tool, [delete_instance] included, ends
    its URL in [/${EVOLUTION_INSTANCE}]. *)
Theorem request_url_instance (t : tool) (env : environment)
  (remote : request -> raw_response) (args : jval) (req : request) :
  In req (fst (dispatch env remote (tool_name t) args)) ->
  (t = create_instance /\ url req = "https://" ++ api_base env ++ "/instance/create") \/
  (t = fetch_instances /\ url req = "https://" ++ api_base env ++ "/instance/fetchInstances") \/
  (t <> create_instance /\ t <> fetch_instances /\
   exists route inst, env_lookup env EVOLUTION_INSTANCE = Some inst /\
     url req = "https://" ++ api_base env ++ (route ++ "/" ++ inst)).
Proof.
  intros H. destruct (dispatch_sent _ _ _ _ _ H) as (t' & k & Ht & Hh).
  apply tool_name_inj in Ht. subst t'.
  pose proof (holds_sent _ _ _ _ (handler_route t env args) Hh) as Hr.
  destruct t;
    first [ left; split; [reflexivity|exact Hr]
          | right; left; split; [reflexivity|exact Hr]
          | right; right; split; [discriminate|split; [discriminate|exact Hr]] ].
Qed.

Lemma request_url_instance_witness :
  In req_scenario_A (fst (dispatch env_scenario remote_down (tool_name send_text) args_scenario)) /\
  (send_text = create_instance /\ url req_scenario_A = "https://" ++ api_base env_scenario ++ "/instance/create" \/
   send_text = fetch_instances /\ url req_scenario_A = "https://" ++ api_base env_scenario ++ "/instance/fetchInstances" \/
   send_text <> create_instance /\ send_text <> fetch_instances /\
   exists route inst, env_lookup env_scenario EVOLUTION_INSTANCE = Some inst /\
     url req_scenario_A = "https://" ++ api_base env_scenario ++ (route ++ "/" ++ inst)).
Proof.
  split; [vm_compute; left; reflexivity|].
  apply (request_url_instance send_text env_scenario remote_down args_scenario req_scenario_A).
  vm_compute; left; reflexivity.
Defined.

(** C4 counterexample: [delete_instance] addresses [/instance/delete/inst1]. *)
Lemma delete_instance_url :
  fst (dispatch env_scenario remote_down "delete_instance" (JObj [])) =
  [mk_request DELETE "https://host:8080/instance/delete/inst1" [("apikey", "k")] None None].
Proof. vm_compute. reflexivity. Qed.

(** C5 (amended): [connect_instance] sends no header at all; every other
    tool, [get_connection_state] included, sends [apikey] with the value of
    [EVOLUTION_APIKEY]. *)
Theorem request_apikey (t : tool) (env : environment)
  (remote : request -> raw_response) (args : jval) (req : request) :
  In req (fst (dispatch env remote (tool_name t) args)) ->
  (t = connect_instance /\ headers req = []) \/
  (t <> connect_instance /\
   exists k, env_lookup env EVOLUTION_APIKEY = Some k /\ In ("apikey", k) (headers req)).
Proof.
  intros H. destruct (dispatch_sent _ _ _ _ _ H) as (t' & k & Ht & Hh).
  apply tool_name_inj in Ht. subst t'.
  pose proof (holds_sent _ _ _ _ (handler_headers t env args) Hh) as Hr.
  destruct t;
    first [ left; split; [reflexivity|exact Hr]
          | right; split; [discriminate|exact Hr] ].
Qed.

Lemma request_apikey_witness :
  In req_scenario_A (fst (dispatch env_scenario remote_down (tool_name send_text) args_scenario)) /\
  (send_text = connect_instance /\ headers req_scenario_A = [] \/
   send_text <> connect_instance /\
   exists k, env_lookup env_scenario EVOLUTION_APIKEY = Some k /\
     In ("apikey", k) (headers req_scenario_A)).
Proof.
  split; [vm_compute; left; reflexivity|].
  apply (request_apikey send_text env_scenario remote_down args_scenario req_scenario_A).
  vm_compute; left; reflexivity.
Defined.

(** C5 counterexample: [get_connection_state] sends [apikey]. *)
Lemma get_connection_state_headers :
  fst (dispatch env_scenario remote_down "get_connection_state" (JObj [])) =
  [mk_request GET "https://host:8080/instance/connectionState/inst1" [("apikey", "k")] None None].
Proof. vm_compute. reflexivity. Qed.

(** C6 (amended): for [update_message] with a [key] object, the issues at
    [key.fromMe] are exactly: the refinement message when [fromMe] is
    [false]; zod's [Required] (not the refinement message) when [fromMe] is
    absent; none when [fromMe] is [true].  Whenever there is one, dispatch
    throws the validation error and sends no request. *)
Theorem update_message_fromMe (env : environment) (remote : request -> raw_response)
  (args : jval) (fs : list (string * jval)) :
  jget args "key" = JObj fs ->
  (jget (JObj fs) "fromMe" = JBool false ->
     messages_at Schemas.update_message args key_fromMe = [refine_message]) /\
  (jget (JObj fs) "fromMe" = JUndef ->
     messages_at Schemas.update_message args key_fromMe = ["Required"]) /\
  (jget (JObj fs) "fromMe" = JBool true ->
     messages_at Schemas.update_message args key_fromMe = []) /\
  (messages_at Schemas.update_message args key_fromMe <> [] ->
     exists is, dispatch env remote "update_message" args =
                ([], Raised (Error (validation_message "update_message" is)))).
Proof.
  intros Hkey. rewrite (update_message_at_fromMe args fs Hkey).
  split; [intros ->; reflexivity|].
  split; [intros ->; reflexivity|].
  split; [intros ->; reflexivity|].
  intros Hne. exists (fst (zparse Schemas.update_message [] args)).
  apply update_message_rejects. intros Hnil. apply Hne.
  rewrite <- (update_message_at_fromMe args fs Hkey). unfold messages_at.
  rewrite Hnil. reflexivity.
Qed.

(** C6 counterexample: with [fromMe] left out, the issue is zod's
    [Required], not the refinement message. *)
Lemma update_message_fromMe_absent :
  dispatch env_scenario remote_down "update_message"
    (JObj [("key", JObj [("id", JStr "m1"); ("remoteJid", JStr "j")]); ("text", JStr "t")]) =
  ([], Raised (Error "Input validation failed for tool update_message: key.fromMe: Required")).
Proof. vm_compute. reflexivity. Qed.

Lemma update_message_fromMe_witness :
  messages_at Schemas.update_message
    (JObj [("key", JObj [("id", JStr "m1"); ("remoteJid", JStr "j"); ("fromMe", JBool false)]);
           ("text", JStr "t")]) key_fromMe = [refine_message] /\
  exists is, dispatch env_scenario remote_down "update_message"
    (JObj [("key", JObj [("id", JStr "m1"); ("remoteJid", JStr "j"); ("fromMe", JBool false)]);
           ("text", JStr "t")]) =
    ([], Raised (Error (validation_message "update_message" is))).
Proof.
  destruct (update_message_fromMe env_scenario remote_down
    (JObj [("key", JObj [("id", JStr "m1"); ("remoteJid", JStr "j"); ("fromMe", JBool false)]);
           ("text", JStr "t")])
    [("id", JStr "m1"); ("remoteJid", JStr "j"); ("fromMe", JBool false)] eq_refl)
    as (H1 & _ & _ & H4).
  split; [apply H1; reflexivity|apply H4; vm_compute; discriminate].
Defined.

(** C8: whatever the configuration and the arguments, once [send_text] has
    sent its request and the answer is HTTP 500 with body [{"error":"down"}],
    the dispatcher returns (raises nothing) the envelope whose text is
    [Error sending text message: {"error":"down"}]; and for every tool, once
    a request is sent the outcome is an envelope, whatever the server
    answers. *)
Theorem send_text_error_envelope :
  (forall env remote args req,
     In req (fst (dispatch env remote "send_text" args)) ->
     remote req = HttpResponse 500 (JObj [("error", JStr "down")]) ->
     snd (dispatch env remote "send_text" args) =
       Returned (envelope ("Error sending text message: " ++ "{" ++ dq ++ "error" ++ dq ++ ":"
                           ++ dq ++ "down" ++ dq ++ "}"))) /\
  (forall env remote name args req,
     In req (fst (dispatch env remote name args)) ->
     exists text, snd (dispatch env remote name args) = Returned (envelope text)).
Proof.
  split.
  - intros env remote args req H Hr.
    destruct (dispatch_sent _ _ _ _ _ H) as (t & k & Ht & Hh).
    change "send_text" with (tool_name send_text) in Ht |- *.
    apply tool_name_inj in Ht. subst t.
    unfold dispatch. rewrite lookup_own, Hh. cbn [snd].
    cbn [handler] in Hh. unfold Handlers.send_text, Handlers.with_instance, parse in Hh.
    destruct (zod_parse Schemas.send_text args) as [is|parsed]; cbn [bind] in Hh;
      [discriminate Hh|].
    destruct (getEnv env EVOLUTION_INSTANCE None); cbn [bind] in Hh; [|discriminate Hh].
    destruct (getEnv env EVOLUTION_APIKEY None); cbn [bind] in Hh; [|discriminate Hh].
    destruct (getEnv env EVOLUTION_API_BASE default_base); cbn [bind] in Hh; [|discriminate Hh].
    unfold call in Hh. injection Hh as _ <-.
    rewrite Hr. reflexivity.
  - intros env remote name args req H.
    destruct (dispatch_sent _ _ _ _ _ H) as (t & k & -> & Hh).
    destruct (holds_sent _ _ _ _ (handler_settles t env args) Hh (remote req)) as [text Ht].
    exists text. unfold dispatch. rewrite lookup_own, Hh. simpl. rewrite Ht. reflexivity.
Qed.

Lemma send_text_error_envelope_witness :
  In req_scenario_A (fst (dispatch env_scenario remote_down "send_text" args_scenario)) /\
  remote_down req_scenario_A = HttpResponse 500 (JObj [("error", JStr "down")]) /\
  snd (dispatch env_scenario remote_down "send_text" args_scenario) =
    Returned (envelope ("Error sending text message: " ++ "{" ++ dq ++ "error" ++ dq ++ ":"
                        ++ dq ++ "down" ++ dq ++ "}")).
Proof.
  assert (H : In req_scenario_A (fst (dispatch env_scenario remote_down "send_text" args_scenario)))
    by (vm_compute; left; reflexivity).
  assert (Hr : remote_down req_scenario_A = HttpResponse 500 (JObj [("error", JStr "down")]))
    by reflexivity.
  split; [exact H|split; [exact Hr|]].
  exact (proj1 send_text_error_envelope env_scenario remote_down args_scenario req_scenario_A H Hr).
Defined.

(** C9: two argument values that agree on every field the tool's schema
    declares (undeclared fields free) lead to the same requests and the
    same outcome. *)
Theorem undeclared_fields_ignored (t : tool) (env : environment)
  (remote : request -> raw_response) (a b : jval) :
  zagree (schema t) a b ->
  dispatch env remote (tool_name t) a = dispatch env remote (tool_name t) b.
Proof.
  intros H. unfold dispatch. rewrite lookup_own.
  rewrite (handler_parse_eq t env a b); [reflexivity|].
  unfold zod_parse. rewrite (zparse_agree _ [] a b H). reflexivity.
Qed.

Lemma undeclared_fields_ignored_witness :
  zagree (schema send_text) args_scenario
    (JObj [("number", JStr "5511999998888"); ("text", JStr "hello"); ("admin", JBool true)]) /\
  dispatch env_scenario remote_down (tool_name send_text) args_scenario =
  dispatch env_scenario remote_down (tool_name send_text)
    (JObj [("number", JStr "5511999998888"); ("text", JStr "hello"); ("admin", JBool true)]).
Proof.
  assert (H : zagree (schema send_text) args_scenario
    (JObj [("number", JStr "5511999998888"); ("text", JStr "hello"); ("admin", JBool true)])).
  { right. split; [eexists; reflexivity|]. split; [eexists; reflexivity|].
    simpl. repeat split; left; reflexivity. }
  split; [exact H|].
  apply (undeclared_fields_ignored send_text env_scenario remote_down). exact H.
Defined.

(** C10: every request URL is [https://] followed by the API base
    ([EVOLUTION_API_BASE], or [localhost:8080] when it is unset or empty),
    and none starts with [http://]. *)
Theorem request_https (env : environment) (remote : request -> raw_response)
  (name : string) (args : jval) (req : request) :
  In req (fst (dispatch env remote name args)) ->
  (exists rest, url req = "https://" ++ api_base env ++ rest) /\
  String.prefix "http://" (url req) = false.
Proof.
  intros H. destruct (dispatch_sent _ _ _ _ _ H) as (t & k & _ & Hh).
  destruct (holds_sent _ _ _ _ (handler_url t env args) Hh) as [rest Hr].
  split; [exists rest; exact Hr|]. rewrite Hr. reflexivity.
Qed.

Lemma request_https_witness :
  let env := [("EVOLUTION_APIKEY", "k"); ("EVOLUTION_INSTANCE", "inst1")] in
  let req := mk_request POST "https://localhost:8080/message/sendText/inst1"
               [("Content-Type", "application/json"); ("apikey", "k")] None
               (Some (JObj [("number", JStr "5511999998888"); ("text", JStr "hello");
                            ("options", JUndef)])) in
  In req (fst (dispatch env remote_down "send_text" args_scenario)) /\
  (exists rest, url req = "https://" ++ api_base env ++ rest) /\
  String.prefix "http://" (url req) = false.
Proof.
  intros env req.
  assert (H : In req (fst (dispatch env remote_down "send_text" args_scenario)))
    by (vm_compute; left; reflexivity).
  split; [exact H|]. exact (request_https env remote_down "send_text" args_scenario req H).
Defined.

(* ------------------------------------------------------------------ *)
(** ** Further properties of the code *)

(** *** Helper lemmas *)

Lemma string_list_eqb_eq (a b : list string) : string_list_eqb a b = true -> a = b.
Proof. unfold string_list_eqb. destruct (list_eq_dec string_dec a b); congruence. Qed.

Lemma nodup_strings_NoDup (l : list string) : nodup_strings l = true -> NoDup l.
Proof.
  induction l as [|x r IH]; simpl; intros H; [constructor|].
  apply andb_prop in H. destruct H as [H1 H2]. constructor; [|exact (IH H2)].
  intros Hin.
  assert (E : existsb (String.eqb x) r = true)
    by (apply existsb_exists; exists x; split; [exact Hin|apply String.eqb_refl]).
  rewrite E in H1. discriminate.
Qed.

Lemma sassoc_notin (k : string) (sh : list (string * zschema)) :
  ~ In k (map fst sh) -> sassoc k sh = None.
Proof.
  induction sh as [|[k' t'] r IH]; simpl; intros H; [reflexivity|].
  destruct (String.eqb k k') eqn:E.
  - apply String.eqb_eq in E. subst. tauto.
  - apply IH. tauto.
Qed.

Lemma sassoc_in (k : string) (t : zschema) (sh : list (string * zschema)) :
  sassoc k sh = Some t -> In (k, t) sh.
Proof.
  induction sh as [|[k' t'] r IH]; simpl; intros H; [discriminate|].
  destruct (String.eqb k k') eqn:E.
  - apply String.eqb_eq in E. injection H as <-. subst. left; reflexivity.
  - right; exact (IH H).
Qed.

Lemma jval_eqb_JStr (k : string) (x : jval) : jval_eqb (JStr k) x = true <-> x = JStr k.
Proof.
  destruct x; simpl; split; intros H; try discriminate.
  - apply String.eqb_eq in H. subst. reflexivity.
  - injection H as ->. apply String.eqb_refl.
Qed.

Lemma all_tools_complete (t : tool) : In t all_tools.
Proof. destruct t; simpl; repeat (first [left; reflexivity | right]). Qed.

Lemma schema_object (t : tool) : exists sh, schema t = ZObject sh.
Proof. destruct t; eexists; reflexivity. Qed.

(** Only field [k] reports issues at path [k]. *)
Lemma messages_at_field (sh : list (string * zschema)) (fs : list (string * jval)) (k : string) :
  NoDup (map fst sh) ->
  messages_at (ZObject sh) (JObj fs) [PKey k] =
  match sassoc k sh with
  | Some t => map imessage (filter (fun i => path_eqb (ipath i) [PKey k])
                 (fst (zparse t [PKey k] (jget (JObj fs) k))))
  | None => []
  end.
Proof.
  unfold messages_at. rewrite zparse_object_issues.
  induction sh as [|[k' t'] r IH]; intros Hnd; [reflexivity|].
  rewrite zfields_issues, filter_app, map_app. cbn [sassoc]. simpl in Hnd.
  apply NoDup_cons_iff in Hnd. destruct Hnd as [Hk' Hnd].
  destruct (String.eqb k k') eqn:E.
  - apply String.eqb_eq in E. subst k'. rewrite IH by exact Hnd.
    rewrite (sassoc_notin k r Hk'). rewrite app_nil_r. reflexivity.
  - rewrite (filter_path_nil _ [PKey k']).
    + rewrite IH by exact Hnd. reflexivity.
    + intros q. simpl. rewrite String.eqb_sym, E. reflexivity.
    + intros i Hi. exact (zparse_paths t' _ _ i Hi).
Qed.

Lemma interface_agrees_sound (d : jval) (sh : list (string * zschema)) (k : string)
  (fs : list (string * jval)) :
  interface_agrees d (ZObject sh) = true -> assoc k fs = None ->
  advertised_keys d = map fst sh /\
  (In (JStr k) (advertised_required d) <-> In "Required" (messages_at (ZObject sh) (JObj fs) [PKey k])).
Proof.
  unfold interface_agrees. intros H Hk.
  apply andb_prop in H. destruct H as [H H4].
  apply andb_prop in H. destruct H as [H H3].
  apply andb_prop in H. destruct H as [H1 H2].
  split; [apply string_list_eqb_eq; exact H1|].
  rewrite messages_at_field by (apply nodup_strings_NoDup; exact H2).
  assert (Hu : jget (JObj fs) k = JUndef) by (simpl; rewrite Hk; reflexivity).
  rewrite Hu.
  assert (Hreq : In (JStr k) (advertised_required d) <->
                 existsb (jval_eqb (JStr k)) (advertised_required d) = true).
  { rewrite existsb_exists. split.
    - intros Hin. exists (JStr k). split; [exact Hin|]. apply jval_eqb_JStr. reflexivity.
    - intros (x & Hx & Ex). apply jval_eqb_JStr in Ex. subst. exact Hx. }
  destruct (sassoc k sh) as [t|] eqn:Hs.
  - apply sassoc_in in Hs. rewrite forallb_forall in H3. specialize (H3 _ Hs).
    apply Bool.eqb_prop in H3. cbn [fst snd] in H3. rewrite Hreq, H3. unfold missing_required.
    rewrite existsb_exists. split.
    + intros (m & Hm & Em). apply String.eqb_eq in Em. subst. exact Hm.
    + intros Hm. exists "Required". split; [exact Hm|apply String.eqb_refl].
  - split; [|intros []]. intros Hin. rewrite forallb_forall in H4.
    specialize (H4 _ Hin). apply existsb_exists in H4. destruct H4 as ([k' t'] & Hin' & E).
    simpl in E. apply String.eqb_eq in E. subst k'.
    assert (Hne : sassoc k sh <> None).
    { clear -Hin'. induction sh as [|[k'' t''] r IH]; [destruct Hin'|]. simpl.
      destruct (String.eqb k k'') eqn:E; [discriminate|].
      destruct Hin' as [Eq|Hin']; [injection Eq as -> _; rewrite String.eqb_refl in E; discriminate|].
      exact (IH Hin'). }
    contradiction.
Qed.

(** *** [TOOL_DEFINITIONS] against [toolHandlers] and the zod schemas *)

(** X2: the ListTools handler advertises exactly the tools of [toolHandlers]:
    the same names in the same order, none twice, and every advertised
    name is an own key of [toolHandlers], so dispatching it reaches its
    handler. *)
Theorem list_tools_registry :
  map (fun d => jget d "name") advertised_tools = map (fun t => JStr (tool_name t)) all_tools /\
  NoDup (map tool_name all_tools) /\ (forall t, In t all_tools) /\
  (forall d, In d advertised_tools ->
     exists t, jget d "name" = JStr (tool_name t) /\ lookup_handler (tool_name t) = Own t).
Proof.
  assert (Hn : map (fun d => jget d "name") advertised_tools =
               map (fun t => JStr (tool_name t)) all_tools) by (vm_compute; reflexivity).
  split; [exact Hn|]. split; [apply nodup_strings_NoDup; vm_compute; reflexivity|].
  split; [exact all_tools_complete|].
  intros d Hd. apply (in_map (fun d => jget d "name")) in Hd. rewrite Hn in Hd.
  apply in_map_iff in Hd. destruct Hd as (t & Ht & _).
  exists t. split; [symmetry; exact Ht|apply lookup_own].
Qed.

(** X3: for every advertised tool, [inputSchema.properties] lists the keys of
    the tool's zod schema in the same order, and a field is in
    [inputSchema.required] exactly when leaving it out makes zod report
    [Required] at that field. *)
Theorem advertised_interface (t : tool) (d : jval) (k : string) (fs : list (string * jval)) :
  In d advertised_tools -> jget d "name" = JStr (tool_name t) -> assoc k fs = None ->
  advertised_keys d = shape_keys (schema t) /\
  (In (JStr k) (advertised_required d) <->
   In "Required" (messages_at (schema t) (JObj fs) [PKey k])).
Proof.
  intros Hd Hname Hk.
  assert (Hall : forallb (fun d => forallb (fun t =>
                   if jval_eqb (jget d "name") (JStr (tool_name t))
                   then interface_agrees d (schema t) else true) all_tools) advertised_tools = true)
    by (vm_compute; reflexivity).
  rewrite forallb_forall in Hall. specialize (Hall d Hd).
  rewrite forallb_forall in Hall. specialize (Hall t (all_tools_complete t)).
  rewrite Hname in Hall. simpl in Hall. rewrite String.eqb_refl in Hall.
  destruct (schema_object t) as [sh Hs]. rewrite Hs in Hall |- *.
  exact (interface_agrees_sound d sh k fs Hall Hk).
Qed.

Lemma advertised_interface_witness :
  In ToolDefs.send_text advertised_tools /\
  jget ToolDefs.send_text "name" = JStr (tool_name send_text) /\
  assoc "number" [("text", JStr "hello")] = None /\
  advertised_keys ToolDefs.send_text = shape_keys (schema send_text) /\
  (In (JStr "number") (advertised_required ToolDefs.send_text) <->
   In "Required" (messages_at (schema send_text) (JObj [("text", JStr "hello")]) [PKey "number"])).
Proof.
  assert (H1 : In ToolDefs.send_text advertised_tools)
    by (vm_compute; repeat (first [left; reflexivity | right])).
  assert (H2 : jget ToolDefs.send_text "name" = JStr (tool_name send_text)) by reflexivity.
  assert (H3 : assoc "number" [("text", JStr "hello")] = None) by reflexivity.
  split; [exact H1|]. split; [exact H2|]. split; [exact H3|].
  exact (advertised_interface send_text ToolDefs.send_text "number" _ H1 H2 H3).
Defined.

(** A valid object parse: an object in, an object out, every field valid. *)
Lemma zparse_object_valid (sh : list (string * zschema)) (p : list path_elem) (v y : jval)
  (is : list issue) :
  zparse (ZObject sh) p v = (is, ZValid y) ->
  exists fs ys, v = JObj fs /\ y = JObj ys /\ zfields sh p v = (is, Some (false, ys)).
Proof.
  destruct v as [| | | | | |fs]; try (simpl; intros H; discriminate H).
  rewrite zparse_object. destruct (zfields sh p (JObj fs)) as [is' [[d ys]|]] eqn:E;
    intros H; [|discriminate H].
  injection H as <- Hm. apply mark_valid in Hm. destruct Hm as [-> <-].
  exists fs, ys. auto.
Qed.

Lemma zfields_get_valid (path : list path_elem) (v : jval) (k : string) (t : zschema) :
  forall sh is ys, zfields sh path v = (is, Some (false, ys)) -> sassoc k sh = Some t ->
  exists is' y, zparse t (path ++ [PKey k])%list (jget v k) = (is', ZValid y) /\
    (y <> JUndef -> assoc k ys = Some y).
Proof.
  induction sh as [|[k' t'] r IH]; intros is ys H Hk; [discriminate Hk|].
  cbn [zfields] in H. cbn [sassoc] in Hk.
  destruct (zparse t' (path ++ [PKey k'])%list (jget v k')) as [is1 st] eqn:Hx.
  destruct (zfields r path v) as [is2 rest] eqn:Hr.
  injection H as _ E.
  destruct st as [y|y|]; destruct rest as [[d' ys']|]; try discriminate E;
    injection E as -> <-.
  destruct (String.eqb k k') eqn:Ekk.
  - apply String.eqb_eq in Ekk; subst k'. injection Hk as <-.
    exists is1, y. split; [exact Hx|].
    intros Hy; destruct y; try (contradiction Hy; reflexivity); simpl; rewrite String.eqb_refl;
      reflexivity.
  - destruct (IH _ _ eq_refl Hk) as (is' & y' & H1 & H3).
    exists is', y'. split; [exact H1|].
    intros Hy. specialize (H3 Hy).
    destruct y; try (destruct (jhas v k')); simpl; rewrite ?Ekk; exact H3.
Qed.

(** The validated [key.fromMe] of [update_message] is [true]. *)
Lemma update_message_parsed_fromMe (args out : jval) :
  zod_parse Schemas.update_message args = inr out ->
  jget (jget out "key") "fromMe" = JBool true.
Proof.
  unfold zod_parse. destruct (zparse Schemas.update_message [] args) as [is st] eqn:E.
  destruct st as [y| |]; intros H; try discriminate H. injection H as <-.
  apply zparse_object_valid in E. destruct E as (fs & ys & -> & -> & Hf).
  destruct (zfields_get_valid [] (JObj fs) "key" _ _ _ _ Hf eq_refl) as (is1 & y & Hk & Hy).
  apply zparse_object_valid in Hk. destruct Hk as (fs' & ys' & Hfs' & -> & Hf').
  destruct (zfields_get_valid _ _ "fromMe" _ _ _ _ Hf' eq_refl) as (is2 & z & Hz & Hz').
  assert (Ez : z = JBool true).
  { match type of Hz with context [zparse _ _ ?x] => destruct x as [| |b| | | |] end;
      simpl in Hz; try discriminate Hz.
    destruct b; simpl in Hz; [injection Hz as _ <-; reflexivity|discriminate Hz]. }
  subst z. cbn [jget]. rewrite (Hy ltac:(discriminate)). cbn [jget].
  rewrite (Hz' ltac:(discriminate)). reflexivity.
Qed.

Lemma getEnv_unset (env : environment) (name : string) :
  env_unset env name -> getEnv env name None = Throw (missing_env name).
Proof. unfold getEnv. intros [-> | ->]; reflexivity. Qed.

Lemma getEnv_set (env : environment) (name v : string) :
  env_lookup env name = Some v -> v <> "" -> getEnv env name None = Ok v.
Proof.
  unfold getEnv. intros -> Hv. destruct (String.eqb v "") eqn:E; [|reflexivity].
  apply String.eqb_eq in E. contradiction.
Qed.

Lemma zod_parse_toggle_ephemeral (args : jval) :
  exists is, is <> [] /\ zod_parse Schemas.toggle_ephemeral args = inl is.
Proof.
  assert (He : forall p v, exists is, is <> [] /\
            zparse (ZEnum [num 0; num 86400; num 604800; num 7776000]) p v = (is, ZAborted))
    by (intros p v; destruct v; eexists; (split; [|reflexivity]); discriminate).
  unfold zod_parse. destruct args as [| | | | | |fs];
    try (eexists; split; [|reflexivity]; discriminate).
  unfold Schemas.toggle_ephemeral. rewrite zparse_object. cbn [zfields].
  destruct (He ([] ++ [PKey "expiration"])%list (jget (JObj fs) "expiration")) as (is2 & Hne & ->).
  destruct (zparse ZString ([] ++ [PKey "groupJid"])%list (jget (JObj fs) "groupJid"))
    as [is1 st1].
  exists ((is1 ++ is2 ++ [])%list). split.
  - intros H. apply app_eq_nil in H. destruct H as [_ H]. apply app_eq_nil in H.
    destruct H as [H _]. contradiction.
  - destruct st1; reflexivity.
Qed.

Ltac unfold_handlers :=
  unfold Handlers.create_instance, Handlers.fetch_instances, Handlers.connect_instance,
    Handlers.restart_instance, Handlers.set_presence, Handlers.get_connection_state,
    Handlers.logout_instance, Handlers.delete_instance, Handlers.set_settings,
    Handlers.find_settings, Handlers.send_text, Handlers.send_media, Handlers.send_ptv,
    Handlers.send_whatsapp_audio, Handlers.send_sticker, Handlers.send_location,
    Handlers.send_contact, Handlers.send_reaction, Handlers.send_poll, Handlers.send_list,
    Handlers.send_buttons, Handlers.check_whatsapp_numbers, Handlers.mark_message_as_read,
    Handlers.archive_chat, Handlers.mark_chat_unread, Handlers.delete_message,
    Handlers.fetch_profile_picture_url, Handlers.get_base64_from_media_message,
    Handlers.update_message, Handlers.send_presence, Handlers.update_block_status,
    Handlers.find_contacts, Handlers.find_messages, Handlers.fetch_profile,
    Handlers.update_profile_name, Handlers.update_profile_status,
    Handlers.update_profile_picture, Handlers.remove_profile_picture, Handlers.create_group,
    Handlers.fetch_all_groups, Handlers.find_participants, Handlers.update_participant,
    Handlers.update_group_subject, Handlers.update_group_description,
    Handlers.update_group_picture, Handlers.fetch_invite_code, Handlers.revoke_invite_code,
    Handlers.send_invite, Handlers.find_group_by_invite_code, Handlers.find_group_by_jid,
    Handlers.update_group_setting, Handlers.toggle_ephemeral, Handlers.leave_group,
    Handlers.find_webhook_settings, Handlers.with_instance.

(** Rewrite a handler's [parse] with a successful validation [Ho]. *)
Ltac use_parsed Ho :=
  cbn [schema] in Ho; unfold parse; rewrite ?Ho; cbn [bind];
  try (rewrite (update_message_parsed_fromMe _ _ Ho); cbn [negb truthy]).

(** *** Validation and the environment *)

(** X4: [toggle_ephemeral] never sends a request: zod's enum of numbers admits
    no value (not even the numbers [TOOL_DEFINITIONS] advertises for
    [expiration]), so every call raises the validation error. *)
Theorem toggle_ephemeral_always_rejected (env : environment)
  (remote : request -> raw_response) (args : jval) :
  exists is, is <> [] /\
  dispatch env remote "toggle_ephemeral" args =
    ([], Raised (Error (validation_message "toggle_ephemeral" is))).
Proof.
  destruct (zod_parse_toggle_ephemeral args) as (is & Hne & Hz).
  exists is. split; [exact Hne|].
  unfold dispatch. rewrite (lookup_own toggle_ephemeral : lookup_handler "toggle_ephemeral" = Own toggle_ephemeral).
  cbn [handler]. unfold Handlers.toggle_ephemeral, Handlers.with_instance, parse.
  rewrite Hz. reflexivity.
Qed.

(** X5: the [!parsed.key.fromMe] early return of [update_message] is dead code:
    the handler never returns without throwing or sending its request. *)
Theorem update_message_no_early_return (env : environment) (args v : jval) :
  handler update_message env args <> Ok (HReturn v).
Proof.
  cbn [handler]. unfold Handlers.update_message, parse.
  destruct (zod_parse Schemas.update_message args) as [is|out] eqn:E; cbn [bind]; [discriminate|].
  rewrite (update_message_parsed_fromMe _ _ E). cbn [negb truthy].
  destruct (getEnv env EVOLUTION_INSTANCE None); cbn [bind]; [|discriminate].
  destruct (getEnv env EVOLUTION_APIKEY None); cbn [bind]; [|discriminate].
  destruct (getEnv env EVOLUTION_API_BASE default_base); cbn [bind]; [|discriminate].
  unfold call. discriminate.
Qed.

(** X6: with EVOLUTION_INSTANCE unset or empty, every tool but create_instance
    and fetch_instances, given arguments it accepts (or ignores), raises
    [Missing required environment variable: EVOLUTION_INSTANCE] and sends
    nothing. *)
Theorem missing_instance_raises (t : tool) (env : environment)
  (remote : request -> raw_response) (args : jval) :
  t <> create_instance -> t <> fetch_instances -> env_unset env EVOLUTION_INSTANCE ->
  (ignores_args t = true \/ exists out, zod_parse (schema t) args = inr out) ->
  dispatch env remote (tool_name t) args = ([], Raised (missing_env EVOLUTION_INSTANCE)).
Proof.
  intros H1 H2 Hu Ha. pose proof (getEnv_unset _ _ Hu) as Hg.
  unfold dispatch. rewrite lookup_own.
  destruct Ha as [Hi | (out & Ho)].
  - destruct t; try discriminate Hi; cbn [handler]; unfold_handlers; rewrite Hg; reflexivity.
  - destruct t; try (exfalso; congruence); cbn [handler]; unfold_handlers;
      use_parsed Ho; rewrite Hg; reflexivity.
Qed.

Lemma missing_instance_raises_witness :
  send_text <> create_instance /\ send_text <> fetch_instances /\
  env_unset [("EVOLUTION_APIKEY", "k")] EVOLUTION_INSTANCE /\
  (ignores_args send_text = true \/
   exists out, zod_parse (schema send_text) args_scenario = inr out) /\
  dispatch [("EVOLUTION_APIKEY", "k")] remote_down (tool_name send_text) args_scenario =
    ([], Raised (missing_env EVOLUTION_INSTANCE)).
Proof.
  assert (H1 : send_text <> create_instance) by discriminate.
  assert (H2 : send_text <> fetch_instances) by discriminate.
  assert (H3 : env_unset [("EVOLUTION_APIKEY", "k")] EVOLUTION_INSTANCE) by (left; reflexivity).
  assert (H4 : ignores_args send_text = true \/
               exists out, zod_parse (schema send_text) args_scenario = inr out)
    by (right; eexists; vm_compute; reflexivity).
  split; [exact H1|]. split; [exact H2|]. split; [exact H3|]. split; [exact H4|].
  exact (missing_instance_raises send_text _ remote_down args_scenario H1 H2 H3 H4).
Defined.

(** X7: with EVOLUTION_INSTANCE set and EVOLUTION_APIKEY unset or empty, every
    tool but connect_instance, given arguments it accepts (or ignores),
    raises [Missing required environment variable: EVOLUTION_APIKEY] and
    sends nothing, while connect_instance still sends its request. *)
Theorem missing_apikey_raises (t : tool) (env : environment)
  (remote : request -> raw_response) (args : jval) (inst : string) :
  env_lookup env EVOLUTION_INSTANCE = Some inst -> inst <> "" ->
  env_unset env EVOLUTION_APIKEY ->
  (ignores_args t = true \/ exists out, zod_parse (schema t) args = inr out) ->
  (t <> connect_instance ->
   dispatch env remote (tool_name t) args = ([], Raised (missing_env EVOLUTION_APIKEY))) /\
  fst (dispatch env remote "connect_instance" args) <> [].
Proof.
  intros Hi Hne Hu Ha. pose proof (getEnv_unset _ _ Hu) as Hg.
  pose proof (getEnv_set _ _ _ Hi Hne) as Hgi.
  split.
  - intros Hc. unfold dispatch. rewrite lookup_own.
    destruct Ha as [Hi' | (out & Ho)].
    + destruct t; try discriminate Hi'; try (exfalso; congruence); cbn [handler]; unfold_handlers;
        rewrite ?Hgi, ?getEnv_base, Hg; reflexivity.
    + destruct t; try (exfalso; congruence); cbn [handler]; unfold_handlers;
        use_parsed Ho; rewrite ?Hgi, ?getEnv_base, Hg; reflexivity.
  - unfold dispatch. rewrite (lookup_own connect_instance : lookup_handler "connect_instance" = Own connect_instance).
    cbn [handler]. unfold Handlers.connect_instance. rewrite Hgi, getEnv_base. discriminate.
Qed.

Lemma missing_apikey_raises_witness :
  env_lookup [("EVOLUTION_INSTANCE", "inst1")] EVOLUTION_INSTANCE = Some "inst1" /\
  "inst1" <> "" /\ env_unset [("EVOLUTION_INSTANCE", "inst1")] EVOLUTION_APIKEY /\
  (ignores_args send_text = true \/
   exists out, zod_parse (schema send_text) args_scenario = inr out) /\
  (send_text <> connect_instance ->
   dispatch [("EVOLUTION_INSTANCE", "inst1")] remote_down (tool_name send_text) args_scenario =
     ([], Raised (missing_env EVOLUTION_APIKEY))) /\
  fst (dispatch [("EVOLUTION_INSTANCE", "inst1")] remote_down "connect_instance" args_scenario) <> [].
Proof.
  assert (H1 : env_lookup [("EVOLUTION_INSTANCE", "inst1")] EVOLUTION_INSTANCE = Some "inst1")
    by reflexivity.
  assert (H2 : "inst1" <> "") by discriminate.
  assert (H3 : env_unset [("EVOLUTION_INSTANCE", "inst1")] EVOLUTION_APIKEY) by (left; reflexivity).
  assert (H4 : ignores_args send_text = true \/
               exists out, zod_parse (schema send_text) args_scenario = inr out)
    by (right; eexists; vm_compute; reflexivity).
  split; [exact H1|]. split; [exact H2|]. split; [exact H3|]. split; [exact H4|].
  exact (missing_apikey_raises send_text _ remote_down args_scenario "inst1" H1 H2 H3 H4).
Defined.

(** Every handler's continuation: the success text never starts with
    [Error ], a failure text is the handler's [Error ...] prefix followed by
    the server's error body or axios' message. *)
Lemma handler_texts (t : tool) (env : environment) (args : jval) :
  holds (fun _ k => exists prefix, String.prefix "Error " prefix = true /\
    forall r, exists text, k r = envelope text /\
      String.prefix "Error " text = negb (succeeded r) /\
      (succeeded r = false -> text = prefix ++ error_text r))
    (handler t env args).
Proof.
  destruct t; unfold_handler; hsteps;
    match goal with |- context [settle _ ?p] => exists p end;
    (split; [reflexivity|]); intros r; unfold settle, succeeded;
    destruct r as [st d|m]; try destruct ((200 <=? st) && (st <? 300))%Z;
    eexists; (split; [reflexivity|]);
    (split; [first [reflexivity | destruct (truthy _); reflexivity]|]);
    intros Hs; first [discriminate Hs | reflexivity].
Qed.

Lemma jhas_In (l : list (string * jval)) (k : string) :
  jhas (JObj l) k = true <-> In k (map fst l).
Proof.
  simpl. induction l as [|[k' x] r IH]; simpl; [split; [discriminate|intros []]|].
  destruct (String.eqb k k') eqn:E.
  - apply String.eqb_eq in E. subst. split; [left; reflexivity|reflexivity].
  - rewrite IH. split; [right; exact H|].
    intros [H|H]; [subst; rewrite String.eqb_refl in E; discriminate|exact H].
Qed.

(** The field loop keeps declared keys only, and every declared key the
    input has. *)
Lemma zfields_keys (sh : list (string * zschema)) (p : list path_elem) (v : jval) :
  forall is d ys, zfields sh p v = (is, Some (d, ys)) ->
  incl (map fst ys) (map fst sh) /\
  (forall k, In k (map fst sh) -> jhas v k = true -> In k (map fst ys)).
Proof.
  induction sh as [|[k t] r IH]; intros is d ys H.
  - cbn [zfields] in H. injection H as _ _ <-. split; [apply incl_refl|intros k []].
  - cbn [zfields] in H.
    destruct (zparse t (p ++ [PKey k])%list (jget v k)) as [is1 st].
    destruct (zfields r p v) as [is2 rest].
    injection H as _ E.
    destruct st as [y|y|]; destruct rest as [[d' ys']|]; try discriminate E;
      injection E as _ <-; destruct (IH _ _ _ eq_refl) as [Hi Hp];
      (assert (Hkeep : incl (map fst (match y with
                                      | JUndef => if jhas v k then (k, y) :: ys' else ys'
                                      | _ => (k, y) :: ys' end)) (k :: map fst r) /\
                       (forall k', In k' (k :: map fst r) -> jhas v k' = true ->
                          In k' (map fst (match y with
                                          | JUndef => if jhas v k then (k, y) :: ys' else ys'
                                          | _ => (k, y) :: ys' end)))) ;
       [|exact Hkeep]);
      (split;
       [ destruct y; try destruct (jhas v k); simpl;
         first [apply incl_cons; [left; reflexivity|apply incl_tl; exact Hi]
               | apply incl_tl; exact Hi]
       | intros k' [<-|Hk'] Hh;
         [ destruct y; try rewrite Hh; left; reflexivity
         | destruct y; try destruct (jhas v k); simpl; auto ] ]).
Qed.

(** A parse with a default from [num 1] or [num 10] for
    [z.number().int().positive().optional().default(d)]. *)
Lemma positive_int_field (d : jval) (p : list path_elem) (v y : jval) (is : list issue) :
  (d = num 1 \/ d = num 10) ->
  zparse (ZDefault (ZOptional (ZNumber [NInt; NMin 0 false])) d) p v = (is, ZValid y) ->
  exists m e, y = JNum m e /\ num_is_integer m e = true /\ num_cmp_gt m e 0 = true.
Proof.
  intros Hd H. destruct v as [| | |m e| | |]; try (simpl in H; discriminate H).
  { destruct Hd as [-> | ->]; simpl in H; injection H as _ <-;
      do 2 eexists; (split; [reflexivity|split; reflexivity]). }
  simpl in H. injection H as Hi Hm.
  destruct (num_is_integer m e) eqn:E1; destruct (num_cmp_gt m e 0) eqn:E2;
    simpl in Hm; try discriminate Hm.
  injection Hm as <-. exists m, e. auto.
Qed.

(** *** Results and validated arguments *)

(** X8: for every request the gateway sends, the returned text starts with
    [Error ] exactly when the answer is not a 2xx response (an error status
    or a network failure), and then it is the tool's [Error ...: ] prefix
    followed by [JSON.stringify] of the error body, or axios' message when
    there is no body. *)
Theorem envelope_error_iff_failed (env : environment) (remote : request -> raw_response)
  (name : string) (args : jval) (req : request) :
  In req (fst (dispatch env remote name args)) ->
  exists prefix text,
    snd (dispatch env remote name args) = Returned (envelope text) /\
    String.prefix "Error " prefix = true /\
    String.prefix "Error " text = negb (succeeded (remote req)) /\
    (succeeded (remote req) = false -> text = prefix ++ error_text (remote req)).
Proof.
  intros H. destruct (dispatch_sent _ _ _ _ _ H) as (t & k & -> & Hh).
  destruct (holds_sent _ _ _ _ (handler_texts t env args) Hh) as (prefix & Hp & Hk).
  destruct (Hk (remote req)) as (text & Ht & H1 & H2).
  exists prefix, text. split; [|auto].
  unfold dispatch. rewrite lookup_own, Hh. simpl. rewrite Ht. reflexivity.
Qed.

Lemma envelope_error_iff_failed_witness :
  In req_scenario_A (fst (dispatch env_scenario remote_down "send_text" args_scenario)) /\
  exists prefix text,
    snd (dispatch env_scenario remote_down "send_text" args_scenario) = Returned (envelope text) /\
    String.prefix "Error " prefix = true /\
    String.prefix "Error " text = negb (succeeded (remote_down req_scenario_A)) /\
    (succeeded (remote_down req_scenario_A) = false ->
     text = prefix ++ error_text (remote_down req_scenario_A)).
Proof.
  assert (H : In req_scenario_A (fst (dispatch env_scenario remote_down "send_text" args_scenario)))
    by (vm_compute; left; reflexivity).
  split; [exact H|].
  exact (envelope_error_iff_failed env_scenario remote_down "send_text" args_scenario _ H).
Defined.

(** X9: validation strips undeclared keys: the validated arguments of every
    tool are an object whose keys are declared by the tool's schema, and
    every declared key present in the arguments is kept. *)
Theorem validated_keys_declared (t : tool) (args out : jval) :
  zod_parse (schema t) args = inr out ->
  exists ys, out = JObj ys /\
    (forall k, jhas out k = true -> In k (shape_keys (schema t))) /\
    (forall k, In k (shape_keys (schema t)) -> jhas args k = true -> jhas out k = true).
Proof.
  destruct (schema_object t) as [sh Hs]. rewrite Hs. unfold zod_parse.
  destruct (zparse (ZObject sh) [] args) as [is st] eqn:E.
  destruct st as [y| |]; intros H; try discriminate H. injection H as <-.
  apply zparse_object_valid in E. destruct E as (fs & ys & -> & -> & Hf).
  destruct (zfields_keys _ _ _ _ _ _ Hf) as [Hi Hp].
  exists ys. split; [reflexivity|]. cbn [shape_keys]. split.
  - intros k Hk. apply jhas_In in Hk. exact (Hi k Hk).
  - intros k Hk Ha. apply jhas_In. exact (Hp k Hk Ha).
Qed.

Lemma validated_keys_declared_witness :
  let args := JObj [("number", JStr "5511999998888"); ("admin", JBool true);
                    ("text", JStr "hello")] in
  let out := JObj [("number", JStr "5511999998888"); ("text", JStr "hello")] in
  zod_parse (schema send_text) args = inr out /\
  exists ys, out = JObj ys /\
    (forall k, jhas out k = true -> In k (shape_keys (schema send_text))) /\
    (forall k, In k (shape_keys (schema send_text)) -> jhas args k = true -> jhas out k = true).
Proof.
  intros args out.
  assert (H : zod_parse (schema send_text) args = inr out) by (vm_compute; reflexivity).
  split; [exact H|]. exact (validated_keys_declared send_text args out H).
Defined.

(** X10: [find_messages] always sends [page] and [limit] as positive integers
    (1 and 10 when left out). *)
Theorem find_messages_paging (env : environment) (remote : request -> raw_response)
  (args : jval) (req : request) :
  In req (fst (dispatch env remote "find_messages" args)) ->
  exists payload, body req = Some payload /\
    (forall f, f = "page" \/ f = "limit" ->
     exists m e, jget payload f = JNum m e /\ num_is_integer m e = true /\ num_cmp_gt m e 0 = true) /\
    (jget args "page" = JUndef -> jget payload "page" = num 1) /\
    (jget args "limit" = JUndef -> jget payload "limit" = num 10).
Proof.
  intros H. destruct (dispatch_sent _ _ _ _ _ H) as (t & k & Ht & Hh).
  change "find_messages" with (tool_name find_messages) in Ht.
  apply tool_name_inj in Ht. subst t.
  cbn [handler] in Hh. unfold Handlers.find_messages, Handlers.with_instance, parse in Hh.
  destruct (zod_parse Schemas.find_messages args) as [is|out] eqn:Ho; cbn [bind] in Hh;
    [discriminate Hh|].
  assert (Hpage : jget args "page" = JUndef -> jget out "page" = num 1)
    by (intros Ha; unfold Schemas.find_messages in Ho;
        refine (default_field _ "page" (ZOptional (ZNumber [NInt; NMin 0 false]))
          (num 1) (num 1) [] args out _ _ _ Ho Ha); [reflexivity|reflexivity|discriminate]).
  assert (Hlimit : jget args "limit" = JUndef -> jget out "limit" = num 10)
    by (intros Ha; unfold Schemas.find_messages in Ho;
        refine (default_field _ "limit" (ZOptional (ZNumber [NInt; NMin 0 false]))
          (num 10) (num 10) [] args out _ _ _ Ho Ha); [reflexivity|reflexivity|discriminate]).
  destruct (getEnv env EVOLUTION_INSTANCE None); cbn [bind] in Hh; [|discriminate Hh].
  destruct (getEnv env EVOLUTION_APIKEY None); cbn [bind] in Hh; [|discriminate Hh].
  destruct (getEnv env EVOLUTION_API_BASE default_base); cbn [bind] in Hh; [|discriminate Hh].
  unfold call in Hh. injection Hh as <- _.
  eexists. split; [reflexivity|].
  unfold zod_parse in Ho. destruct (zparse Schemas.find_messages [] args) as [is st] eqn:E.
  destruct st as [y| |]; try discriminate Ho. injection Ho as <-.
  apply zparse_object_valid in E. destruct E as (fs & ys & -> & -> & Hf).
  split; [|split; [exact Hpage|exact Hlimit]].
  intros f Hfe.
  assert (Hget : exists d, (d = num 1 \/ d = num 10) /\
            sassoc f [("where", ZOptional (ZObject [
                         ("key", ZOptional (ZObject [
                            ("remoteJid", zstr_opt); ("fromMe", zbool_opt); ("id", zstr_opt)]))]));
                      ("page", ZDefault (ZOptional (ZNumber [NInt; NMin 0 false])) (num 1));
                      ("limit", ZDefault (ZOptional (ZNumber [NInt; NMin 0 false])) (num 10))] =
            Some (ZDefault (ZOptional (ZNumber [NInt; NMin 0 false])) d) /\
            jget (JObj [("where", jget (JObj ys) "where"); ("page", jget (JObj ys) "page");
                        ("limit", jget (JObj ys) "limit")]) f = jget (JObj ys) f)
    by (destruct Hfe as [-> | ->]; eexists; (split; [|split; reflexivity]); auto).
  destruct Hget as (d & Hd & Hs & ->).
  destruct (zfields_get_valid _ _ f _ _ _ _ Hf Hs) as (is' & y & Hy & Ha).
  destruct (positive_int_field d _ _ _ _ Hd Hy) as (m & e & -> & H1 & H2).
  exists m, e. split; [|auto]. cbn [jget]. rewrite (Ha ltac:(discriminate)). reflexivity.
Qed.

Lemma find_messages_paging_witness :
  let req := mk_request POST "https://host:8080/chat/findMessages/inst1"
               [("Content-Type", "application/json"); ("apikey", "k")] None
               (Some (JObj [("where", JUndef); ("page", num 1); ("limit", num 10)])) in
  In req (fst (dispatch env_scenario remote_down "find_messages" (JObj []))) /\
  exists payload, body req = Some payload /\
    (forall f, f = "page" \/ f = "limit" ->
     exists m e, jget payload f = JNum m e /\ num_is_integer m e = true /\ num_cmp_gt m e 0 = true) /\
    (jget (JObj []) "page" = JUndef -> jget payload "page" = num 1) /\
    (jget (JObj []) "limit" = JUndef -> jget payload "limit" = num 10).
Proof.
  intros req.
  assert (H : In req (fst (dispatch env_scenario remote_down "find_messages" (JObj []))))
    by (vm_compute; left; reflexivity).
  split; [exact H|]. exact (find_messages_paging env_scenario remote_down (JObj []) req H).
Defined.

Lemma assoc_notin (k : string) (l : list (string * jval)) :
  ~ In k (map fst l) -> assoc k l = None.
Proof.
  induction l as [|[k' x] r IH]; simpl; intros H; [reflexivity|].
  destruct (String.eqb k k') eqn:E.
  - apply String.eqb_eq in E. subst. tauto.
  - apply IH. tauto.
Qed.

(** Fields not read by the shape [r] do not matter to its loop. *)
Lemma zfields_cons_irrel (r : list (string * zschema)) (p : list path_elem) (k : string)
  (x : jval) (l : list (string * jval)) :
  ~ In k (map fst r) -> zfields r p (JObj ((k, x) :: l)) = zfields r p (JObj l).
Proof.
  induction r as [|[k' t'] r IH]; intros H; [reflexivity|].
  simpl in H. cbn [zfields].
  assert (Ne : String.eqb k' k = false)
    by (apply String.eqb_neq; intros E; apply H; left; exact E).
  assert (E1 : jget (JObj ((k, x) :: l)) k' = jget (JObj l) k') by (simpl; rewrite Ne; reflexivity).
  assert (E2 : jhas (JObj ((k, x) :: l)) k' = jhas (JObj l) k') by (simpl; rewrite Ne; reflexivity).
  rewrite E1, E2, IH by tauto. reflexivity.
Qed.

Lemma jval_eq_dec_undef (v : jval) : {v = JUndef} + {v <> JUndef}.
Proof. destruct v; [left; reflexivity|right; discriminate ..]. Qed.

Lemma number_checks_nil (p p' : list path_elem) (m e : Z) (cs : list numcheck) :
  number_checks p m e cs = [] -> number_checks p' m e cs = [].
Proof.
  unfold number_checks. induction cs as [|c cs IH]; intros H; [reflexivity|].
  cbn [flat_map] in H |- *.
  apply app_eq_nil in H. destruct H as [H1 H2]. rewrite (IH H2), app_nil_r.
  destruct c as [|b incl]; cbv zeta in H1 |- *;
    repeat match goal with |- context [if ?b then _ else _] => destruct b end;
    first [reflexivity | discriminate H1].
Qed.

Lemma zelems_length (t : zschema) (p : list path_elem) :
  forall l i is d ys, zelems t p i l = (is, Some (d, ys)) -> List.length ys = List.length l.
Proof.
  induction l as [|x r IH]; intros i is d ys H; cbn [zelems] in H.
  - injection H as _ _ <-. reflexivity.
  - destruct (zparse t (p ++ [PIdx i])%list x) as [is1 st].
    destruct (zelems t p (S i) r) as [is2 rest] eqn:E.
    injection H as _ H.
    destruct st; destruct rest as [[d' ys']|]; try discriminate H; injection H as _ <-;
      simpl; rewrite (IH _ _ _ _ E); reflexivity.
Qed.

(** A defined input gives a defined output. *)
Lemma zparse_defined (s : zschema) :
  forall p v is y, v <> JUndef -> zparse s p v = (is, ZValid y) -> y <> JUndef.
Proof.
  induction s as [| | cs | vs | t mn mx IHs | sh Hsh | t IHs | t d IHs | t f m IHs]
    using zschema_ind'; intros p v is y Hv H.
  - simpl in H; destruct v; try discriminate H; injection H as _ <-; discriminate.
  - simpl in H; destruct v; try discriminate H; injection H as _ <-; discriminate.
  - simpl in H; destruct v; try discriminate H; injection H as _ Hm.
    apply mark_valid in Hm. destruct Hm as [_ <-]. discriminate.
  - simpl in H; destruct v; try discriminate H.
    destruct (existsb _ _); [injection H as _ <-; discriminate|discriminate H].
  - destruct v as [| | | | |l|]; try (simpl in H; discriminate H).
    rewrite zparse_array in H. cbv zeta in H.
    destruct (zelems t p 0 l) as [is_el [[d ys]|]]; [|discriminate H].
    injection H as _ Hm. apply mark_valid in Hm. destruct Hm as [_ <-]. discriminate.
  - apply zparse_object_valid in H. destruct H as (fs & ys & _ & -> & _). discriminate.
  - simpl in H. destruct v; try contradiction; exact (IHs _ _ _ _ Hv H).
  - simpl in H. destruct v; try contradiction; exact (IHs _ _ _ _ Hv H).
  - simpl in H. destruct (zparse t p v) as [is1 st] eqn:E.
    destruct st as [y'|y'|]; [destruct (f y')|destruct (f y')|]; try discriminate H.
    injection H as _ <-. exact (IHs _ _ _ _ Hv E).
Qed.

Lemma zelems_idem (t : zschema) :
  (forall p v is y, zparse t p v = (is, ZValid y) -> forall p', zparse t p' y = ([], ZValid y)) ->
  forall p l i is ys, zelems t p i l = (is, Some (false, ys)) ->
  forall p' i', zelems t p' i' ys = ([], Some (false, ys)).
Proof.
  intros IH p l. induction l as [|x r IHl]; intros i is ys H p' i'; cbn [zelems] in H.
  - injection H as _ <-. reflexivity.
  - destruct (zparse t (p ++ [PIdx i])%list x) as [is1 st] eqn:Ex.
    destruct (zelems t p (S i) r) as [is2 rest] eqn:Er.
    injection H as _ H.
    destruct st as [y|y|]; destruct rest as [[d' ys']|]; try discriminate H.
    injection H as -> <-. cbn [zelems].
    rewrite (IH _ _ _ _ Ex), (IHl _ _ _ Er). reflexivity.
Qed.

Lemma zfields_idem (sh : list (string * zschema)) :
  NoDup (map fst sh) ->
  Forall (fun kt => forall p v is y, zparse (snd kt) p v = (is, ZValid y) ->
                    forall p', zparse (snd kt) p' y = ([], ZValid y)) sh ->
  forall p v is ys, zfields sh p v = (is, Some (false, ys)) ->
  forall p', zfields sh p' (JObj ys) = ([], Some (false, ys)).
Proof.
  intros Hnd Hf. induction Hf as [|[k t] r Ht _ IH]; intros p v is ys H p'.
  - cbn [zfields] in H. injection H as _ <-. reflexivity.
  - simpl in Hnd. apply NoDup_cons_iff in Hnd. destruct Hnd as [Hk Hnd].
    cbn [snd] in Ht.
    cbn [zfields] in H.
    destruct (zparse t (p ++ [PKey k])%list (jget v k)) as [is1 st] eqn:Ek.
    destruct (zfields r p v) as [is2 rest] eqn:Er.
    injection H as _ H.
    destruct st as [y|y|]; destruct rest as [[d' ys']|]; try discriminate H.
    injection H as -> <-.
    pose proof (IH Hnd _ _ _ _ Er p') as Hr.
    pose proof (Ht _ _ _ _ Ek (p' ++ [PKey k])%list) as Hy.
    assert (Hk' : ~ In k (map fst ys'))
      by (intros Hin; apply Hk; exact (proj1 (zfields_keys _ _ _ _ _ _ Er) k Hin)).
    assert (Hkeep : forall l, l = (k, y) :: ys' ->
              zfields ((k, t) :: r) p' (JObj l) = ([], Some (false, l))).
    { intros l ->. cbn [zfields]. simpl jget. simpl jhas. rewrite String.eqb_refl.
      rewrite Hy, (zfields_cons_irrel r p' k y ys' Hk), Hr.
      destruct y; reflexivity. }
    destruct y; try (apply Hkeep; reflexivity).
    destruct (jhas v k); [apply Hkeep; reflexivity|].
    cbn [zfields]. simpl jget. simpl jhas. rewrite (assoc_notin k ys' Hk').
    rewrite Hy, Hr. reflexivity.
Qed.

Lemma wf_object (sh : list (string * zschema)) :
  wf_schema (ZObject sh) = true ->
  NoDup (map fst sh) /\ Forall (fun kt => wf_schema (snd kt) = true) sh.
Proof.
  simpl. intros H. apply andb_prop in H. destruct H as [H1 H2].
  split; [exact (nodup_strings_NoDup _ H1)|]. clear H1.
  induction sh as [|[k t] r IH]; [constructor|].
  apply andb_prop in H2. destruct H2 as [H2 H3]. constructor; [exact H2|exact (IH H3)].
Qed.

(** Parsing a parsed value again gives it back, with no issue. *)
Lemma zparse_idem (s : zschema) :
  wf_schema s = true ->
  forall p v is y, zparse s p v = (is, ZValid y) -> forall p', zparse s p' y = ([], ZValid y).
Proof.
  induction s as [| | cs | vs | t mn mx IHs | sh Hsh | t IHs | t d IHs | t f m IHs]
    using zschema_ind'; intros Hwf p v is y H p'.
  - simpl in H; destruct v; try discriminate H; injection H as _ <-; reflexivity.
  - simpl in H; destruct v; try discriminate H; injection H as _ <-; reflexivity.
  - simpl in H; destruct v as [| | |mv ev| | |]; try discriminate H; injection H as Hi Hm.
    apply mark_valid in Hm. destruct Hm as [Hm <-].
    apply negb_false_iff, Nat.eqb_eq, length_zero_iff_nil in Hm.
    simpl. rewrite (number_checks_nil _ p' _ _ _ Hm). reflexivity.
  - simpl in H; destruct v as [| | | |str| |]; try discriminate H.
    destruct (existsb _ vs) eqn:E; [|discriminate H].
    injection H as _ <-. cbn [zparse]. rewrite E. reflexivity.
  - destruct v as [| | | | |l|]; try (simpl in H; discriminate H).
    simpl in Hwf.
    rewrite zparse_array in H. cbv zeta in H.
    destruct (zelems t p 0 l) as [is_el [[d ys]|]] eqn:E; [|discriminate H].
    injection H as _ Hm. apply mark_valid in Hm. destruct Hm as [Hm <-].
    apply orb_false_iff in Hm. destruct Hm as [-> Hm].
    rewrite zparse_array. cbv zeta.
    rewrite (zelems_idem t (IHs Hwf) _ _ _ _ _ E p' 0), (zelems_length _ _ _ _ _ _ _ E).
    destruct mn as [n|]; [destruct (Nat.ltb (List.length l) n)|];
      destruct mx as [n'|]; try destruct (Nat.ltb n' (List.length l));
      simpl in Hm |- *; first [discriminate Hm | reflexivity].
  - destruct (wf_object sh Hwf) as [Hnd Hw].
    apply zparse_object_valid in H. destruct H as (fs & ys & -> & -> & Hf).
    rewrite zparse_object.
    assert (Hall : Forall (fun kt => forall p v is y, zparse (snd kt) p v = (is, ZValid y) ->
                     forall p', zparse (snd kt) p' y = ([], ZValid y)) sh).
    { rewrite Forall_forall in Hsh, Hw |- *. intros kt Hin. exact (Hsh kt Hin (Hw kt Hin)). }
    rewrite (zfields_idem sh Hnd Hall _ _ _ _ Hf p'). reflexivity.
  - simpl in Hwf. simpl in H. destruct v;
      [injection H as _ <-; reflexivity|..];
      pose proof (IHs Hwf _ _ _ _ H p') as Hy; simpl; destruct y; first [exact Hy | reflexivity].
  - simpl in Hwf. simpl in H.
    assert (Hd : forall w, w <> JUndef -> zparse t p w = (is, ZValid y) ->
                 zparse (ZDefault t d) p' y = ([], ZValid y)).
    { intros w Hw Hp. pose proof (zparse_defined t p w is y Hw Hp) as Hy.
      pose proof (IHs Hwf _ _ _ _ Hp p') as Hi.
      simpl. destruct y; first [contradiction | exact Hi]. }
    destruct v; try (refine (Hd _ _ H); discriminate).
    destruct (jval_eq_dec_undef d) as [->|Hnd]; [|exact (Hd d Hnd H)].
    pose proof (IHs Hwf _ _ _ _ H p') as Hi.
    simpl. destruct y; first [exact Hi | reflexivity].
  - simpl in Hwf. simpl in H.
    destruct (zparse t p v) as [is1 st] eqn:E.
    destruct st as [y'|y'|]; [destruct (f y') eqn:Ef|destruct (f y')|]; try discriminate H.
    injection H as _ <-.
    simpl. rewrite (IHs Hwf _ _ _ _ E p'), Ef. reflexivity.
Qed.

Lemma all_schemas_wf (t : tool) : wf_schema (schema t) = true.
Proof. destruct t; vm_compute; reflexivity. Qed.

(** *** Validation is idempotent *)

(** X11: the arguments a tool's schema produced pass the same schema unchanged:
    defaults already filled in stay, stripped keys stay away, and nothing is
    reported. *)
Theorem validation_idempotent (t : tool) (args out : jval) :
  zod_parse (schema t) args = inr out -> zod_parse (schema t) out = inr out.
Proof.
  unfold zod_parse. intros H.
  destruct (zparse (schema t) [] args) as [is st] eqn:E.
  destruct st as [y|y|]; try discriminate H. injection H as <-.
  rewrite (zparse_idem _ (all_schemas_wf t) _ _ _ _ E []). reflexivity.
Qed.

Lemma validation_idempotent_witness :
  zod_parse (schema find_messages) (JObj [("extra", JBool true)])
    = inr (JObj [("page", num 1); ("limit", num 10)]) /\
  zod_parse (schema find_messages) (JObj [("page", num 1); ("limit", num 10)])
    = inr (JObj [("page", num 1); ("limit", num 10)]).
Proof.
  split; [vm_compute; reflexivity|].
  apply (validation_idempotent find_messages (JObj [("extra", JBool true)])).
  vm_compute; reflexivity.
Defined.

Lemma app_not_nil_l {A : Type} (l r : list A) : l <> [] -> (l ++ r)%list <> [].
Proof. intros H E. apply app_eq_nil in E. tauto. Qed.

Lemma app_not_nil_r {A : Type} (l r : list A) : r <> [] -> (l ++ r)%list <> [].
Proof. intros H E. apply app_eq_nil in E. tauto. Qed.

Lemma zelems_fail (t : zschema) (p : list path_elem) :
  (forall p v is st, zparse t p v = (is, st) ->
     match st with ZValid _ => False | _ => True end -> is <> []) ->
  forall l i is res, zelems t p i l = (is, res) ->
  match res with None | Some (true, _) => True | _ => False end -> is <> [].
Proof.
  intros IH l. induction l as [|x r IHl]; intros i is res H Hr; cbn [zelems] in H.
  - injection H as _ <-. contradiction.
  - destruct (zparse t (p ++ [PIdx i])%list x) as [is1 st] eqn:Ex.
    destruct (zelems t p (S i) r) as [is2 rest] eqn:Er.
    injection H as <- <-.
    destruct st as [y|y|];
      [destruct rest as [[[|] ys]|]; try contradiction|..];
      first [ apply app_not_nil_r; refine (IHl _ _ _ Er _); exact I
            | apply app_not_nil_l; refine (IH _ _ _ _ Ex _); exact I ].
Qed.

Lemma zfields_fail (sh : list (string * zschema)) (p : list path_elem) (v : jval) :
  Forall (fun kt => forall p v is st, zparse (snd kt) p v = (is, st) ->
     match st with ZValid _ => False | _ => True end -> is <> []) sh ->
  forall is res, zfields sh p v = (is, res) ->
  match res with None | Some (true, _) => True | _ => False end -> is <> [].
Proof.
  intros Hf. induction Hf as [|[k t] r Ht _ IH]; intros is res H Hr; cbn [zfields] in H.
  - injection H as _ <-. contradiction.
  - cbn [snd] in Ht.
    destruct (zparse t (p ++ [PKey k])%list (jget v k)) as [is1 st] eqn:Ek.
    case_eq (zfields r p v). intros is2 rest Er. rewrite Er in H.
    injection H as <- <-.
    destruct st as [y|y|];
      [destruct rest as [[[|] ys]|]; try contradiction|..];
      first [ apply app_not_nil_r; refine (IH _ _ Er _); exact I
            | apply app_not_nil_l; refine (Ht _ _ _ _ Ek _); exact I ].
Qed.

(** A parse that does not succeed reports at least one issue. *)
Lemma zparse_fail_issues (s : zschema) :
  forall p v is st, zparse s p v = (is, st) ->
  match st with ZValid _ => False | _ => True end -> is <> [].
Proof.
  induction s as [| | cs | vs | t mn mx IHs | sh Hsh | t IHs | t d IHs | t f m IHs]
    using zschema_ind'; intros p v is st H Hst.
  - destruct v; simpl in H; injection H as <- <-; first [contradiction | discriminate].
  - destruct v; simpl in H; injection H as <- <-; first [contradiction | discriminate].
  - destruct v as [| | |mv ev| | |]; simpl in H; injection H as <- <-; try discriminate.
    destruct (number_checks p mv ev cs); [contradiction|discriminate].
  - destruct v as [| | | |str| |]; simpl in H; try (injection H as <- <-; discriminate).
    destruct (existsb _ vs); injection H as <- <-; [contradiction|discriminate].
  - destruct v as [| | | | |l|]; try (simpl in H; injection H as <- <-; discriminate).
    rewrite zparse_array in H. cbv zeta in H.
    destruct (zelems t p 0 l) as [is_el res] eqn:E.
    injection H as <- <-.
    destruct res as [[[|] ys]|].
    + do 2 apply app_not_nil_r. exact (zelems_fail t p IHs l 0 is_el _ E I).
    + destruct mn as [n|]; [destruct (Nat.ltb (List.length l) n)|];
        destruct mx as [n'|]; try destruct (Nat.ltb n' (List.length l));
        simpl in Hst |- *; first [contradiction | discriminate].
    + do 2 apply app_not_nil_r. exact (zelems_fail t p IHs l 0 is_el _ E I).
  - destruct v as [| | | | | |fs]; try (simpl in H; injection H as <- <-; discriminate).
    rewrite zparse_object in H.
    destruct (zfields sh p (JObj fs)) as [is' res] eqn:E.
    injection H as <- <-.
    destruct res as [[[|] ys]|];
      [exact (zfields_fail _ _ _ Hsh _ _ E I) | simpl in Hst; contradiction
      | exact (zfields_fail _ _ _ Hsh _ _ E I)].
  - destruct v; simpl in H; [injection H as <- <-; contradiction|..];
      exact (IHs _ _ _ _ H Hst).
  - destruct v; simpl in H; exact (IHs _ _ _ _ H Hst).
  - simpl in H. destruct (zparse t p v) as [is1 st1] eqn:E.
    destruct st1 as [y|y|]; [destruct (f y)|destruct (f y)|]; injection H as <- <-;
      first [contradiction | apply app_not_nil_r; discriminate | exact (IHs _ _ _ _ E I)].
Qed.

(** *** Rejected arguments *)

(** X12: when a tool's input schema rejects the arguments, the [ZodError] the
    dispatcher turns into its message carries at least one issue. *)
Theorem rejected_arguments_have_issues (t : tool) (args : jval) (is : list issue) :
  zod_parse (schema t) args = inl is -> is <> [].
Proof.
  unfold zod_parse. destruct (zparse (schema t) [] args) as [is' st] eqn:E.
  intros H. destruct st; try discriminate H; injection H as <-;
    exact (zparse_fail_issues _ _ _ _ _ E I).
Qed.

Lemma rejected_arguments_have_issues_witness :
  exists is, zod_parse (schema send_text) (JObj [("number", num 5)]) = inl is /\ is <> [].
Proof.
  exists (match zod_parse (schema send_text) (JObj [("number", num 5)]) with
          | inl is => is | inr _ => [] end).
  split; [vm_compute; reflexivity|].
  apply (rejected_arguments_have_issues send_text (JObj [("number", num 5)])).
  vm_compute; reflexivity.
Defined.

Lemma zelems_strings (p : list path_elem) :
  forall l i is d ys, zelems ZString p i l = (is, Some (d, ys)) ->
  Forall (fun x => exists s, x = JStr s) ys.
Proof.
  induction l as [|x r IH]; intros i is d ys H; cbn [zelems] in H.
  - injection H as _ _ <-. constructor.
  - destruct (zelems ZString p (S i) r) as [is2 rest] eqn:Er.
    destruct x; cbn [zparse] in H; injection H as _ H; try discriminate H;
      destruct rest as [[d' ys']|]; try discriminate H; injection H as _ <-;
      constructor; eauto.
Qed.

(** [z.array(z.string()).min(1)] only lets a non-empty array of strings through. *)
Lemma nonempty_strings_field (p : list path_elem) (v y : jval) (is : list issue) :
  zparse (ZArray ZString (Some 1) None) p v = (is, ZValid y) ->
  exists l, y = JArr l /\ l <> [] /\ Forall (fun x => exists s, x = JStr s) l.
Proof.
  intros H. destruct v as [| | | | |l0|]; try (simpl in H; discriminate H).
  rewrite zparse_array in H. cbv zeta in H.
  destruct (zelems ZString p 0 l0) as [is_el [[d ys]|]] eqn:E; [|discriminate H].
  injection H as _ Hm. apply mark_valid in Hm. destruct Hm as [Hm <-].
  apply orb_false_iff in Hm. destruct Hm as [_ Hm].
  exists ys. split; [reflexivity|]. split; [|exact (zelems_strings _ _ _ _ _ _ E)].
  rewrite <- length_zero_iff_nil, (zelems_length _ _ _ _ _ _ _ E).
  destruct l0; [discriminate Hm|discriminate].
Qed.

(** [z.number().int().min(1).default(1)] only lets an integer of at least 1 through. *)
Lemma count_field (p : list path_elem) (v y : jval) (is : list issue) :
  zparse (ZDefault (ZNumber [NInt; NMin 1 true]) (num 1)) p v = (is, ZValid y) ->
  exists m e, y = JNum m e /\ num_is_integer m e = true /\ num_cmp_ge m e 1 = true.
Proof.
  intros H. destruct v as [| | |m e| | |]; try (simpl in H; discriminate H).
  { simpl in H. injection H as _ <-. do 2 eexists; (split; [reflexivity|split; reflexivity]). }
  simpl in H. injection H as Hi Hm.
  destruct (num_is_integer m e) eqn:E1; destruct (num_cmp_ge m e 1) eqn:E2;
    simpl in Hm; try discriminate Hm.
  injection Hm as <-. exists m, e. auto.
Qed.

(** *** The poll payload *)

(** X13: every request [send_poll] sends carries, under [poll], a
    [selectableCount] that is an integer of at least 1 (the default 1 when it
    was omitted) and a non-empty array of strings as [values]. *)
Theorem send_poll_payload (env : environment) (remote : request -> raw_response)
  (args : jval) (req : request) :
  In req (fst (dispatch env remote "send_poll" args)) ->
  exists payload, body req = Some payload /\
    (exists m e, jget (jget payload "poll") "selectableCount" = JNum m e /\
                 num_is_integer m e = true /\ num_cmp_ge m e 1 = true) /\
    (exists l, jget (jget payload "poll") "values" = JArr l /\ l <> [] /\
               Forall (fun x => exists s, x = JStr s) l) /\
    (jget args "selectableCount" = JUndef ->
     jget (jget payload "poll") "selectableCount" = num 1).
Proof.
  intros H. destruct (dispatch_sent _ _ _ _ _ H) as (t & k & Ht & Hh).
  change "send_poll" with (tool_name send_poll) in Ht.
  apply tool_name_inj in Ht. subst t.
  cbn [handler] in Hh. unfold Handlers.send_poll, Handlers.with_instance, parse in Hh.
  destruct (zod_parse Schemas.send_poll args) as [is|out] eqn:Ho; cbn [bind] in Hh;
    [discriminate Hh|].
  assert (Hcount : jget args "selectableCount" = JUndef -> jget out "selectableCount" = num 1)
    by (intros Ha; unfold Schemas.send_poll in Ho;
        refine (default_field _ "selectableCount" (ZNumber [NInt; NMin 1 true])
          (num 1) (num 1) [] args out _ _ _ Ho Ha); [reflexivity|reflexivity|discriminate]).
  destruct (getEnv env EVOLUTION_INSTANCE None); cbn [bind] in Hh; [|discriminate Hh].
  destruct (getEnv env EVOLUTION_APIKEY None); cbn [bind] in Hh; [|discriminate Hh].
  destruct (getEnv env EVOLUTION_API_BASE default_base); cbn [bind] in Hh; [|discriminate Hh].
  unfold call in Hh. injection Hh as <- _.
  eexists. split; [reflexivity|].
  unfold zod_parse in Ho. destruct (zparse Schemas.send_poll [] args) as [is st] eqn:E.
  destruct st as [y| |]; try discriminate Ho. injection Ho as <-.
  apply zparse_object_valid in E. destruct E as (fs & ys & -> & -> & Hf).
  destruct (zfields_get_valid _ _ "selectableCount" _ _ _ _ Hf eq_refl) as (is1 & y1 & Hy1 & Ha1).
  destruct (zfields_get_valid _ _ "values" _ _ _ _ Hf eq_refl) as (is2 & y2 & Hy2 & Ha2).
  destruct (count_field _ _ _ _ Hy1) as (m & e & -> & H1 & H2).
  destruct (nonempty_strings_field _ _ _ _ Hy2) as (l & -> & H3 & H4).
  split; [|split].
  - exists m, e. split; [|auto]. simpl. rewrite (Ha1 ltac:(discriminate)). reflexivity.
  - exists l. split; [|auto]. simpl. rewrite (Ha2 ltac:(discriminate)). reflexivity.
  - exact Hcount.
Qed.

Lemma send_poll_payload_witness :
  let args := JObj [("number", JStr "5511999998888"); ("name", JStr "Lunch?");
                    ("values", JArr [JStr "yes"; JStr "no"])] in
  let req := mk_request POST "https://host:8080/message/sendPoll/inst1"
               [("Content-Type", "application/json"); ("apikey", "k")] None
               (Some (JObj [("number", JStr "5511999998888"); ("options", JUndef);
                            ("poll", JObj [("name", JStr "Lunch?");
                                           ("values", JArr [JStr "yes"; JStr "no"]);
                                           ("selectableCount", num 1)])])) in
  In req (fst (dispatch env_scenario remote_down "send_poll" args)) /\
  exists payload, body req = Some payload /\
    (exists m e, jget (jget payload "poll") "selectableCount" = JNum m e /\
                 num_is_integer m e = true /\ num_cmp_ge m e 1 = true) /\
    (exists l, jget (jget payload "poll") "values" = JArr l /\ l <> [] /\
               Forall (fun x => exists s, x = JStr s) l) /\
    (jget args "selectableCount" = JUndef ->
     jget (jget payload "poll") "selectableCount" = num 1).
Proof.
  intros args req.
  assert (H : In req (fst (dispatch env_scenario remote_down "send_poll" args)))
    by (vm_compute; left; reflexivity).
  split; [exact H|]. exact (send_poll_payload env_scenario remote_down args req H).
Defined.

(** *** Media in base64 *)

(** X14: once the answer of [get_base64_from_media_message] is a 2xx one
    whose [base64] field is truthy, the returned text depends on nothing of
    the answer but its [mimetype]: the base64 data itself is never echoed. *)
Theorem media_base64_not_echoed (env : environment) (remote1 remote2 : request -> raw_response)
  (args : jval) (req : request) (st1 st2 : Z) (d1 d2 : jval) :
  In req (fst (dispatch env remote1 "get_base64_from_media_message" args)) ->
  remote1 req = HttpResponse st1 d1 -> remote2 req = HttpResponse st2 d2 ->
  succeeded (remote1 req) = true -> succeeded (remote2 req) = true ->
  truthy (jget d1 "base64") = true -> truthy (jget d2 "base64") = true ->
  jget d1 "mimetype" = jget d2 "mimetype" ->
  dispatch env remote1 "get_base64_from_media_message" args =
  dispatch env remote2 "get_base64_from_media_message" args.
Proof.
  intros H R1 R2 S1 S2 B1 B2 M.
  destruct (dispatch_sent _ _ _ _ _ H) as (t & k & Ht & Hh).
  change "get_base64_from_media_message" with (tool_name get_base64_from_media_message) in Ht |- *.
  apply tool_name_inj in Ht. subst t.
  unfold dispatch. rewrite lookup_own, Hh.
  cbn [handler] in Hh. unfold Handlers.get_base64_from_media_message, Handlers.with_instance,
    parse in Hh.
  destruct (zod_parse Schemas.get_base64_from_media_message args) as [is|parsed];
    cbn [bind] in Hh; [discriminate Hh|].
  destruct (getEnv env EVOLUTION_INSTANCE None); cbn [bind] in Hh; [|discriminate Hh].
  destruct (getEnv env EVOLUTION_APIKEY None); cbn [bind] in Hh; [|discriminate Hh].
  destruct (getEnv env EVOLUTION_API_BASE default_base); cbn [bind] in Hh; [|discriminate Hh].
  unfold call in Hh. injection Hh as _ <-.
  rewrite R1 in S1 |- *. rewrite R2 in S2 |- *. cbn [succeeded] in S1, S2.
  unfold settle. rewrite S1, S2, B1, B2. unfold fld. rewrite M. reflexivity.
Qed.

Lemma media_base64_not_echoed_witness :
  let key := JObj [("id", JStr "M1"); ("remoteJid", JStr "5511999998888@s.whatsapp.net");
                   ("fromMe", JBool false)] in
  let args := JObj [("messageKey", key)] in
  let req := mk_request POST "https://host:8080/chat/getBase64FromMediaMessage/inst1"
               [("Content-Type", "application/json"); ("apikey", "k")] None
               (Some (JObj [("message", JObj [("key", key)]);
                            ("convertToMp4", JBool false)])) in
  let d1 := JObj [("base64", JStr "AAAA"); ("mimetype", JStr "image/png")] in
  let d2 := JObj [("base64", JStr "BBBBBBBB"); ("mimetype", JStr "image/png"); ("size", num 6)] in
  dispatch env_scenario (fun _ => HttpResponse 200 d1) "get_base64_from_media_message" args =
  dispatch env_scenario (fun _ => HttpResponse 201 d2) "get_base64_from_media_message" args.
Proof.
  intros key args req d1 d2.
  apply (media_base64_not_echoed env_scenario (fun _ => HttpResponse 200 d1)
           (fun _ => HttpResponse 201 d2) args req 200 201 d1 d2);
    first [vm_compute; left; reflexivity | reflexivity].
Defined.

(** *** Declared defaults *)

Lemma number_checks_length (p p' : list path_elem) (m e : Z) (cs : list numcheck) :
  List.length (number_checks p m e cs) = List.length (number_checks p' m e cs).
Proof.
  unfold number_checks. induction cs as [|c cs IH]; [reflexivity|].
  cbn [flat_map]. rewrite !length_app, IH. f_equal.
  destruct c as [|b incl]; cbv zeta;
    repeat match goal with |- context [if ?b then _ else _] => destruct b end;
    reflexivity.
Qed.

Lemma zelems_status_path (t : zschema) :
  (forall p p' v, snd (zparse t p v) = snd (zparse t p' v)) ->
  forall l i i' p p', snd (zelems t p i l) = snd (zelems t p' i' l).
Proof.
  intros IH l. induction l as [|x r IHl]; intros i i' p p'; [reflexivity|].
  cbn [zelems].
  pose proof (IH (p ++ [PIdx i])%list (p' ++ [PIdx i'])%list x) as E1.
  pose proof (IHl (S i) (S i') p p') as E2.
  destruct (zparse t (p ++ [PIdx i])%list x), (zparse t (p' ++ [PIdx i'])%list x).
  destruct (zelems t p (S i) r), (zelems t p' (S i') r).
  simpl in E1, E2 |- *. subst. reflexivity.
Qed.

Lemma zfields_status_path (sh : list (string * zschema)) (v : jval) :
  Forall (fun kt => forall p p' v, snd (zparse (snd kt) p v) = snd (zparse (snd kt) p' v)) sh ->
  forall p p', snd (zfields sh p v) = snd (zfields sh p' v).
Proof.
  intros Hf. induction Hf as [|[k t] r Ht _ IH]; intros p p'; [reflexivity|].
  cbn [zfields]. cbn [snd] in Ht.
  pose proof (Ht (p ++ [PKey k])%list (p' ++ [PKey k])%list (jget v k)) as E1.
  pose proof (IH p p') as E2.
  destruct (zparse t (p ++ [PKey k])%list (jget v k)), (zparse t (p' ++ [PKey k])%list (jget v k)).
  destruct (zfields r p v), (zfields r p' v).
  simpl in E1, E2 |- *. subst. reflexivity.
Qed.

(** The status of a parse does not depend on the path it is reported under. *)
Lemma zparse_status_path (s : zschema) :
  forall p p' v, snd (zparse s p v) = snd (zparse s p' v).
Proof.
  induction s as [| | cs | vs | t mn mx IHs | sh Hsh | t IHs | t d IHs | t f m IHs]
    using zschema_ind'; intros p p' v.
  - destruct v; reflexivity.
  - destruct v; reflexivity.
  - destruct v as [| | |mv ev| | |]; try reflexivity.
    cbn [zparse]. cbv zeta. rewrite (number_checks_length p p'). reflexivity.
  - destruct v; try reflexivity. cbn [zparse]. destruct (existsb _ vs); reflexivity.
  - destruct v as [| | | | |l|]; try reflexivity.
    rewrite !zparse_array. cbv zeta.
    pose proof (zelems_status_path t IHs l 0 0 p p') as E.
    destruct (zelems t p 0 l) as [a ra], (zelems t p' 0 l) as [b rb]. simpl in E. subst rb.
    destruct ra as [[d ys]|]; [|reflexivity].
    destruct mn as [n|]; [destruct (Nat.ltb (List.length l) n)|];
      destruct mx as [n'|]; try destruct (Nat.ltb n' (List.length l)); reflexivity.
  - destruct v as [| | | | | |fs]; try reflexivity.
    rewrite !zparse_object.
    pose proof (zfields_status_path sh (JObj fs) Hsh p p') as E.
    destruct (zfields sh p (JObj fs)), (zfields sh p' (JObj fs)). simpl in E. subst.
    reflexivity.
  - destruct v; [reflexivity|..]; apply IHs.
  - destruct v; apply IHs.
  - cbn [zparse]. pose proof (IHs p p' v) as E.
    destruct (zparse t p v) as [a sa], (zparse t p' v) as [b sb]. simpl in E. subst.
    destruct sb as [y|y|]; try destruct (f y); reflexivity.
Qed.

Lemma scalar_eqb_eq (a b : jval) : scalar_eqb a b = true -> a = b.
Proof.
  destruct a, b; simpl; intros H; try discriminate H; try reflexivity.
  - apply Bool.eqb_prop in H. subst. reflexivity.
  - apply andb_prop in H. destruct H as [H1 H2].
    apply Z.eqb_eq in H1. apply Z.eqb_eq in H2. subst. reflexivity.
  - apply String.eqb_eq in H. subst. reflexivity.
Qed.

Lemma jget_path_undef (p : list string) : jget_path JUndef p = JUndef.
Proof. unfold jget_path. induction p as [|k p IH]; [reflexivity|]. exact IH. Qed.

Lemma sassoc_nodup (k : string) (t : zschema) (sh : list (string * zschema)) :
  NoDup (map fst sh) -> In (k, t) sh -> sassoc k sh = Some t.
Proof.
  induction sh as [|[k' t'] r IH]; simpl; intros Hnd Hin; [contradiction|].
  apply NoDup_cons_iff in Hnd. destruct Hnd as [Hk Hnd].
  destruct Hin as [E|Hin].
  - injection E as <- <-. rewrite String.eqb_refl. reflexivity.
  - destruct (String.eqb k k') eqn:E.
    + apply String.eqb_eq in E. subst. exfalso. apply Hk.
      apply (in_map fst _ (k', t)). exact Hin.
    + exact (IH Hnd Hin).
Qed.

Lemma defaults_of_object (sh : list (string * zschema)) (p : list string) (d : jval) :
  In (p, d) (defaults_of (ZObject sh)) ->
  exists k t, In (k, t) sh /\
    ((p = [k] /\ exists inner, t = ZDefault inner d) \/
     (exists p', p = k :: p' /\ In (p', d) (defaults_of t))).
Proof.
  induction sh as [|[k t] r IH]; intros H; [contradiction|].
  cbn [defaults_of] in H. apply in_app_or in H. destruct H as [H|H].
  - destruct t; try contradiction. destruct H as [E|[]]. injection E as <- <-.
    eexists k, _. split; [left; reflexivity|]. left. eauto.
  - apply in_app_or in H. destruct H as [H|H].
    + apply in_map_iff in H. destruct H as ([p' d'] & E & Hin). cbn [fst snd] in E.
      injection E as <- <-. exists k, t. split; [left; reflexivity|]. right. eauto.
    + destruct (IH H) as (k' & t' & Hin & Hc). exists k', t'. split; [right; exact Hin|exact Hc].
Qed.

Lemma defaults_of_nonempty (s : zschema) :
  forall p d, In (p, d) (defaults_of s) -> p <> [].
Proof.
  induction s as [| | cs | vs | t mn mx IHs | sh Hsh | t IHs | t d0 IHs | t f m IHs]
    using zschema_ind'; intros p d H; try contradiction; try exact (IHs _ _ H).
  destruct (defaults_of_object sh p d H) as (k & t & _ & [[-> _]|(p' & -> & _)]); discriminate.
Qed.

Lemma defaults_ok_object (sh : list (string * zschema)) :
  defaults_ok (ZObject sh) = true -> Forall (fun kt => defaults_ok (snd kt) = true) sh.
Proof.
  induction sh as [|[k t] r IH]; intros H; [constructor|].
  cbn [defaults_ok] in H. apply andb_prop in H. destruct H as [H1 H2].
  constructor; [exact H1|exact (IH H2)].
Qed.

(** A parse fills every declared default whose field is left out of a
    present object. *)
Lemma defaults_fill (s : zschema) :
  wf_schema s = true -> defaults_ok s = true ->
  forall path v is y, zparse s path v = (is, ZValid y) ->
  forall p d, In (p, d) (defaults_of s) ->
  (exists fs, jget_path v (removelast p) = JObj fs) -> jget_path v p = JUndef ->
  jget_path y p = d.
Proof.
  induction s as [| | cs | vs | t mn mx IHs | sh Hsh | t IHs | t d0 IHs | t f m IHs]
    using zschema_ind'; intros Hwf Hok path v is y H p d Hin Hpar Hund;
    try contradiction.
  - destruct (wf_object sh Hwf) as [Hnd Hw].
    pose proof (defaults_ok_object sh Hok) as Ho.
    destruct (defaults_of_object sh p d Hin) as (k & t & Hkt & Hc).
    rewrite Forall_forall in Hsh, Hw, Ho.
    apply zparse_object_valid in H. destruct H as (fs & ys & -> & -> & Hf).
    destruct (zfields_get_valid _ _ k t _ _ _ Hf (sassoc_nodup k t sh Hnd Hkt))
      as (is' & y' & Hy' & Ha).
    destruct Hc as [[-> (inner & ->)]|(p' & -> & Hin')].
    + change (jget (JObj fs) k = JUndef) in Hund.
      rewrite Hund in Hy'. cbn [zparse app] in Hy'.
      pose proof (Ho _ Hkt) as Hd. cbn [snd defaults_ok] in Hd.
      apply andb_prop in Hd. destruct Hd as [Hd Hv]. apply andb_prop in Hd.
      destruct Hd as [_ Hdu].
      pose proof (zparse_status_path inner [] (path ++ [PKey k])%list d) as Es. rewrite Hy' in Es.
      rewrite Es in Hv. cbn [snd] in Hv. apply scalar_eqb_eq in Hv. subst y'.
      assert (Hne : d <> JUndef) by (intros ->; discriminate Hdu).
      change (jget (JObj ys) k = d). simpl. rewrite (Ha Hne). reflexivity.
    + pose proof (defaults_of_nonempty t p' d Hin') as Hp'.
      destruct p' as [|x q]; [contradiction|].
      destruct Hpar as [fs' Hpar].
      change (jget_path (jget (JObj fs) k) (removelast (x :: q)) = JObj fs') in Hpar.
      change (jget_path (jget (JObj fs) k) (x :: q) = JUndef) in Hund.
      assert (Hw' : jget (JObj fs) k <> JUndef)
        by (intros E; rewrite E, jget_path_undef in Hpar; discriminate Hpar).
      pose proof (zparse_defined t _ _ _ _ Hw' Hy') as Hy'u.
      change (jget_path (jget (JObj ys) k) (x :: q) = d).
      replace (jget (JObj ys) k) with y' by (simpl; rewrite (Ha Hy'u); reflexivity).
      exact (Hsh _ Hkt (Hw _ Hkt) (Ho _ Hkt) _ _ _ _ Hy' _ _ Hin' (ex_intro _ fs' Hpar) Hund).
  - destruct v; simpl in H;
      [destruct Hpar as [fs Hpar]; rewrite jget_path_undef in Hpar; discriminate Hpar|..];
      exact (IHs Hwf Hok _ _ _ _ H _ _ Hin Hpar Hund).
  - cbn [defaults_ok] in Hok. apply andb_prop in Hok. destruct Hok as [Hok _].
    apply andb_prop in Hok. destruct Hok as [Hok _].
    destruct v; simpl in H;
      [destruct Hpar as [fs Hpar]; rewrite jget_path_undef in Hpar; discriminate Hpar|..];
      exact (IHs Hwf Hok _ _ _ _ H _ _ Hin Hpar Hund).
  - cbn [zparse] in H. destruct (zparse t path v) as [is1 st] eqn:E.
    destruct st as [y1|y1|]; [destruct (f y1)|destruct (f y1)|]; try discriminate H.
    injection H as _ <-. exact (IHs Hwf Hok _ _ _ _ E _ _ Hin Hpar Hund).
Qed.

Lemma all_defaults_ok (t : tool) : defaults_ok (schema t) = true.
Proof. destruct t; vm_compute; reflexivity. Qed.

(** C7: for every tool and every [.default(...)] its schema declares (the
    list below: the eight of [schemas.toolInputs], [options.mentionsEveryOne]
    of [send_text] among them, and no default anywhere else, not even in
    arrays), validated arguments whose field was left out of a present
    enclosing object hold the default value. *)
Theorem defaults_present :
  (forall (t : tool) (args out : jval) (p : list string) (d : jval),
     In (p, d) (defaults_of (schema t)) ->
     zod_parse (schema t) args = inr out ->
     (exists fs, jget_path args (removelast p) = JObj fs) ->
     jget_path args p = JUndef ->
     jget_path out p = d) /\
  flat_map (fun t => map (fun pd => (tool_name t, pd)) (defaults_of (schema t))) all_tools =
    [("create_instance", (["qrcode"], JBool true));
     ("send_text", (["options"; "mentionsEveryOne"], JBool false));
     ("send_poll", (["selectableCount"], num 1));
     ("get_base64_from_media_message", (["convertToMp4"], JBool false));
     ("send_presence", (["delay"], num 1200));
     ("find_messages", (["page"], num 1));
     ("find_messages", (["limit"], num 10));
     ("fetch_all_groups", (["getParticipants"], JBool false))] /\
  (forall t, count_defaults (schema t) = List.length (defaults_of (schema t))).
Proof.
  split; [|split].
  - intros t args out p d Hin Hp Hpar Hund.
    unfold zod_parse in Hp. destruct (zparse (schema t) [] args) as [is st] eqn:E.
    destruct st as [y| |]; try discriminate Hp. injection Hp as <-.
    exact (defaults_fill _ (all_schemas_wf t) (all_defaults_ok t) _ _ _ _ E _ _ Hin Hpar Hund).
  - vm_compute. reflexivity.
  - intros t. destruct t; vm_compute; reflexivity.
Qed.

Lemma defaults_present_witness :
  let args := JObj [("number", JStr "5511999998888"); ("text", JStr "hello");
                    ("options", JObj [("delay", num 100)])] in
  zod_parse (schema send_text) args =
    inr (JObj [("number", JStr "5511999998888"); ("text", JStr "hello");
               ("options", JObj [("delay", num 100); ("mentionsEveryOne", JBool false)])]) /\
  jget_path (JObj [("number", JStr "5511999998888"); ("text", JStr "hello");
                   ("options", JObj [("delay", num 100); ("mentionsEveryOne", JBool false)])])
            ["options"; "mentionsEveryOne"] = JBool false.
Proof.
  intros args. split; [vm_compute; reflexivity|].
  apply (proj1 defaults_present send_text args).
  - vm_compute. left. reflexivity.
  - vm_compute. reflexivity.
  - exists [("delay", num 100)]. reflexivity.
  - reflexivity.
Defined.
